(** * Subscription back end: webhook reconciliation, lifecycle operations,
      card bookkeeping, invoice synchronisation and growth analytics.

    A shallow embedding of [routers/webhooks.py], [routers/payment.py] and
    [routers/admin.py].  The handlers are Python functions over a SQLAlchemy
    session and over dictionaries decoded from JSON; here a handler is a
    function from its inputs (request payload, results of the calls to the
    payment platform, the clock) and the tables to a response and the tables
    afterwards.  Exceptions are values of a small error monad, so that each
    [try]/[except] and each uncaught [raise] of the source is visible. *)

From Stdlib Require Import ZArith Bool List Lia String Ascii PrimFloat FloatOps SpecFloat.
From stdpp Require Import base option list gmap strings pretty.

Local Open Scope string_scope.
Local Open Scope Z_scope.
Set Warnings "-register-all".

(** ** Python values

    What [json.loads] and the platform client hand to the handlers: [None],
    booleans, integers, floats, strings, lists and dictionaries with string
    keys.  A dictionary is its list of bindings; a key is looked up at its
    first binding. *)

Inductive value :=
| VNone
| VBool (b : bool)
| VInt (n : Z)
| VFloat (f : float)
| VStr (s : string)
| VList (items : list value)
| VDict (fields : list (string * value)).

(** Exceptions the modelled code can meet.  [DBAPIError] stands for what the
    database driver raises when a statement is refused; [HTTPException]
    carries the status code the handler chose (its detail text is not
    modelled). *)
Inductive exn :=
| AttributeError
| TypeError
| ValueError
| IndexError
| KeyError
| JSONDecodeError
| DBAPIError
| IntegrityError
| OverflowError
| HTTPException (status_code : Z).

Inductive result (A : Type) :=
| Ok (a : A)
| Raise (e : exn).
Arguments Ok {A} a.
Arguments Raise {A} e.

Definition bind {A B : Type} (m : result A) (k : A -> result B) : result B :=
  match m with
  | Ok a => k a
  | Raise e => Raise e
  end.

Notation "x <- m ;; k" := (bind m (fun x => k))
  (at level 20, m at level 99, k at level 200, format "x  <-  m  ;;  '/' k").

(** Truth value of an object, as [if x] and [not x] compute it. *)
Definition truthy (v : value) : bool :=
  match v with
  | VNone => false
  | VBool b => b
  | VInt n => negb (n =? 0)
  | VFloat f => negb (PrimFloat.eqb f 0%float)
  | VStr s => negb (String.eqb s "")
  | VList items => match items with [] => false | _ => true end
  | VDict fields => match fields with [] => false | _ => true end
  end.

Fixpoint assoc (k : string) (fields : list (string * value)) : option value :=
  match fields with
  | [] => None
  | (k', v) :: rest => if String.eqb k k' then Some v else assoc k rest
  end.

(** [d.get(k, dflt)]: only a dictionary has the method. *)
Definition py_get_default (d : value) (k : string) (dflt : value) : result value :=
  match d with
  | VDict fields => Ok (default dflt (assoc k fields))
  | _ => Raise AttributeError
  end.

(** [d.get(k)] *)
Definition py_get (d : value) (k : string) : result value :=
  py_get_default d k VNone.

(** [v[k]] for a string [k] *)
Definition py_getitem (v : value) (k : string) : result value :=
  match v with
  | VDict fields =>
      match assoc k fields with
      | Some x => Ok x
      | None => Raise KeyError
      end
  | _ => Raise TypeError
  end.

(** [v == "literal"] *)
Definition py_str_eqb (v : value) (s : string) : bool :=
  match v with
  | VStr t => String.eqb t s
  | _ => false
  end.

(** [x or y] *)
Definition py_or (x y : value) : value := if truthy x then x else y.

(** [v[0]] *)
Definition py_index0 (v : value) : result value :=
  match v with
  | VList (x :: _) => Ok x
  | VList [] => Raise IndexError
  | VStr (String c _) => Ok (VStr (String c EmptyString))
  | VStr EmptyString => Raise IndexError
  | VDict _ => Raise KeyError
  | _ => Raise TypeError
  end.

(** Substring test, for [p in s] on two strings. *)
Fixpoint substring_of (p s : string) : bool :=
  String.prefix p s ||
  match s with
  | EmptyString => false
  | String _ rest => substring_of p rest
  end.

(** [k in v] for a string [k] *)
Definition py_in (k : string) (v : value) : result bool :=
  match v with
  | VDict fields => Ok (bool_decide (is_Some (assoc k fields)))
  | VStr s => Ok (substring_of k s)
  | VList items => Ok (existsb (fun x => py_str_eqb x k) items)
  | _ => Raise TypeError
  end.

(** [for x in v] *)
Definition py_iter (v : value) : result (list value) :=
  match v with
  | VList items => Ok items
  | VDict fields => Ok (map (fun kv => VStr (fst kv)) fields)
  | VStr s => Ok (map (fun c => VStr (String c EmptyString)) (String.list_ascii_of_string s))
  | _ => Raise TypeError
  end.

(** [float(n)] for an integer [n]: the nearest binary64 number, ties to even. *)
Definition float_of_int (n : Z) : float :=
  SF2Prim (binary_normalize prec emax n 0 false).

(** [s.replace(old, new)] for a one-character [old]. *)
Fixpoint replace_char (old : Ascii.ascii) (new : string) (s : string) : string :=
  match s with
  | EmptyString => EmptyString
  | String c rest =>
      if Ascii.eqb c old then new +:+ replace_char old new rest
      else String c (replace_char old new rest)
  end.

(** ** The data model

    One record per ORM class, with the columns the modelled handlers read or
    write.  A column that the code fills from a platform result keeps the
    Python object it was given.  A date is its proleptic ordinal. *)

Definition date := Z.

Module Customer.
Record t := mk {
  id : Z;
  square_customer_id : value;
  square_subscription_id : value;
  plan_id : value;
  plan_variation_id : value;
  subscription_active : bool;
  subscription_status : string;
  failed_payment_attempts : option Z
}.
End Customer.

Module SubscriptionLog.
Record t := mk {
  customer_id : Z;
  subscription_id : value;
  action : string;
  effective_date : date
}.
End SubscriptionLog.

Module SubscriptionPlan.
Record t := mk {
  id : Z;
  plan_variation_id : string;
  plan_cost : float
}.
End SubscriptionPlan.

Module Payment.
Record t := mk {
  customer_id : Z;
  amount : float;
  status : string;
  square_transaction_id : value
}.
End Payment.

Module PaymentMethod.
Record t := mk {
  customer_id : Z;
  square_card_id : value;
  last_4_digits : value;
  card_brand : value;
  exp_month : value;
  exp_year : value;
  is_default : bool
}.
End PaymentMethod.

Module Invoice.
Record t := mk {
  square_invoice_id : value;
  customer_id : Z;
  subscription_id : value;
  amount : float;
  status : value;
  due_date : date;
  public_url : value
}.
End Invoice.

(** The tables.  A row keeps its position; new rows are appended. *)
Record database := mkdb {
  customers : list Customer.t;
  subscription_logs : list SubscriptionLog.t;
  subscription_plans : list SubscriptionPlan.t;
  payments : list Payment.t;
  payment_methods : list PaymentMethod.t;
  invoices : list Invoice.t
}.

Definition with_customers (cs : list Customer.t) (db : database) : database :=
  mkdb cs (subscription_logs db) (subscription_plans db) (payments db)
       (payment_methods db) (invoices db).

Definition with_subscription_logs (ls : list SubscriptionLog.t) (db : database) : database :=
  mkdb (customers db) ls (subscription_plans db) (payments db)
       (payment_methods db) (invoices db).

Definition with_payments (ps : list Payment.t) (db : database) : database :=
  mkdb (customers db) (subscription_logs db) (subscription_plans db) ps
       (payment_methods db) (invoices db).

Definition with_payment_methods (ms : list PaymentMethod.t) (db : database) : database :=
  mkdb (customers db) (subscription_logs db) (subscription_plans db) (payments db)
       ms (invoices db).

Definition with_invoices (rows : list Invoice.t) (db : database) : database :=
  mkdb (customers db) (subscription_logs db) (subscription_plans db) (payments db)
       (payment_methods db) rows.

(** Setters for the attributes the handlers assign. *)
Definition set_failed_payment_attempts (n : option Z) (c : Customer.t) : Customer.t :=
  Customer.mk (Customer.id c) (Customer.square_customer_id c)
    (Customer.square_subscription_id c) (Customer.plan_id c)
    (Customer.plan_variation_id c) (Customer.subscription_active c)
    (Customer.subscription_status c) n.

Definition set_subscription_status (s : string) (c : Customer.t) : Customer.t :=
  Customer.mk (Customer.id c) (Customer.square_customer_id c)
    (Customer.square_subscription_id c) (Customer.plan_id c)
    (Customer.plan_variation_id c) (Customer.subscription_active c)
    s (Customer.failed_payment_attempts c).

Definition set_subscription_active (b : bool) (c : Customer.t) : Customer.t :=
  Customer.mk (Customer.id c) (Customer.square_customer_id c)
    (Customer.square_subscription_id c) (Customer.plan_id c)
    (Customer.plan_variation_id c) b
    (Customer.subscription_status c) (Customer.failed_payment_attempts c).

Definition set_square_subscription_id (v : value) (c : Customer.t) : Customer.t :=
  Customer.mk (Customer.id c) (Customer.square_customer_id c)
    v (Customer.plan_id c)
    (Customer.plan_variation_id c) (Customer.subscription_active c)
    (Customer.subscription_status c) (Customer.failed_payment_attempts c).

Definition set_square_customer_id (v : value) (c : Customer.t) : Customer.t :=
  Customer.mk (Customer.id c) v
    (Customer.square_subscription_id c) (Customer.plan_id c)
    (Customer.plan_variation_id c) (Customer.subscription_active c)
    (Customer.subscription_status c) (Customer.failed_payment_attempts c).

Definition set_plan (pid pvid : value) (c : Customer.t) : Customer.t :=
  Customer.mk (Customer.id c) (Customer.square_customer_id c)
    (Customer.square_subscription_id c) pid
    pvid (Customer.subscription_active c)
    (Customer.subscription_status c) (Customer.failed_payment_attempts c).

(** [query(Model).filter(Model.column == param).first()] on a text column.
    A string parameter is compared as text and [None] selects the rows
    where the column is null; the database refuses to compare a text column
    with a parameter of another type.

    The query has no [ORDER BY].  Where one row matches, [first_by] is that
    row.  Where several match, the database may return any of them, and
    which one can change once a row was updated; [first_by] then takes the
    first in table order, which is one of the possible answers only.  The
    statements about invoices are therefore made for tables that hold no
    invoice id twice. *)
Definition column_matches (param col : value) : bool :=
  match param, col with
  | VStr s, VStr t => String.eqb t s
  | VNone, VNone => true
  | _, _ => false
  end.

Definition first_by {A : Type} (column : A -> value) (param : value) (rows : list A)
  : result (option (nat * A)) :=
  match param with
  | VStr _ | VNone =>
      Ok (list_find (fun r => Is_true (column_matches param (column r))) rows)
  | _ => Raise DBAPIError
  end.

(** [query(Model).get(pk)] *)
Definition get_by_id {A : Type} (pk : A -> Z) (k : Z) (rows : list A) : option (nat * A) :=
  list_find (fun r => pk r = k) rows.

(** ** The session

    The session factory is configured with [autoflush=False].  A handler
    sees the tables through [working]: the committed rows with the changes
    made so far to loaded objects and by bulk updates.  An object handed to
    [db.add] waits in [pending]; a query does not see it before the next
    commit, which appends the pending rows to their tables.  A request that
    ends in an exception leaves the committed tables as they were at its
    last commit. *)

Record session := mksession {
  committed : database;
  working : database;
  pending : database
}.

Definition no_rows : database := mkdb [] [] [] [] [] [].

Definition append_rows (db new : database) : database :=
  mkdb (customers db ++ customers new)
       (subscription_logs db ++ subscription_logs new)
       (subscription_plans db ++ subscription_plans new)
       (payments db ++ payments new)
       (payment_methods db ++ payment_methods new)
       (invoices db ++ invoices new).

Definition handler (A : Type) : Type := session -> result A * session.

Definition ret {A : Type} (a : A) : handler A := fun s => (Ok a, s).

Definition raise {A : Type} (e : exn) : handler A := fun s => (Raise e, s).

Definition hbind {A B : Type} (m : handler A) (k : A -> handler B) : handler B :=
  fun s =>
    match m s with
    | (Ok a, s') => k a s'
    | (Raise e, s') => (Raise e, s')
    end.

Notation "x <~ m ;; k" := (hbind m (fun x => k))
  (at level 20, m at level 99, k at level 200, format "x  <~  m  ;;  '/' k").

Notation "m ;;; k" := (hbind m (fun _ => k))
  (at level 99, k at level 200, right associativity).

(** A computation without effect on the session. *)
Definition lift {A : Type} (r : result A) : handler A := fun s => (r, s).

(** [try: m except Exception as e: h e] *)
Definition try_except {A : Type} (m : handler A) (h : exn -> handler A) : handler A :=
  fun s =>
    match m s with
    | (Ok a, s') => (Ok a, s')
    | (Raise e, s') => h e s'
    end.

(** Reading the tables as the handler sees them. *)
Definition query {A : Type} (f : database -> A) : handler A :=
  fun s => (Ok (f (working s)), s).

Definition modify (f : database -> database) : handler unit :=
  fun s => (Ok tt, mksession (committed s) (f (working s)) (pending s)).

(** [db.add(obj)] *)
Definition db_add (f : database -> database) : handler unit :=
  fun s => (Ok tt, mksession (committed s) (working s) (f (pending s))).

(** [db.commit()] *)
Definition db_commit : handler unit :=
  fun s =>
    let db := append_rows (working s) (pending s) in
    (Ok tt, mksession db db no_rows).

(** [db.rollback()] *)
Definition db_rollback : handler unit :=
  fun s => (Ok tt, mksession (committed s) (committed s) no_rows).

(** One request: the handler runs in a fresh session over the tables, and
    the tables afterwards are what was committed. *)
Definition run {A : Type} (h : handler A) (db : database) : result A * database :=
  let '(r, s) := h (mksession db db no_rows) in (r, committed s).

(** Assignments to the attributes of the loaded customer at row [i]. *)
Definition update_customer (i : nat) (f : Customer.t -> Customer.t) : handler unit :=
  modify (fun db => with_customers (alter f i (customers db)) db).

Definition add_log (l : SubscriptionLog.t) : handler unit :=
  db_add (fun new => with_subscription_logs (subscription_logs new ++ [l]) new).

Definition add_payment (p : Payment.t) : handler unit :=
  db_add (fun new => with_payments (payments new ++ [p]) new).

Definition add_payment_method (m : PaymentMethod.t) : handler unit :=
  db_add (fun new => with_payment_methods (payment_methods new ++ [m]) new).

Definition add_invoice (r : Invoice.t) : handler unit :=
  db_add (fun new => with_invoices (invoices new ++ [r]) new).

(** ** routers/webhooks.py *)

(** The column [failed_payment_attempts] is added as [INTEGER DEFAULT 0]
    (scripts/add_failed_payment_column.py 7): a 32-bit signed integer. *)
Definition int4_min : Z := -2147483648.
Definition int4_max : Z := 2147483647.

(** [db.commit()] after [failed_payment_attempts] was assigned [n]: the
    flush writes [n] to the column, and the database refuses a value out
    of its range. *)
Definition commit_attempts (n : Z) : handler unit :=
  if (n <? int4_min) || (int4_max <? n) then raise DBAPIError else db_commit.

Module Webhooks.

(** The customer id a notification names:
    [data.get("data", {}).get("object", {}).get("invoice", {})] and then
    [.get("primary_recipient", {}).get("customer_id")]. *)
Definition recipient_customer_id (data : value) : result value :=
  d <- py_get_default data "data" (VDict []) ;;
  o <- py_get_default d "object" (VDict []) ;;
  object_data <- py_get_default o "invoice" (VDict []) ;;
  r <- py_get_default object_data "primary_recipient" (VDict []) ;;
  py_get r "customer_id".

(** [customer.failed_payment_attempts > 0]: comparing [None] with an
    integer raises [TypeError]. *)
Definition attempts_positive (c : Customer.t) : result bool :=
  match Customer.failed_payment_attempts c with
  | Some n => Ok (0 <? n)
  | None => Raise TypeError
  end.

(** [today] is what [date.today()] returns during the call. *)
Definition handle_payment_failed (data : value) (today : date) : handler unit :=
  try_except
    (square_customer_id <~ lift (recipient_customer_id data) ;;
     if negb (truthy square_customer_id) then ret tt else
     found <~ (rows <~ query customers ;;
               lift (first_by Customer.square_customer_id square_customer_id rows)) ;;
     match found with
     | None => ret tt
     | Some (i, customer) =>
         let current_attempts := default 0 (Customer.failed_payment_attempts customer) in
         let customer := set_failed_payment_attempts (Some (current_attempts + 1)) customer in
         update_customer i (set_failed_payment_attempts (Some (current_attempts + 1))) ;;;
         (if (3 <=? default 0 (Customer.failed_payment_attempts customer))
             && negb (String.eqb (Customer.subscription_status customer) "SUSPENDED")
          then
            update_customer i (set_subscription_status "SUSPENDED") ;;;
            update_customer i (set_subscription_active false) ;;;
            add_log (SubscriptionLog.mk (Customer.id customer)
                       (Customer.square_subscription_id customer) "SUSPEND" today)
          else ret tt) ;;;
         commit_attempts (current_attempts + 1)
     end)
    (fun _ => db_rollback).

Definition handle_payment_success (data : value) (today : date) : handler unit :=
  try_except
    (square_customer_id <~ lift (recipient_customer_id data) ;;
     if negb (truthy square_customer_id) then ret tt else
     found <~ (rows <~ query customers ;;
               lift (first_by Customer.square_customer_id square_customer_id rows)) ;;
     match found with
     | None => ret tt
     | Some (i, customer) =>
         positive <~ lift (attempts_positive customer) ;;
         (if positive
          then update_customer i (set_failed_payment_attempts (Some 0))
          else ret tt) ;;;
         (if String.eqb (Customer.subscription_status customer) "SUSPENDED"
          then
            update_customer i (set_subscription_status "ACTIVE") ;;;
            update_customer i (set_subscription_active true) ;;;
            add_log (SubscriptionLog.mk (Customer.id customer)
                       (Customer.square_subscription_id customer) "REACTIVATE" today)
          else ret tt) ;;;
         db_commit
     end)
    (fun _ => db_rollback).

(** What the endpoint answers.  A handler that returns a dictionary is
    answered with status 200; the dictionary's ["status"] entry is
    ["success"], or ["error"] with the exception's text as ["message"]. *)
Inductive body :=
| StatusSuccess
| StatusError (e : exn).

Record response := mkresp {
  status_code : Z;
  content : body
}.

(** [request] is the decoded body, [None] when it is not JSON. *)
Definition square_webhook (request : option value) (today : date) : handler response :=
  try_except
    (data <~ lift (match request with
                   | Some v => Ok v
                   | None => Raise JSONDecodeError
                   end) ;;
     event_type <~ lift (py_get data "type") ;;
     event_id <~ lift (py_get data "event_id") ;;
     (if py_str_eqb event_type "invoice.payment_failed" then
        handle_payment_failed data today
      else if py_str_eqb event_type "invoice.payment_made" then
        handle_payment_success data today
      else ret tt) ;;;
     ret (mkresp 200 StatusSuccess))
    (fun e => ret (mkresp 200 (StatusError e))).

End Webhooks.

(** ** routers/payment.py *)

Module PaymentRouter.

(** [Depends(get_db_user)].  [utils/deps.py] is not among the sources; the
    dependency is taken to hand the handler the loaded row of the
    authenticated customer, here row [u] of the table, and to refuse the
    request when there is none. *)
Definition get_db_user (u : nat) : handler Customer.t :=
  rows <~ query customers ;;
  match rows !! u with
  | Some c => ret c
  | None => raise (HTTPException 401)
  end.

(** [if request.customer_id: customer = db.query(Customer).get(...)] *)
Definition requested_customer (customer_id : option Z)
  : handler (option (nat * Customer.t)) :=
  match customer_id with
  | Some k =>
      if negb (k =? 0) then
        rows <~ query customers ;; ret (get_by_id Customer.id k rows)
      else ret None
  | None => ret None
  end.

(** [db.query(PaymentMethod).filter(PaymentMethod.customer_id == cid)
       .update({"is_default": False})] *)
Definition clear_default (cid : Z) (m : PaymentMethod.t) : PaymentMethod.t :=
  if PaymentMethod.customer_id m =? cid then
    PaymentMethod.mk (PaymentMethod.customer_id m) (PaymentMethod.square_card_id m)
      (PaymentMethod.last_4_digits m) (PaymentMethod.card_brand m)
      (PaymentMethod.exp_month m) (PaymentMethod.exp_year m) false
  else m.

Definition clear_defaults (cid : Z) : handler unit :=
  modify (fun db => with_payment_methods (map (clear_default cid) (payment_methods db)) db).

(** [PaymentMethod(customer_id=..., square_card_id=card_res.get("card_id"),
       ..., is_default=True)] *)
Definition new_payment_method (cid : Z) (card_res : value) : result PaymentMethod.t :=
  card_id <- py_get card_res "card_id" ;;
  last_4 <- py_get card_res "last_4" ;;
  brand <- py_get card_res "brand" ;;
  exp_month <- py_get card_res "exp_month" ;;
  exp_year <- py_get card_res "exp_year" ;;
  Ok (PaymentMethod.mk cid card_id last_4 brand exp_month exp_year true).

(** [validate_card].  [create_res] and [card_res] are what
    [create_square_customer] and [create_card_on_file] return when
    called. *)
Definition validate_card (customer_id : option Z) (create_res card_res : value)
  : handler value :=
  customer <~ requested_customer customer_id ;;
  let sq_customer_id :=
    match customer with
    | Some (_, c) => Customer.square_customer_id c
    | None => VNone
    end in
  sq_customer_id <~
    (if negb (truthy sq_customer_id) then
       success <~ lift (py_get create_res "success") ;;
       if negb (truthy success) then raise (HTTPException 400) else
       sq_customer_id <~ lift (py_get create_res "customer_id") ;;
       match customer with
       | Some (i, _) =>
           update_customer i (set_square_customer_id sq_customer_id) ;;;
           db_commit
       | None => ret tt
       end ;;;
       ret sq_customer_id
     else ret sq_customer_id) ;;
  success <~ lift (py_get card_res "success") ;;
  if negb (truthy success) then raise (HTTPException 400) else
  match customer with
  | Some (_, c) =>
      new_method <~ lift (new_payment_method (Customer.id c) card_res) ;;
      clear_defaults (Customer.id c) ;;;
      add_payment_method new_method ;;;
      db_commit
  | None => ret tt
  end ;;;
  card_id <~ lift (py_get card_res "card_id") ;;
  ret (VDict [("success", VBool true); ("card_id", card_id);
              ("customer_id", sq_customer_id); ("card_details", card_res)]).

(** [save_card].  The call to [update_subscription_card] for a customer
    with an active subscription sits between [db.add] and [db.commit];
    its result is not looked at. *)
Definition save_card (u : nat) (create_res card_res : value) : handler value :=
  user <~ get_db_user u ;;
  (if negb (truthy (Customer.square_customer_id user)) then
     success <~ lift (py_get create_res "success") ;;
     if negb (truthy success) then raise (HTTPException 400) else
     sq_customer_id <~ lift (py_get create_res "customer_id") ;;
     update_customer u (set_square_customer_id sq_customer_id) ;;;
     db_commit
   else ret tt) ;;;
  success <~ lift (py_get card_res "success") ;;
  if negb (truthy success) then raise (HTTPException 400) else
  card_id <~ lift (py_get card_res "card_id") ;;
  clear_defaults (Customer.id user) ;;;
  new_method <~ lift (new_payment_method (Customer.id user) card_res) ;;
  add_payment_method new_method ;;;
  db_commit ;;;
  ret (VDict [("success", VBool true);
              ("message", VStr "Payment method saved successfully");
              ("card_id", card_id)]).

(** [remove_card]: the first method of the user with that card id is
    deleted. *)
Definition remove_card (u : nat) (card_id : string) : handler value :=
  user <~ get_db_user u ;;
  rows <~ query payment_methods ;;
  match list_find (fun m => PaymentMethod.customer_id m = Customer.id user
                            /\ Is_true (py_str_eqb (PaymentMethod.square_card_id m) card_id))
                  rows with
  | Some (i, _) =>
      modify (fun db => with_payment_methods (delete i (payment_methods db)) db) ;;;
      db_commit
  | None => ret tt
  end ;;;
  ret (VDict [("success", VBool true); ("message", VStr "Card removed successfully")]).

(** [dummy_create_subscription]; [h1] and [h2] are the two draws of
    [uuid.uuid4().hex[:12]]. *)
Definition dummy_create_subscription (h1 h2 : string) : value :=
  VDict [("success", VBool true);
         ("subscription_id", VStr ("dummy_sub_" +:+ h1));
         ("subscription", VDict [("status", VStr "ACTIVE");
                                 ("id", VStr ("dummy_sub_" +:+ h2))])].

Definition first_plan (variation : string) (plans : list SubscriptionPlan.t)
  : option (nat * SubscriptionPlan.t) :=
  list_find (fun p => SubscriptionPlan.plan_variation_id p = variation) plans.

Definition activate_sub (customer_id : option Z) (plan_variation_id : string)
    (h1 h2 : string) (today : date) : handler value :=
  customer <~ requested_customer customer_id ;;
  let sq_customer_id :=
    match customer with
    | Some (_, c) => Customer.square_customer_id c
    | None => VNone
    end in
  if negb (truthy sq_customer_id) then raise (HTTPException 400) else
  let res := dummy_create_subscription h1 h2 in
  success <~ lift (py_get res "success") ;;
  if negb (truthy success) then raise (HTTPException 400) else
  match customer with
  | Some (i, c) =>
      subscription_id <~ lift (py_get res "subscription_id") ;;
      update_customer i (set_square_subscription_id subscription_id) ;;;
      update_customer i (set_subscription_active true) ;;;
      update_customer i (set_subscription_status "ACTIVE") ;;;
      db_commit ;;;
      plans <~ query subscription_plans ;;
      match first_plan plan_variation_id plans with
      | Some (_, plan) =>
          add_payment (Payment.mk (Customer.id c) (SubscriptionPlan.plan_cost plan)
                         "PAID" subscription_id)
      | None => ret tt
      end ;;;
      add_log (SubscriptionLog.mk (Customer.id c) subscription_id "ACTIVATE" today) ;;;
      db_commit
  | None => ret tt
  end ;;;
  ret res.

(** [pause_sub]; [res] is what [pause_subscription] returns when called. *)
Definition pause_sub (u : nat) (res : value) (today : date) : handler value :=
  user <~ get_db_user u ;;
  if negb (truthy (Customer.square_subscription_id user)) then raise (HTTPException 404) else
  has_errors <~ lift (py_in "errors" res) ;;
  if has_errors : bool then
    errors <~ lift (py_getitem res "errors") ;;
    raise (HTTPException 400)
  else
  update_customer u (set_subscription_status "PAUSED") ;;;
  add_log (SubscriptionLog.mk (Customer.id user) (Customer.square_subscription_id user)
             "PAUSE" today) ;;;
  db_commit ;;;
  ret res.

Definition resume_sub (u : nat) (res : value) (today : date) : handler value :=
  user <~ get_db_user u ;;
  if negb (truthy (Customer.square_subscription_id user)) then raise (HTTPException 404) else
  has_errors <~ lift (py_in "errors" res) ;;
  if has_errors : bool then
    errors <~ lift (py_getitem res "errors") ;;
    raise (HTTPException 400)
  else
  update_customer u (set_subscription_status "ACTIVE") ;;;
  add_log (SubscriptionLog.mk (Customer.id user) (Customer.square_subscription_id user)
             "RESUME" today) ;;;
  db_commit ;;;
  ret res.

Definition cancel_sub (u : nat) (res : value) (today : date) : handler value :=
  user <~ get_db_user u ;;
  if negb (truthy (Customer.square_subscription_id user)) then raise (HTTPException 404) else
  success <~ lift (py_get res "success") ;;
  if negb (truthy success) then raise (HTTPException 400) else
  update_customer u (set_subscription_active false) ;;;
  update_customer u (set_subscription_status "CANCELED") ;;;
  add_log (SubscriptionLog.mk (Customer.id user) (Customer.square_subscription_id user)
             "CANCEL" today) ;;;
  db_commit ;;;
  ret res.

Definition change_plan (u : nat) (new_plan_variation_id : string) (res : value)
  : handler value :=
  user <~ get_db_user u ;;
  if negb (truthy (Customer.square_subscription_id user)) then raise (HTTPException 404) else
  success <~ lift (py_get res "success") ;;
  if negb (truthy success) then raise (HTTPException 400) else
  ret res.

End PaymentRouter.

(** ** routers/admin.py *)

(** Library functions the admin routes call on strings and dates:
    [float(s)], [datetime.fromisoformat(s).date()],
    [datetime.strptime(s, "%Y-%m-%d").date()] ([None] where Python raises
    [ValueError]) and [d.strftime("%Y-%m-%d")]. *)
Record pylib := mkpylib {
  float_of_str : string -> option float;
  date_fromisoformat : string -> option date;
  date_strptime : string -> option date;
  strftime : date -> string
}.

(** What [datetime.now()] gives while one invoice is processed. *)
Record clock := mkclock {
  now_isoformat : string;
  now_date : date
}.

Record GrowthItem := mkgrowth {
  growth_date : string;
  growth_customers : Z;
  growth_revenue : float
}.

Module AdminRouter.

Section Routes.

Variable py : pylib.

(** Whether the [invoices] table declares [square_invoice_id] unique.
    [models/subscription.py] is not among the sources. *)
Variable unique_square_invoice_id : bool.

(** [current_user.get("role") != "admin"] *)
Definition require_admin (current_user : value) : handler unit :=
  role <~ lift (py_get current_user "role") ;;
  if negb (py_str_eqb role "admin") then raise (HTTPException 403) else ret tt.

(** [cancel_customer_subscription]; [res] is what [cancel_subscription]
    returns when called. *)
Definition cancel_customer_subscription (customer_id : Z) (current_user res : value)
    (today : date) : handler value :=
  require_admin current_user ;;;
  rows <~ query customers ;;
  match get_by_id Customer.id customer_id rows with
  | None => raise (HTTPException 404)
  | Some (i, customer) =>
      if negb (truthy (Customer.square_subscription_id customer))
      then raise (HTTPException 404) else
      subscription <~ lift (py_get res "subscription") ;;
      if negb (truthy subscription) then raise (HTTPException 400) else
      update_customer i (set_subscription_active false) ;;;
      update_customer i (set_subscription_status "CANCELED") ;;;
      add_log (SubscriptionLog.mk (Customer.id customer)
                 (Customer.square_subscription_id customer) "CANCEL" today) ;;;
      db_commit ;;;
      ret (VDict [("success", VBool true); ("message", VStr "Subscription canceled")])
  end.

(** [admin_change_subscription]; [res] is what [update_subscription]
    returns when called. *)
Definition admin_change_subscription (customer_id : Z) (new_plan_variation_id : string)
    (current_user res : value) (today : date) : handler value :=
  require_admin current_user ;;;
  rows <~ query customers ;;
  match get_by_id Customer.id customer_id rows with
  | None => raise (HTTPException 404)
  | Some (i, customer) =>
      if negb (truthy (Customer.square_subscription_id customer))
      then raise (HTTPException 400) else
      success <~ lift (py_get res "success") ;;
      if negb (truthy success) then raise (HTTPException 400) else
      plans <~ query subscription_plans ;;
      match PaymentRouter.first_plan new_plan_variation_id plans with
      | Some (_, plan) =>
          update_customer i
            (set_plan (VStr (pretty (SubscriptionPlan.id plan)))
                      (VStr new_plan_variation_id)) ;;;
          add_log (SubscriptionLog.mk (Customer.id customer)
                     (Customer.square_subscription_id customer) "ACTIVATE" today) ;;;
          db_commit
      | None => ret tt
      end ;;;
      ret (VDict [("success", VBool true);
                  ("message", VStr "Subscription updated successfully")])
  end.

(** [float(x)] *)
Definition py_float (x : value) : result float :=
  match x with
  | VInt n =>
      let f := float_of_int n in
      if PrimFloat.is_infinity f then Raise OverflowError else Ok f
  | VFloat f => Ok f
  | VBool b => Ok (if b then 1%float else 0%float)
  | VStr s =>
      match float_of_str py s with
      | Some f => Ok f
      | None => Raise ValueError
      end
  | _ => Raise TypeError
  end.

(** Lines 513-515 of [sync_customer_invoices]: the money object of the
    first payment request, an empty dictionary when the invoice lists
    no payment request or the request has no computed amount. *)
Definition computed_amount_data (sq_inv : value) : result value :=
  payment_requests <- py_get sq_inv "payment_requests" ;;
  if truthy payment_requests then
    first <- py_index0 payment_requests ;;
    py_get_default first "computed_amount_money" (VDict [])
  else Ok (VDict []).

(** Lines 513-519: the amount of one remote invoice, in currency
    units. *)
Definition invoice_amount (sq_inv : value) : result float :=
  amount_data <- computed_amount_data sq_inv ;;
  computed <- py_get amount_data "amount" ;;
  amount_data <-
    (if negb (truthy computed) then
       next_payment <- py_get sq_inv "next_payment_amount_money" ;;
       Ok (if truthy next_payment then next_payment else amount_data)
     else Ok amount_data) ;;
  minor <- py_get_default amount_data "amount" (VInt 0) ;;
  f <- py_float minor ;;
  Ok (PrimFloat.div f 100%float).

(** The [try] block that reads the due date. *)
Definition parse_due_date (due_date_str : value) : result date :=
  has_T <- py_in "T" due_date_str ;;
  if has_T : bool then
    match due_date_str with
    | VStr s =>
        match date_fromisoformat py (replace_char "Z"%char "+00:00" s) with
        | Some d => Ok d
        | None => Raise ValueError
        end
    | _ => Raise AttributeError
    end
  else
    match due_date_str with
    | VStr s =>
        match date_strptime py s with
        | Some d => Ok d
        | None => Raise ValueError
        end
    | _ => Raise TypeError
    end.

(** Lines 523-530: a bare [except] turns every failure into today's
    date. *)
Definition invoice_due_date (clk : clock) (sq_inv : value) : result date :=
  scheduled_at <- py_get sq_inv "scheduled_at" ;;
  created_at <- py_get_default sq_inv "created_at" (VStr (now_isoformat clk)) ;;
  let due_date_str := py_or scheduled_at created_at in
  Ok (match parse_due_date due_date_str with
      | Ok d => d
      | Raise _ => now_date clk
      end).

Definition set_invoice_status (v : value) (r : Invoice.t) : Invoice.t :=
  Invoice.mk (Invoice.square_invoice_id r) (Invoice.customer_id r)
    (Invoice.subscription_id r) (Invoice.amount r) v
    (Invoice.due_date r) (Invoice.public_url r).

Definition set_invoice_public_url (v : value) (r : Invoice.t) : Invoice.t :=
  Invoice.mk (Invoice.square_invoice_id r) (Invoice.customer_id r)
    (Invoice.subscription_id r) (Invoice.amount r) (Invoice.status r)
    (Invoice.due_date r) v.

Definition set_invoice_amount (a : float) (r : Invoice.t) : Invoice.t :=
  Invoice.mk (Invoice.square_invoice_id r) (Invoice.customer_id r)
    (Invoice.subscription_id r) a (Invoice.status r)
    (Invoice.due_date r) (Invoice.public_url r).

Definition update_invoice (i : nat) (f : Invoice.t -> Invoice.t) : handler unit :=
  modify (fun db => with_invoices (alter f i (invoices db)) db).

(** The body of the loop over the remote invoices. *)
Definition sync_invoice (customer : Customer.t) (clk : clock) (sq_inv : value)
    (synced_count : Z) : handler Z :=
  inv_id <~ lift (py_get sq_inv "id") ;;
  amount <~ lift (invoice_amount sq_inv) ;;
  existing <~ (rows <~ query invoices ;;
               lift (first_by Invoice.square_invoice_id inv_id rows)) ;;
  due_date <~ lift (invoice_due_date clk sq_inv) ;;
  match existing with
  | None =>
      subscription_id <~ lift (py_get sq_inv "subscription_id") ;;
      status <~ lift (py_get sq_inv "status") ;;
      public_url <~ lift (py_get sq_inv "public_url") ;;
      add_invoice (Invoice.mk inv_id (Customer.id customer) subscription_id
                     amount status due_date public_url) ;;;
      ret (synced_count + 1)
  | Some (i, _) =>
      status <~ lift (py_get sq_inv "status") ;;
      update_invoice i (set_invoice_status status) ;;;
      public_url <~ lift (py_get sq_inv "public_url") ;;
      update_invoice i (set_invoice_public_url public_url) ;;;
      update_invoice i (set_invoice_amount amount) ;;;
      ret synced_count
  end.

(** [for sq_inv in sq_invoices]; [clk n] is the clock during the
    [n]-th iteration. *)
Fixpoint sync_loop (customer : Customer.t) (clk : nat -> clock) (n : nat)
    (sq_invoices : list value) (synced_count : Z) : handler Z :=
  match sq_invoices with
  | [] => ret synced_count
  | sq_inv :: rest =>
      synced_count <~ sync_invoice customer (clk n) sq_inv synced_count ;;
      sync_loop customer clk (S n) rest synced_count
  end.

(** Two rows carry the same non-null invoice id. *)
Definition same_invoice_id (r r' : Invoice.t) : bool :=
  match Invoice.square_invoice_id r with
  | VStr s => py_str_eqb (Invoice.square_invoice_id r') s
  | _ => false
  end.

(** Inserting the pending invoices one after the other; a unique index
    refuses a row whose id is already in the table. *)
Fixpoint insert_invoices (table new : list Invoice.t) : result (list Invoice.t) :=
  match new with
  | [] => Ok table
  | r :: rest =>
      if unique_square_invoice_id && existsb (same_invoice_id r) table
      then Raise IntegrityError
      else insert_invoices (table ++ [r]) rest
  end.

(** [db.commit()] at the end of the synchronisation. *)
Definition commit_invoices : handler unit :=
  rows <~ query invoices ;;
  new <~ (fun s => (Ok (invoices (pending s)), s)) ;;
  _ <~ lift (insert_invoices rows new) ;;
  db_commit.

Definition sync_customer_invoices (customer_id : Z) (current_user res : value)
    (clk : nat -> clock) : handler value :=
  require_admin current_user ;;;
  rows <~ query customers ;;
  match get_by_id Customer.id customer_id rows with
  | None => raise (HTTPException 404)
  | Some (_, customer) =>
      if negb (truthy (Customer.square_customer_id customer))
      then raise (HTTPException 404) else
      success <~ lift (py_get res "success") ;;
      if negb (truthy success) then raise (HTTPException 400) else
      sq_invoices <~ lift (py_get_default res "invoices" (VList [])) ;;
      items <~ lift (py_iter sq_invoices) ;;
      synced_count <~ sync_loop customer clk 0 items 0 ;;
      commit_invoices ;;;
      ret (VDict [("success", VBool true); ("synced", VInt synced_count)])
  end.

(** Lines 201-211 of [get_admin_analytics]: the loop that builds
    [growth_history] from [count_before], [growth_map] and
    [revenue_map]; [thirty_days_ago] is the day the window starts. *)
Fixpoint growth_loop (thirty_days_ago : date) (growth_map : gmap string Z)
    (revenue_map : gmap string float) (days : list nat) (current_total : Z)
    (growth_history : list GrowthItem) : list GrowthItem :=
  match days with
  | [] => growth_history
  | i :: rest =>
      let d := thirty_days_ago + Z.of_nat i in
      let d_str := strftime py d in
      let daily_new := default 0 (growth_map !! d_str) in
      let daily_rev := default 0%float (revenue_map !! d_str) in
      let current_total := current_total + daily_new in
      growth_loop thirty_days_ago growth_map revenue_map rest current_total
        (growth_history ++ [mkgrowth d_str current_total daily_rev])
  end.

Definition growth_history (thirty_days_ago : date) (count_before : Z)
    (growth_map : gmap string Z) (revenue_map : gmap string float)
  : list GrowthItem :=
  growth_loop thirty_days_ago growth_map revenue_map (seq 0 31) count_before [].

End Routes.

End AdminRouter.


(** ** Read-only views of routers/payment.py and routers/admin.py *)

(** [d.copy()]: dictionaries and lists have the method. *)
Definition py_copy (v : value) : result value :=
  match v with
  | VDict _ | VList _ => Ok v
  | _ => Raise AttributeError
  end.

(** The bindings of a dictionary after [d[k] = x]: an existing key keeps
    its place, a new key goes last. *)
Fixpoint dict_set (k : string) (x : value) (fields : list (string * value))
  : list (string * value) :=
  match fields with
  | [] => [(k, x)]
  | (k', v) :: rest =>
      if String.eqb k k' then (k', x) :: rest else (k', v) :: dict_set k x rest
  end.

(** [v[k] = x] for a string [k] *)
Definition py_setitem (v : value) (k : string) (x : value) : result value :=
  match v with
  | VDict fields => Ok (VDict (dict_set k x fields))
  | _ => Raise TypeError
  end.

(** [int(f)] for a float: truncation toward zero. *)
Definition int_of_float (f : float) : result Z :=
  match Prim2SF f with
  | S754_zero _ => Ok 0
  | S754_infinity _ => Raise OverflowError
  | S754_nan => Raise ValueError
  | S754_finite s m e =>
      let magnitude := if 0 <=? e then Z.pos m * 2 ^ e else Z.pos m / 2 ^ (- e) in
      Ok (if s then - magnitude else magnitude)
  end.

(** [n / 100.0] for an integer [n] *)
Definition int_div_100 (n : Z) : result float :=
  let f := float_of_int n in
  if PrimFloat.is_infinity f then Raise OverflowError
  else Ok (PrimFloat.div f 100%float).

Module Views.

Section Routes.

(** [int(s)] for a string, [None] where Python raises [ValueError]. *)
Variable int_of_str : string -> option Z.

(** [int(x)] *)
Definition py_int (x : value) : result Z :=
  match x with
  | VInt n => Ok n
  | VBool b => Ok (if b then 1 else 0)
  | VFloat f => int_of_float f
  | VStr s =>
      match int_of_str s with
      | Some n => Ok n
      | None => Raise ValueError
      end
  | _ => Raise TypeError
  end.

(** [int(req.get("computed_amount_money", {}).get("amount", 0))] *)
Definition request_amount (req : value) : result Z :=
  computed <- py_get_default req "computed_amount_money" (VDict []) ;;
  minor <- py_get_default computed "amount" (VInt 0) ;;
  py_int minor.

(** [for req in i["payment_requests"]: amount += ...] of
    [billing_history] *)
Fixpoint sum_requests (reqs : list value) (amount : Z) : result Z :=
  match reqs with
  | [] => Ok amount
  | req :: rest =>
      n <- request_amount req ;;
      sum_requests rest (amount + n)
  end.

(** [x.get(a) or x.get(b) or c] *)
Definition first_truthy (i : value) (a b : string) (c : value) : result value :=
  x <- py_get i a ;;
  if truthy x then Ok x else
  y <- py_get i b ;;
  Ok (py_or y c).

(** The body of the loop of [billing_history] (payment.py 476-487). *)
Definition enrich_billing_invoice (inv : value) : result value :=
  i <- py_copy inv ;;
  listed <- py_in "payment_requests" i ;;
  amount <-
    (if listed : bool then
       reqs <- py_getitem i "payment_requests" ;;
       if truthy reqs then
         items <- py_iter reqs ;;
         sum_requests items 0
       else Ok 0
     else Ok 0) ;;
  dollars <- int_div_100 amount ;;
  i <- py_setitem i "amount" (VFloat dollars) ;;
  description <- first_truthy i "title" "description" (VStr "Subscription Payment") ;;
  i <- py_setitem i "description" description ;;
  created_at <-
    (invoice_date <- py_get i "invoice_date" ;;
     if truthy invoice_date then Ok invoice_date else
     scheduled_at <- py_get i "scheduled_at" ;;
     if truthy scheduled_at then Ok scheduled_at else
     py_get i "created_at") ;;
  py_setitem i "created_at" created_at.

Fixpoint enrich_all (enrich : value -> result value) (items : list value)
  : result (list value) :=
  match items with
  | [] => Ok []
  | inv :: rest =>
      i <- enrich inv ;;
      others <- enrich_all enrich rest ;;
      Ok (i :: others)
  end.

(** [billing_history]; [res] is what [get_customer_invoices] returns when
    called. *)
Definition billing_history (u : nat) (res : value) : handler value :=
  user <~ PaymentRouter.get_db_user u ;;
  if negb (truthy (Customer.square_customer_id user)) then
    ret (VDict [("success", VBool true); ("invoices", VList [])])
  else
  success <~ lift (py_get res "success") ;;
  if negb (truthy success) then ret res else
  invoices <~ lift (py_get_default res "invoices" (VList [])) ;;
  items <~ lift (py_iter invoices) ;;
  enriched_invoices <~ lift (enrich_all enrich_billing_invoice items) ;;
  ret (VDict [("success", VBool true); ("invoices", VList enriched_invoices)]).

(** [int(x["payment_requests"][0].get("computed_amount_money", {})
         .get("amount", 0)) / 100.0] *)
Definition first_request_amount (i : value) : result float :=
  reqs <- py_getitem i "payment_requests" ;;
  first <- py_index0 reqs ;;
  n <- request_amount first ;;
  int_div_100 n.

(** Lines 96-103 of [get_recent_invoices] (admin.py): the value stored
    under ["amount"]; the integer 0 when the invoice has neither payment
    requests nor a next payment. *)
Definition recent_invoice_amount (i : value) : result value :=
  reqs <- py_get i "payment_requests" ;;
  if truthy reqs then
    f <- first_request_amount i ;; Ok (VFloat f)
  else
    next <- py_get i "next_payment_amount_money" ;;
    if truthy next then
      next <- py_getitem i "next_payment_amount_money" ;;
      minor <- py_get_default next "amount" (VInt 0) ;;
      n <- py_int minor ;;
      f <- int_div_100 n ;;
      Ok (VFloat f)
    else Ok (VInt 0).

(** Lines 514-516 of [download_my_invoice_pdf]: the amount of an invoice
    fetched from the platform; the integer 0 without payment requests. *)
Definition pdf_invoice_amount (sq_inv : value) : result value :=
  reqs <- py_get sq_inv "payment_requests" ;;
  if truthy reqs then
    reqs <- py_get sq_inv "payment_requests" ;;
    first <- py_index0 reqs ;;
    n <- request_amount first ;;
    f <- int_div_100 n ;;
    Ok (VFloat f)
  else Ok (VInt 0).

(** [next((inv for inv in invoices if inv.get("id") == square_invoice_id),
         None)] *)
Fixpoint first_remote_invoice (square_invoice_id : string) (items : list value)
  : result value :=
  match items with
  | [] => Ok VNone
  | inv :: rest =>
      inv_id <- py_get inv "id" ;;
      if py_str_eqb inv_id square_invoice_id then Ok inv
      else first_remote_invoice square_invoice_id rest
  end.

(** The invoice [download_my_invoice_pdf] hands to the generator: a row of
    the table or an object built from the platform's invoice. *)
Inductive pdf_invoice :=
| LocalInvoice (row : Invoice.t)
| MockInvoice (square_invoice_id : value) (amount : value) (status : value).

(** Lines 500-540 of [download_my_invoice_pdf]: finding the invoice and
    checking its owner.  The two dates of the mock object, parsed inside a
    bare [try]/[except], are left out of [MockInvoice]; they do not decide
    the outcome.  [res] is what [get_customer_invoices] returns if
    called. *)
Definition my_invoice_for_pdf (u : nat) (square_invoice_id : string) (res : value)
  : handler pdf_invoice :=
  user <~ PaymentRouter.get_db_user u ;;
  rows <~ query invoices ;;
  existing <~ lift (first_by Invoice.square_invoice_id (VStr square_invoice_id) rows) ;;
  invoice <~
    match existing with
    | Some (_, row) => ret (LocalInvoice row)
    | None =>
        success <~ lift (py_get res "success") ;;
        if negb (truthy success) then raise (HTTPException 404) else
        invoices <~ lift (py_get_default res "invoices" (VList [])) ;;
        items <~ lift (py_iter invoices) ;;
        sq_inv <~ lift (first_remote_invoice square_invoice_id items) ;;
        if negb (truthy sq_inv) then raise (HTTPException 404) else
        amount <~ lift (pdf_invoice_amount sq_inv) ;;
        inv_id <~ lift (py_get sq_inv "id") ;;
        status <~ lift (py_get sq_inv "status") ;;
        ret (MockInvoice inv_id amount status)
    end ;;
  match invoice with
  | LocalInvoice row =>
      if negb (Invoice.customer_id row =? Customer.id user)
      then raise (HTTPException 403) else ret invoice
  | MockInvoice _ _ _ => ret invoice
  end.

End Routes.

End Views.
(** ** Vocabulary of the statements *)

(** Notification [data] has the event type [event] and names the platform
    customer [sq]. *)
Definition notifies (event sq : string) (data : value) : Prop :=
  py_get data "type" = Ok (VStr event) /\
  Webhooks.recipient_customer_id data = Ok (VStr sq).

(** The platform customer id [sq] resolves to the customer [c] at row [i]:
    the first row of the table carrying that id. *)
Definition resolves (sq : string) (db : database) (i : nat) (c : Customer.t) : Prop :=
  list_find (fun r => Is_true (column_matches (VStr sq) (Customer.square_customer_id r)))
            (customers db) = Some (i, c).

(** The tables after the endpoint has processed one notification. *)
Definition deliver (data : value) (today : date) (db : database) : database :=
  snd (run (Webhooks.square_webhook (Some data) today) db).

(** The notification [scripts/test_webhook.py] posts. *)
Definition test_notification (event sq : string) : value :=
  VDict [("type", VStr event); ("event_id", VStr "test_event_1");
         ("data", VDict [("object", VDict [("invoice",
            VDict [("primary_recipient", VDict [("customer_id", VStr sq)])])])])].

(** A customer and tables as [scripts/test_webhook.py] sets them up. *)
Definition sample_customer : Customer.t :=
  Customer.mk 1 (VStr "sq_test_123") (VStr "sub_test_456") VNone VNone true "ACTIVE" (Some 0).

Definition sample_db : database := mkdb [sample_customer] [] [] [] [] [].

(** A customer the webhook has suspended. *)
Definition suspended_customer : Customer.t :=
  Customer.mk 1 (VStr "sq_test_123") (VStr "sub_test_456") VNone VNone false "SUSPENDED" (Some 3).

(** *** Payment methods *)

(** Method [m] is a default card of customer [cid]. *)
Definition is_default_of (cid : Z) (m : PaymentMethod.t) : bool :=
  (PaymentMethod.customer_id m =? cid) && PaymentMethod.is_default m.

Definition default_count (cid : Z) (ms : list PaymentMethod.t) : nat :=
  length (List.filter (is_default_of cid) ms).

Definition one_default_per_customer (db : database) : Prop :=
  forall cid, (default_count cid (payment_methods db) <= 1)%nat.

(** One card operation of the payment routes, with any inputs. *)
Inductive card_operation (db : database) : database -> Prop :=
| op_validate_card customer_id create_res card_res :
    card_operation db
      (snd (run (PaymentRouter.validate_card customer_id create_res card_res) db))
| op_save_card u create_res card_res :
    card_operation db (snd (run (PaymentRouter.save_card u create_res card_res) db))
| op_remove_card u card_id :
    card_operation db (snd (run (PaymentRouter.remove_card u card_id) db)).

Inductive card_operations : database -> database -> Prop :=
| ops_none db : card_operations db db
| ops_then db db1 db2 :
    card_operations db db1 -> card_operation db1 db2 -> card_operations db db2.

(** The table after a card was saved for customer [cid]. *)
Definition saved_as_default (cid : Z) (ms ms' : list PaymentMethod.t) : Prop :=
  exists new,
    ms' = (map (PaymentRouter.clear_default cid) ms ++ [new])%list /\
    PaymentMethod.customer_id new = cid /\ PaymentMethod.is_default new = true.

(** *** Growth history *)

(** The number of customers created on day [i] of the window, as the loop
    reads it from [growth_map]. *)
Definition daily_new (py : pylib) (thirty_days_ago : date) (growth_map : gmap string Z)
    (i : nat) : Z :=
  default 0 (growth_map !! strftime py (thirty_days_ago + Z.of_nat i)).

(** [N + c 0 + ... + c i] *)
Fixpoint cumulative (c : nat -> Z) (N : Z) (i : nat) : Z :=
  match i with
  | O => N + c O
  | S k => cumulative c N k + c (S k)
  end.

(** The entry of [growth_history] for day [j], in a loop that started at
    day [k] with running total [tot]. *)
Definition item_at (py : pylib) (start : date) (gm : gmap string Z) (rm : gmap string float)
    (tot : Z) (k j : nat) : GrowthItem :=
  mkgrowth (strftime py (start + Z.of_nat j))
    (tot + fold_right Z.add 0 (map (daily_new py start gm) (seq k (S j - k))))
    (default 0%float (rm !! strftime py (start + Z.of_nat j))).

(** *** Invoice synchronisation *)

(** The id of a remote invoice, [sq_inv.get("id")]. *)
Definition remote_id (sq_inv : value) : value :=
  match sq_inv with
  | VDict fields => default VNone (assoc "id" fields)
  | _ => VNone
  end.

(** Row [r] carries the invoice id [v]. *)
Definition has_invoice_id (v : value) (r : Invoice.t) : Prop :=
  Is_true (column_matches v (Invoice.square_invoice_id r)).

(** The first row with the id of [sq_inv] holds the amount, status and
    public URL of [sq_inv]. *)
Definition reflects (py : pylib) (rows : list Invoice.t) (sq_inv : value) : Prop :=
  exists i r,
    first_by Invoice.square_invoice_id (remote_id sq_inv) rows = Ok (Some (i, r)) /\
    AdminRouter.invoice_amount py sq_inv = Ok (Invoice.amount r) /\
    py_get sq_inv "status" = Ok (Invoice.status r) /\
    py_get sq_inv "public_url" = Ok (Invoice.public_url r).

(** A string or [None]: what a text column can be compared with. *)
Definition text_or_null (v : value) : Prop :=
  match v with VStr _ | VNone => True | _ => False end.

Abbreviation invoice_ids rows := (Invoice.square_invoice_id <$> (rows : list Invoice.t)).

(** The remote invoices the handler iterates over. *)
Definition remote_invoices (res : value) : list value :=
  match py_get_default res "invoices" (VList []) with
  | Ok sq_invoices =>
      match py_iter sq_invoices with
      | Ok items => items
      | Raise _ => []
      end
  | Raise _ => []
  end.

(** The answer of a synchronisation that created [n] rows. *)
Definition synced (n : Z) : value :=
  VDict [("success", VBool true); ("synced", VInt n)].

(** The checks of [sync_customer_invoices] before its loop: the customer
    whose invoices are synchronised and the remote invoices. *)
Definition sync_inputs (customer_id : Z) (current_user res : value) (db : database)
  : result (Customer.t * list value) :=
  role <- py_get current_user "role" ;;
  if negb (py_str_eqb role "admin") then Raise (HTTPException 403) else
  match get_by_id Customer.id customer_id (customers db) with
  | None => Raise (HTTPException 404)
  | Some (_, customer) =>
      if negb (truthy (Customer.square_customer_id customer))
      then Raise (HTTPException 404) else
      success <- py_get res "success" ;;
      if negb (truthy success) then Raise (HTTPException 400) else
      sq_invoices <- py_get_default res "invoices" (VList []) ;;
      items <- py_iter sq_invoices ;;
      Ok (customer, items)
  end.

(** Sample inputs: library functions that parse nothing, an admin token,
    a clock, remote invoices of the platform's shape and the result of
    [get_customer_invoices]. *)
Definition no_pylib : pylib := mkpylib (fun _ => None) (fun _ => None) (fun _ => None) (fun _ => "").
Definition admin_user : value := VDict [("id", VInt 1); ("role", VStr "admin")].
Definition fixed_clock (n : nat) : clock := mkclock "2026-01-01T00:00:00" 739617.
Definition remote_invoice (id status : string) (computed next : option Z) : value :=
  VDict ([("id", VStr id); ("status", VStr status);
          ("public_url", VStr ("https://squareup.com/pay-invoice/" +:+ id))] ++
         match computed with
         | Some a => [("payment_requests",
                       VList [VDict [("computed_amount_money",
                                      VDict [("amount", VInt a); ("currency", VStr "USD")])]])]
         | None => []
         end ++
         match next with
         | Some m => [("next_payment_amount_money",
                       VDict [("amount", VInt m); ("currency", VStr "USD")])]
         | None => []
         end).
Definition invoices_result (items : list value) : value :=
  VDict [("success", VBool true); ("invoices", VList items)].

(** *** Amounts *)


(** The computed amount of the first payment request of a remote invoice
    with the fields [fields], in minor units: [None] where the invoice
    lists no payment request or its first request has no computed
    amount. *)
Inductive first_computed_amount (fields : list (string * value)) : option Z -> Prop :=
| no_payment_requests :
    assoc "payment_requests" fields = None \/
    assoc "payment_requests" fields = Some (VList []) ->
    first_computed_amount fields None
| first_request_not_computed (first : list (string * value)) (others : list value) :
    assoc "payment_requests" fields = Some (VList (VDict first :: others)) ->
    assoc "computed_amount_money" first = None ->
    first_computed_amount fields None
| first_request_computed (first : list (string * value)) (others : list value)
    (money : list (string * value)) (a : Z) :
    assoc "payment_requests" fields = Some (VList (VDict first :: others)) ->
    assoc "computed_amount_money" first = Some (VDict money) ->
    assoc "amount" money = Some (VInt a) ->
    first_computed_amount fields (Some a).

(** The next-payment amount of the invoice, in minor units, if it has
    one. *)
Inductive next_payment_amount (fields : list (string * value)) : option Z -> Prop :=
| no_next_payment :
    assoc "next_payment_amount_money" fields = None ->
    next_payment_amount fields None
| next_payment_of (money : list (string * value)) (m : Z) :
    assoc "next_payment_amount_money" fields = Some (VDict money) ->
    assoc "amount" money = Some (VInt m) ->
    next_payment_amount fields (Some m).



(** Some row of [rows] carries the id of [sq_inv], and every row that does
    holds the amount, status and public URL of [sq_inv]. *)
Definition stored (py : pylib) (rows : list Invoice.t) (sq_inv : value) : Prop :=
  (exists row, row ∈ rows /\ Invoice.square_invoice_id row = remote_id sq_inv) /\
  forall row, row ∈ rows -> Invoice.square_invoice_id row = remote_id sq_inv ->
    AdminRouter.invoice_amount py sq_inv = Ok (Invoice.amount row) /\
    py_get sq_inv "status" = Ok (Invoice.status row) /\
    py_get sq_inv "public_url" = Ok (Invoice.public_url row).

(** Row [r] is the row a synchronisation creates for [sq_inv] and the
    customer with the key [customer_id]. *)
Definition new_row_of (py : pylib) (customer_id : Z) (sq_inv : value) (r : Invoice.t)
  : Prop :=
  Invoice.square_invoice_id r = remote_id sq_inv /\
  Invoice.customer_id r = customer_id /\
  py_get sq_inv "subscription_id" = Ok (Invoice.subscription_id r) /\
  AdminRouter.invoice_amount py sq_inv = Ok (Invoice.amount r) /\
  py_get sq_inv "status" = Ok (Invoice.status r) /\
  py_get sq_inv "public_url" = Ok (Invoice.public_url r) /\
  exists clk, AdminRouter.invoice_due_date py clk sq_inv = Ok (Invoice.due_date r).


(** *** Lifecycle requests *)

(** The request was answered with a response, not refused with an error. *)
Definition answered (out : result value * database) : Prop :=
  exists r, fst out = Ok r.

(** *** Sequences of notifications *)

(** The tables after the endpoint has processed the notifications [events]
    one after the other, each on its own day. *)
Definition deliver_all (events : list (value * date)) (db : database) : database :=
  foldl (fun db e => deliver (fst e) (snd e) db) db events.

(** Customer [c], who had no failure, after [n] failed payments. *)
Definition after_failures (n : nat) (c : Customer.t) : Customer.t :=
  if (n <? 3)%nat then set_failed_payment_attempts (Some (Z.of_nat n)) c
  else set_subscription_active false
         (set_subscription_status "SUSPENDED"
            (set_failed_payment_attempts (Some (Z.of_nat n)) c)).

(** The log of the suspension of [c]: one row, dated by the third
    notification, once there are three. *)
Definition suspension_log (c : Customer.t) (events : list (value * date))
  : list SubscriptionLog.t :=
  match events !! 2%nat with
  | Some (_, today) =>
      [SubscriptionLog.mk (Customer.id c) (Customer.square_subscription_id c) "SUSPEND" today]
  | None => []
  end.

(** *** Rows of the invoice table *)

(** Rows [r] and [r'] agree on everything a synchronisation never writes. *)
Definition same_invoice (r r' : Invoice.t) : Prop :=
  Invoice.square_invoice_id r' = Invoice.square_invoice_id r /\
  Invoice.customer_id r' = Invoice.customer_id r /\
  Invoice.subscription_id r' = Invoice.subscription_id r /\
  Invoice.due_date r' = Invoice.due_date r.

(** *** Cards *)

(** Method [m] is the card [card_id] of [user]. *)
Definition owns_card (user : Customer.t) (card_id : string) (m : PaymentMethod.t) : Prop :=
  PaymentMethod.customer_id m = Customer.id user /\
  Is_true (py_str_eqb (PaymentMethod.square_card_id m) card_id).

(** *** Invoice views *)

Definition sum_Z (l : list Z) : Z := fold_right Z.add 0 l.

(** A payment request of the platform's shape, with its computed amount in
    minor units. *)
Definition payment_request (minor : Z) : value :=
  VDict [("computed_amount_money", VDict [("amount", VInt minor); ("currency", VStr "USD")])].

(** An [int] that parses no string. *)
Definition no_int_of_str : string -> option Z := fun _ => None.
(** * Properties *)

Set Warnings "-clear-no-such-hyp,-inexact-float".

(** ** Lists, rows and sessions *)

Lemma append_no_rows db : append_rows db no_rows = db.
Proof. destruct db; unfold append_rows; simpl; by rewrite !app_nil_r. Qed.

Lemma list_alter_insert {A} (f : A -> A) (l : list A) i x :
  l !! i = Some x -> alter f i l = <[i := f x]> l.
Proof.
  revert i. induction l as [|a l IH]; intros [|i] H; simplify_eq/=; try done.
  f_equal. by apply IH.
Qed.

Lemma list_find_alter_same {A} (P : A -> Prop) `{!forall x, Decision (P x)}
    (f : A -> A) l i x :
  list_find P l = Some (i, x) -> P (f x) ->
  list_find P (alter f i l) = Some (i, f x).
Proof.
  intros [Hi [Hp Hlt]]%list_find_Some Hf. apply list_find_Some. split_and!.
  - rewrite list_lookup_alter_eq, Hi. done.
  - done.
  - intros j y Hj Hji. rewrite list_lookup_alter_ne in Hj by lia. eauto.
Qed.

Lemma first_by_str {A} (col : A -> value) s rows :
  first_by col (VStr s) rows =
  Ok (list_find (fun r => Is_true (column_matches (VStr s) (col r))) rows).
Proof. reflexivity. Qed.

Lemma truthy_str s : s <> "" -> truthy (VStr s) = true.
Proof. intros H. unfold truthy. by rewrite (proj2 (String.eqb_neq s "") H). Qed.

(** ** Webhook reconciliation *)

(** One failure notification for a resolved customer: the counter goes up
    by one, and the customer is suspended, with one log entry, exactly when
    the new count is at least 3 and the status is not yet SUSPENDED. *)
Lemma payment_failed_resolved data sq db i c today :
  sq <> "" ->
  Webhooks.recipient_customer_id data = Ok (VStr sq) ->
  resolves sq db i c ->
  int4_min <= default 0 (Customer.failed_payment_attempts c) + 1 <= int4_max ->
  let n := default 0 (Customer.failed_payment_attempts c) + 1 in
  let suspend := (3 <=? n) && negb (String.eqb (Customer.subscription_status c) "SUSPENDED") in
  run (Webhooks.handle_payment_failed data today) db =
    (Ok tt,
     mkdb (<[i := if suspend
                  then set_subscription_active false
                         (set_subscription_status "SUSPENDED"
                            (set_failed_payment_attempts (Some n) c))
                  else set_failed_payment_attempts (Some n) c]> (customers db))
          (subscription_logs db ++
             (if suspend
              then [SubscriptionLog.mk (Customer.id c) (Customer.square_subscription_id c)
                      "SUSPEND" today]
              else []))
          (subscription_plans db) (payments db) (payment_methods db) (invoices db)).
Proof.
  intros Hne Hid Hfind Hrange n suspend.
  assert (Hi : customers db !! i = Some c) by (by apply list_find_Some in Hfind as [? _]).
  unfold run, Webhooks.handle_payment_failed, try_except, hbind, lift, query.
  rewrite Hid, (truthy_str _ Hne). cbn [negb working]. rewrite first_by_str.
  unfold resolves in Hfind. rewrite Hfind.
  cbv beta iota. unfold commit_attempts. fold n.
  replace ((n <? int4_min) || (int4_max <? n)) with false
    by (symmetry; apply orb_false_iff; split; [apply Z.ltb_ge|apply Z.ltb_ge]; lia).
  unfold update_customer, modify, add_log, db_add, db_commit, ret.
  simpl. fold n.
  change ((3 <=? n) && negb (Customer.subscription_status c =? "SUSPENDED")%string)
    with suspend.
  destruct suspend; simpl; unfold append_rows, with_customers, with_subscription_logs; simpl;
    rewrite ?app_nil_r, ?list_alter_alter_eq, (list_alter_insert _ _ _ _ Hi); reflexivity.
Qed.

(** One success notification for a resolved customer whose counter is set. *)
Lemma payment_success_resolved data sq db i c n today :
  sq <> "" ->
  Webhooks.recipient_customer_id data = Ok (VStr sq) ->
  resolves sq db i c ->
  Customer.failed_payment_attempts c = Some n ->
  let c1 := if 0 <? n then set_failed_payment_attempts (Some 0) c else c in
  let reactivate := String.eqb (Customer.subscription_status c) "SUSPENDED" in
  run (Webhooks.handle_payment_success data today) db =
    (Ok tt,
     mkdb (<[i := if reactivate
                  then set_subscription_active true (set_subscription_status "ACTIVE" c1)
                  else c1]> (customers db))
          (subscription_logs db ++
             (if reactivate
              then [SubscriptionLog.mk (Customer.id c) (Customer.square_subscription_id c)
                      "REACTIVATE" today]
              else []))
          (subscription_plans db) (payments db) (payment_methods db) (invoices db)).
Proof.
  intros Hne Hid Hfind Hn c1 reactivate.
  assert (Hi : customers db !! i = Some c) by (by apply list_find_Some in Hfind as [? _]).
  unfold run, Webhooks.handle_payment_success, try_except, hbind, lift, query.
  rewrite Hid, (truthy_str _ Hne). cbn [negb working]. rewrite first_by_str.
  unfold resolves in Hfind. rewrite Hfind.
  cbv beta iota. unfold Webhooks.attempts_positive. rewrite Hn.
  unfold update_customer, modify, add_log, db_add, db_commit, ret.
  fold reactivate. subst c1.
  destruct (0 <? n), reactivate; simpl;
    unfold append_rows, with_customers, with_subscription_logs; simpl;
    rewrite ?app_nil_r, ?list_alter_alter_eq, ?(list_alter_insert _ _ _ _ Hi),
      ?(list_insert_id _ _ _ Hi); reflexivity.
Qed.

(** The two handlers catch whatever their body raises. *)
Lemma handle_payment_failed_total data today s :
  exists s', Webhooks.handle_payment_failed data today s = (Ok tt, s').
Proof.
  unfold Webhooks.handle_payment_failed, try_except.
  match goal with |- context [match ?m s with _ => _ end] => destruct (m s) as [[[]|e] s1] end;
    eauto.
Qed.

Lemma handle_payment_success_total data today s :
  exists s', Webhooks.handle_payment_success data today s = (Ok tt, s').
Proof.
  unfold Webhooks.handle_payment_success, try_except.
  match goal with |- context [match ?m s with _ => _ end] => destruct (m s) as [[[]|e] s1] end;
    eauto.
Qed.

Lemma square_webhook_failed data today db :
  py_get data "type" = Ok (VStr "invoice.payment_failed") ->
  run (Webhooks.square_webhook (Some data) today) db =
    (Ok (Webhooks.mkresp 200 Webhooks.StatusSuccess),
     snd (run (Webhooks.handle_payment_failed data today) db)).
Proof.
  intros Ht. destruct data; try discriminate.
  unfold run, Webhooks.square_webhook, try_except, hbind, lift. rewrite Ht.
  cbn [py_get py_get_default py_str_eqb String.eqb Ascii.eqb Bool.eqb].
  destruct (handle_payment_failed_total (VDict fields) today
              (mksession db db no_rows)) as [s' ->].
  reflexivity.
Qed.

Lemma square_webhook_made data today db :
  py_get data "type" = Ok (VStr "invoice.payment_made") ->
  run (Webhooks.square_webhook (Some data) today) db =
    (Ok (Webhooks.mkresp 200 Webhooks.StatusSuccess),
     snd (run (Webhooks.handle_payment_success data today) db)).
Proof.
  intros Ht. destruct data; try discriminate.
  unfold run, Webhooks.square_webhook, try_except, hbind, lift. rewrite Ht.
  cbn [py_get py_get_default py_str_eqb].
  replace (String.eqb "invoice.payment_made" "invoice.payment_failed") with false by reflexivity.
  replace (String.eqb "invoice.payment_made" "invoice.payment_made") with true by reflexivity.
  destruct (handle_payment_success_total (VDict fields) today
              (mksession db db no_rows)) as [s' ->].
  reflexivity.
Qed.

Lemma resolves_insert sq db i c c' :
  resolves sq db i c ->
  Customer.square_customer_id c' = Customer.square_customer_id c ->
  forall logs,
  resolves sq (mkdb (<[i := c']> (customers db)) logs (subscription_plans db)
                 (payments db) (payment_methods db) (invoices db)) i c'.
Proof.
  unfold resolves. intros Hfind Hid logs. simpl.
  assert (Hi : customers db !! i = Some c) by (by apply list_find_Some in Hfind as [? _]).
  rewrite <- (list_alter_insert (fun _ => c') _ _ _ Hi).
  apply (list_find_alter_same _ (fun _ => c') _ _ _ Hfind).
  rewrite Hid. by apply list_find_Some in Hfind as (_ & ? & _).
Qed.

(** C2.  A customer resolved by the platform customer id, with no failed
    attempt recorded and status ACTIVE, receives three payment-failed
    notifications and then one payment-made notification.  After the three
    failures the customer has [failed_payment_attempts = 3], status
    SUSPENDED and [subscription_active = False], and exactly one log entry
    was appended: SUSPEND, dated the day of the third notification.  After
    the success the counter is 0, the status ACTIVE, [subscription_active]
    true, and one REACTIVATE entry follows.  Nothing else in the tables
    changes. *)
Theorem three_failures_suspend_then_success_reactivates
    (db : database) (sq : string) (i : nat) (c : Customer.t)
    (f1 f2 f3 made : value) (t1 t2 t3 t4 : date) :
  sq <> "" ->
  notifies "invoice.payment_failed" sq f1 ->
  notifies "invoice.payment_failed" sq f2 ->
  notifies "invoice.payment_failed" sq f3 ->
  notifies "invoice.payment_made" sq made ->
  resolves sq db i c ->
  Customer.failed_payment_attempts c = Some 0 ->
  Customer.subscription_status c = "ACTIVE" ->
  let db3 := deliver f3 t3 (deliver f2 t2 (deliver f1 t1 db)) in
  let db4 := deliver made t4 db3 in
  let suspended :=
    Customer.mk (Customer.id c) (Customer.square_customer_id c)
      (Customer.square_subscription_id c) (Customer.plan_id c)
      (Customer.plan_variation_id c) false "SUSPENDED" (Some 3) in
  let reactivated :=
    Customer.mk (Customer.id c) (Customer.square_customer_id c)
      (Customer.square_subscription_id c) (Customer.plan_id c)
      (Customer.plan_variation_id c) true "ACTIVE" (Some 0) in
  let suspend_log :=
    SubscriptionLog.mk (Customer.id c) (Customer.square_subscription_id c) "SUSPEND" t3 in
  let reactivate_log :=
    SubscriptionLog.mk (Customer.id c) (Customer.square_subscription_id c) "REACTIVATE" t4 in
  db3 = mkdb (<[i := suspended]> (customers db))
             (subscription_logs db ++ [suspend_log])
             (subscription_plans db) (payments db) (payment_methods db) (invoices db) /\
  db4 = mkdb (<[i := reactivated]> (customers db))
             (subscription_logs db ++ [suspend_log; reactivate_log])
             (subscription_plans db) (payments db) (payment_methods db) (invoices db).
Proof.
  intros Hne [Ht1 Hr1] [Ht2 Hr2] [Ht3 Hr3] [Htm Hrm] Hfind Hn Hst. cbv zeta.
  destruct c as [cid sqc sub pid pvid act st att]. simpl in Hn, Hst. subst att st.
  unfold deliver.
  rewrite (square_webhook_failed _ _ _ Ht1),
    (payment_failed_resolved _ _ _ _ _ _ Hne Hr1 Hfind)
    by (unfold int4_min, int4_max; simpl; lia).
  simpl.
  match goal with |- context [<[i := ?c1]> (customers db)] =>
    pose proof (resolves_insert sq db i _ c1 Hfind eq_refl (subscription_logs db ++ []))
      as Hf1
  end.
  rewrite (square_webhook_failed _ _ _ Ht2),
    (payment_failed_resolved _ _ _ _ _ _ Hne Hr2 Hf1)
    by (unfold int4_min, int4_max; simpl; lia).
  simpl. rewrite list_insert_insert_eq.
  match goal with |- context [<[i := ?c1]> (customers db)] =>
    pose proof (resolves_insert sq db i _ c1 Hfind eq_refl
                  ((subscription_logs db ++ []) ++ [])) as Hf2
  end.
  rewrite (square_webhook_failed _ _ _ Ht3),
    (payment_failed_resolved _ _ _ _ _ _ Hne Hr3 Hf2)
    by (unfold int4_min, int4_max; simpl; lia).
  simpl. rewrite list_insert_insert_eq, !app_nil_r.
  split; [reflexivity|].
  match goal with |- context [<[i := ?c1]> (customers db)] =>
    pose proof (resolves_insert sq db i _ c1 Hfind eq_refl
                  (subscription_logs db ++
                     [SubscriptionLog.mk cid sub "SUSPEND" t3])) as Hf3
  end.
  rewrite (square_webhook_made _ _ _ Htm),
    (payment_success_resolved _ _ _ _ _ 3 _ Hne Hrm Hf3 eq_refl).
  simpl. rewrite list_insert_insert_eq, <- app_assoc. reflexivity.
Qed.

(** C9.  A payment-made notification for a customer whose counter is 0 and
    whose status is ACTIVE leaves every table as it was: no customer field
    changes and no log entry is appended. *)
Theorem success_on_healthy_customer_is_noop
    (db : database) (sq : string) (i : nat) (c : Customer.t) (made : value) (today : date) :
  sq <> "" ->
  notifies "invoice.payment_made" sq made ->
  resolves sq db i c ->
  Customer.failed_payment_attempts c = Some 0 ->
  Customer.subscription_status c = "ACTIVE" ->
  run (Webhooks.square_webhook (Some made) today) db =
    (Ok (Webhooks.mkresp 200 Webhooks.StatusSuccess), db).
Proof.
  intros Hne [Ht Hr] Hfind Hn Hst.
  rewrite (square_webhook_made _ _ _ Ht),
    (payment_success_resolved _ _ _ _ _ 0 _ Hne Hr Hfind Hn).
  rewrite Hst. simpl.
  assert (Hi : customers db !! i = Some c) by (by apply list_find_Some in Hfind as [? _]).
  rewrite (list_insert_id _ _ _ Hi), app_nil_r. by destruct db.
Qed.

Lemma three_failures_witness :
  let failed := test_notification "invoice.payment_failed" "sq_test_123" in
  let made := test_notification "invoice.payment_made" "sq_test_123" in
  let db3 := deliver failed 3 (deliver failed 2 (deliver failed 1 sample_db)) in
  db3 = mkdb [Customer.mk 1 (VStr "sq_test_123") (VStr "sub_test_456") VNone VNone
                false "SUSPENDED" (Some 3)]
             [SubscriptionLog.mk 1 (VStr "sub_test_456") "SUSPEND" 3] [] [] [] [] /\
  deliver made 4 db3 =
        mkdb [Customer.mk 1 (VStr "sq_test_123") (VStr "sub_test_456") VNone VNone
                true "ACTIVE" (Some 0)]
             [SubscriptionLog.mk 1 (VStr "sub_test_456") "SUSPEND" 3;
              SubscriptionLog.mk 1 (VStr "sub_test_456") "REACTIVATE" 4] [] [] [] [].
Proof.
  apply (three_failures_suspend_then_success_reactivates sample_db "sq_test_123" 0%nat
           sample_customer
           (test_notification "invoice.payment_failed" "sq_test_123")
           (test_notification "invoice.payment_failed" "sq_test_123")
           (test_notification "invoice.payment_failed" "sq_test_123")
           (test_notification "invoice.payment_made" "sq_test_123") 1 2 3 4);
    try (split; reflexivity); try reflexivity.
  discriminate.
Defined.

Lemma success_noop_witness :
  run (Webhooks.square_webhook
         (Some (test_notification "invoice.payment_made" "sq_test_123")) 4) sample_db =
    (Ok (Webhooks.mkresp 200 Webhooks.StatusSuccess), sample_db).
Proof.
  apply (success_on_healthy_customer_is_noop sample_db "sq_test_123" 0%nat sample_customer);
    try (split; reflexivity); try reflexivity.
  discriminate.
Defined.

Lemma run_handle_failed_malformed data today db e :
  Webhooks.recipient_customer_id data = Raise e ->
  run (Webhooks.handle_payment_failed data today) db = (Ok tt, db).
Proof.
  intros H. unfold run, Webhooks.handle_payment_failed, try_except, hbind, lift.
  rewrite H. reflexivity.
Qed.

Lemma run_handle_success_malformed data today db e :
  Webhooks.recipient_customer_id data = Raise e ->
  run (Webhooks.handle_payment_success data today) db = (Ok tt, db).
Proof.
  intros H. unfold run, Webhooks.handle_payment_success, try_except, hbind, lift.
  rewrite H. reflexivity.
Qed.

(** C4.  The webhook endpoint answers every request with status 200 and
    never lets an exception escape.  A JSON object is answered with
    ["status": "success"]: an event type other than payment-failed and
    payment-made changes nothing, and an exception inside either handler
    (a malformed nested payload, for one) is caught there and rolled back.
    A body that is not a JSON object is caught by the endpoint itself: the
    answer is still 200, its body carries the exception, and the tables are
    untouched. *)
Theorem square_webhook_always_acknowledges
    (request : option value) (today : date) (db : database) :
  exists resp db',
    run (Webhooks.square_webhook request today) db = (Ok resp, db') /\
    Webhooks.status_code resp = 200 /\
    (forall fields, request = Some (VDict fields) ->
       Webhooks.content resp = Webhooks.StatusSuccess) /\
    (forall data event_type,
       request = Some data -> py_get data "type" = Ok event_type ->
       py_str_eqb event_type "invoice.payment_failed" = false ->
       py_str_eqb event_type "invoice.payment_made" = false ->
       Webhooks.content resp = Webhooks.StatusSuccess /\ db' = db) /\
    (forall data e,
       request = Some data -> Webhooks.recipient_customer_id data = Raise e ->
       db' = db) /\
    ((forall fields, request <> Some (VDict fields)) ->
       db' = db /\ exists e, Webhooks.content resp = Webhooks.StatusError e).
Proof.
  destruct request as [data|].
  2: { exists (Webhooks.mkresp 200 (Webhooks.StatusError JSONDecodeError)), db.
       split_and!; try done. eauto. }
  destruct data as [| | | | |items|fields];
    try solve [eexists (Webhooks.mkresp 200 (Webhooks.StatusError AttributeError)), db;
               split_and!; try done; try (intros ?? [= <-]; try done; simpl; done); eauto].
  assert (Hobj : (forall fields', Some (VDict fields) <> Some (VDict fields')) ->
                 forall P : Prop, P) by (intros H; by destruct (H fields)).
  destruct (py_get (VDict fields) "type") as [event_type|] eqn:Ht; [|done].
  destruct (py_str_eqb event_type "invoice.payment_failed") eqn:Hf.
  { assert (event_type = VStr "invoice.payment_failed") as ->.
    { destruct event_type; try done. simpl in Hf. by apply String.eqb_eq in Hf as ->. }
    eexists _, _. split; [apply (square_webhook_failed _ _ _ Ht)|].
    split_and!; try done.
    - intros ?? [= <-] Ht'. rewrite Ht in Ht'. by injection Ht' as <-.
    - intros ?? [= <-] Hr. by rewrite (run_handle_failed_malformed _ _ _ _ Hr).
    - intros H. exact (Hobj H _). }
  destruct (py_str_eqb event_type "invoice.payment_made") eqn:Hm.
  { assert (event_type = VStr "invoice.payment_made") as ->.
    { destruct event_type; try done. simpl in Hm. by apply String.eqb_eq in Hm as ->. }
    eexists _, _. split; [apply (square_webhook_made _ _ _ Ht)|].
    split_and!; try done.
    - intros ?? [= <-] Ht'. rewrite Ht in Ht'. by injection Ht' as <-.
    - intros ?? [= <-] Hr. by rewrite (run_handle_success_malformed _ _ _ _ Hr).
    - intros H. exact (Hobj H _). }
  exists (Webhooks.mkresp 200 Webhooks.StatusSuccess), db. split.
  { unfold run, Webhooks.square_webhook, try_except, hbind, lift. rewrite Ht.
    cbn [py_get py_get_default]. rewrite Hf, Hm. reflexivity. }
  split_and!; try done. intros H. exact (Hobj H _).
Qed.

(** ** Subscription lifecycle operations *)

(** C1.  The pause and resume operations assign [subscription_status] and
    leave [subscription_active] as it was.  Pausing the active customer of
    the test set-up ends with status PAUSED and [subscription_active]
    still true; resuming a customer the webhook suspended ends with status
    ACTIVE and [subscription_active] still false.  Either way the flag and
    the status disagree afterwards. *)
Theorem pause_and_resume_leave_subscription_active_stale (today : date) :
  let res := VDict [("subscription", VDict [("id", VStr "sub_test_456")])] in
  run (PaymentRouter.pause_sub 0 res today) sample_db =
    (Ok res,
     mkdb [Customer.mk 1 (VStr "sq_test_123") (VStr "sub_test_456") VNone VNone
             true "PAUSED" (Some 0)]
          [SubscriptionLog.mk 1 (VStr "sub_test_456") "PAUSE" today] [] [] [] []) /\
  run (PaymentRouter.resume_sub 0 res today) (mkdb [suspended_customer] [] [] [] [] []) =
    (Ok res,
     mkdb [Customer.mk 1 (VStr "sq_test_123") (VStr "sub_test_456") VNone VNone
             false "ACTIVE" (Some 3)]
          [SubscriptionLog.mk 1 (VStr "sub_test_456") "RESUME" today] [] [] [] []).
Proof. split; reflexivity. Qed.

(** C3.  The change-plan operation never writes: whatever the platform
    answers, the tables afterwards are the tables before, so a successful
    change of plan appends no log entry.  And the pause operation tests
    only for an ["errors"] key: a result of the shape
    [{"success": False, "error": ...}] is taken for a success, the status
    is set and a PAUSE entry is logged. *)
Theorem change_plan_records_nothing (db : database) (u : nat) (variation : string)
    (res : value) (today : date) :
  snd (run (PaymentRouter.change_plan u variation res) db) = db /\
  run (PaymentRouter.change_plan 0 "premium_plan_id" (VDict [("success", VBool true)]))
      sample_db = (Ok (VDict [("success", VBool true)]), sample_db) /\
  run (PaymentRouter.pause_sub 0
         (VDict [("success", VBool false); ("error", VStr "declined")]) today) sample_db =
    (Ok (VDict [("success", VBool false); ("error", VStr "declined")]),
     mkdb [Customer.mk 1 (VStr "sq_test_123") (VStr "sub_test_456") VNone VNone
             true "PAUSED" (Some 0)]
          [SubscriptionLog.mk 1 (VStr "sub_test_456") "PAUSE" today] [] [] [] []).
Proof.
  split_and!; [|reflexivity..].
  unfold run, PaymentRouter.change_plan, PaymentRouter.get_db_user, hbind, query, lift,
    raise, ret.
  simpl. repeat case_match; simplify_eq/=; done.
Qed.

(** ** Default payment method *)

Lemma default_count_app cid ms ms' :
  default_count cid (ms ++ ms')%list = (default_count cid ms + default_count cid ms')%nat.
Proof. unfold default_count. by rewrite List.filter_app, length_app. Qed.

Lemma is_default_of_cleared cid m :
  is_default_of cid (PaymentRouter.clear_default cid m) = false.
Proof.
  unfold is_default_of, PaymentRouter.clear_default.
  destruct (PaymentMethod.customer_id m =? cid) eqn:E; simpl; rewrite ?E; simpl;
    rewrite ?andb_false_r; reflexivity.
Qed.

Lemma is_default_of_cleared_other cid cid' m :
  cid' <> cid ->
  is_default_of cid' (PaymentRouter.clear_default cid m) = is_default_of cid' m.
Proof.
  intros Hne. unfold is_default_of, PaymentRouter.clear_default.
  destruct (PaymentMethod.customer_id m =? cid) eqn:E; simpl; [|reflexivity].
  apply Z.eqb_eq in E. by rewrite (proj2 (Z.eqb_neq _ _)) by lia.
Qed.

Lemma default_count_cleared cid ms :
  default_count cid (map (PaymentRouter.clear_default cid) ms) = 0%nat.
Proof.
  unfold default_count. induction ms as [|m ms IH]; [done|].
  cbn [map List.filter]. by rewrite is_default_of_cleared.
Qed.

Lemma default_count_cleared_other cid cid' ms :
  cid' <> cid ->
  default_count cid' (map (PaymentRouter.clear_default cid) ms) = default_count cid' ms.
Proof.
  intros Hne. unfold default_count. induction ms as [|m ms IH]; [done|].
  cbn [map List.filter]. rewrite is_default_of_cleared_other by done.
  destruct (is_default_of cid' m); cbn [length]; by rewrite IH.
Qed.

Lemma saved_as_default_count cid ms ms' :
  saved_as_default cid ms ms' ->
  default_count cid ms' = 1%nat /\
  forall cid', cid' <> cid -> default_count cid' ms' = default_count cid' ms.
Proof.
  intros (new & -> & Hc & Hd). split.
  - rewrite default_count_app, default_count_cleared. unfold default_count. simpl.
    unfold is_default_of. rewrite Hc, Hd, Z.eqb_refl. done.
  - intros cid' Hne. rewrite default_count_app, default_count_cleared_other by done.
    unfold default_count at 2. simpl. unfold is_default_of.
    rewrite Hc, (proj2 (Z.eqb_neq _ _)) by lia. simpl. lia.
Qed.

Lemma default_count_delete cid i ms :
  (default_count cid (delete i ms) <= default_count cid ms)%nat.
Proof.
  unfold default_count. revert i. induction ms as [|m ms IH]; intros [|i]; simpl; try lia.
  - destruct (is_default_of cid m); simpl; lia.
  - specialize (IH i). destruct (is_default_of cid m); simpl; lia.
Qed.

Lemma new_payment_method_default cid card_res m :
  PaymentRouter.new_payment_method cid card_res = Ok m ->
  PaymentMethod.customer_id m = cid /\ PaymentMethod.is_default m = true.
Proof.
  unfold PaymentRouter.new_payment_method. destruct card_res; try discriminate.
  simpl. by intros [= <-].
Qed.

(** What [validate_card] does to the table of payment methods. *)
Lemma validate_card_methods customer_id create_res card_res db :
  let out := run (PaymentRouter.validate_card customer_id create_res card_res) db in
  payment_methods (snd out) = payment_methods db \/
  exists cid, saved_as_default cid (payment_methods db) (payment_methods (snd out)).
Proof.
  unfold run, PaymentRouter.validate_card, PaymentRouter.requested_customer,
    PaymentRouter.clear_defaults, hbind, lift, query, raise, ret, update_customer, modify,
    add_payment_method, db_add, db_commit.
  cbv zeta.
  repeat (case_match; simplify_eq/=; try (left; reflexivity)).
  all: try (right; eexists; eexists; split; [rewrite ?app_nil_r; reflexivity|];
       eapply new_payment_method_default; eassumption).
  all: left; apply app_nil_r.
Qed.

Lemma save_card_methods u create_res card_res db :
  let out := run (PaymentRouter.save_card u create_res card_res) db in
  payment_methods (snd out) = payment_methods db \/
  exists cid, saved_as_default cid (payment_methods db) (payment_methods (snd out)).
Proof.
  unfold run, PaymentRouter.save_card, PaymentRouter.get_db_user,
    PaymentRouter.clear_defaults, hbind, lift, query, raise, ret, update_customer, modify,
    add_payment_method, db_add, db_commit.
  cbv zeta.
  repeat (case_match; simplify_eq/=; try (left; reflexivity)).
  all: try (right; eexists; eexists; split; [rewrite ?app_nil_r; reflexivity|];
       eapply new_payment_method_default; eassumption).
  all: left; apply app_nil_r.
Qed.

Lemma remove_card_methods u card_id db :
  let out := run (PaymentRouter.remove_card u card_id) db in
  payment_methods (snd out) = payment_methods db \/
  exists i, payment_methods (snd out) = delete i (payment_methods db).
Proof.
  unfold run, PaymentRouter.remove_card, PaymentRouter.get_db_user,
    hbind, lift, query, raise, ret, modify, db_commit.
  cbv zeta.
  repeat (case_match; simplify_eq/=; try (left; reflexivity)).
  all: try (right; eexists; rewrite ?app_nil_r; reflexivity).
  all: left; apply app_nil_r.
Qed.

Lemma card_operation_keeps_one_default db db' :
  card_operation db db' -> one_default_per_customer db -> one_default_per_customer db'.
Proof.
  intros Hop Hinv cid'. specialize (Hinv cid') as Hc.
  destruct Hop as [customer_id create_res card_res|u create_res card_res|u card_id].
  - destruct (validate_card_methods customer_id create_res card_res db) as [->|[cid Hs]];
      [done|].
    apply saved_as_default_count in Hs as [H1 Ho].
    destruct (decide (cid' = cid)) as [->|Hne]; [lia|]. by rewrite Ho.
  - destruct (save_card_methods u create_res card_res db) as [->|[cid Hs]]; [done|].
    apply saved_as_default_count in Hs as [H1 Ho].
    destruct (decide (cid' = cid)) as [->|Hne]; [lia|]. by rewrite Ho.
  - destruct (remove_card_methods u card_id db) as [->|[i ->]]; [done|].
    pose proof (default_count_delete cid' i (payment_methods db)). lia.
Qed.

(** A successful save for a customer stores the new method as that
    customer's only default. *)
Lemma validate_card_saves customer_id create_res card_res db r db' i c :
  run (PaymentRouter.validate_card customer_id create_res card_res) db = (Ok r, db') ->
  (exists k, customer_id = Some k /\ k <> 0 /\
             get_by_id Customer.id k (customers db) = Some (i, c)) ->
  saved_as_default (Customer.id c) (payment_methods db) (payment_methods db').
Proof.
  intros Hrun (k & -> & Hk & Hget). revert Hrun.
  unfold run, PaymentRouter.validate_card, PaymentRouter.requested_customer,
    PaymentRouter.clear_defaults, hbind, lift, query, raise, ret, update_customer, modify,
    add_payment_method, db_add, db_commit.
  cbv zeta. rewrite (proj2 (Z.eqb_neq k 0) Hk). cbn [negb working]. rewrite Hget.
  repeat (case_match; simplify_eq/=); intros [= <- <-]; simpl.
  all: eexists; split; [rewrite ?app_nil_r; reflexivity|];
       eapply new_payment_method_default; eassumption.
Qed.

Lemma save_card_saves u create_res card_res db r db' user :
  run (PaymentRouter.save_card u create_res card_res) db = (Ok r, db') ->
  customers db !! u = Some user ->
  saved_as_default (Customer.id user) (payment_methods db) (payment_methods db').
Proof.
  intros Hrun Hu. revert Hrun.
  unfold run, PaymentRouter.save_card, PaymentRouter.get_db_user,
    PaymentRouter.clear_defaults, hbind, lift, query, raise, ret, update_customer, modify,
    add_payment_method, db_add, db_commit.
  cbv zeta. cbn [working]. rewrite Hu.
  repeat (case_match; simplify_eq/=); intros [= <- <-]; simpl.
  all: eexists; split; [rewrite ?app_nil_r; reflexivity|];
       eapply new_payment_method_default; eassumption.
Qed.


(** A save whose platform calls succeed completes. *)
Lemma validate_card_completes db k i c create_res card_res accepted :
  k <> 0 ->
  get_by_id Customer.id k (customers db) = Some (i, c) ->
  truthy (Customer.square_customer_id c) = true \/
    (exists created, py_get create_res "success" = Ok created /\ truthy created = true) ->
  py_get card_res "success" = Ok accepted -> truthy accepted = true ->
  exists r db', run (PaymentRouter.validate_card (Some k) create_res card_res) db = (Ok r, db').
Proof.
  intros Hk Hget Hsq Hs Hst.
  destruct card_res as [| | | | | |card]; try discriminate.
  unfold run, PaymentRouter.validate_card, PaymentRouter.requested_customer,
    PaymentRouter.clear_defaults, PaymentRouter.new_payment_method, hbind, lift, query, raise,
    ret, update_customer, modify, add_payment_method, db_add, db_commit, bind.
  cbv zeta. rewrite (proj2 (Z.eqb_neq k 0) Hk). cbn [negb working]. rewrite Hget.
  cbn [py_get py_get_default] in Hs. injection Hs as <-.
  destruct (truthy (Customer.square_customer_id c)) eqn:Hc; cbn [negb].
  - cbn [py_get py_get_default]. rewrite Hst. cbn. eauto.
  - destruct Hsq as [|(created & Hcr & Hct)]; [discriminate|].
    destruct create_res as [| | | | | |create]; try discriminate.
    cbn [py_get py_get_default] in Hcr. injection Hcr as <-.
    cbn [py_get py_get_default]. rewrite Hct. cbn [negb].
    cbn [committed working pending]. rewrite Hst. cbn. eauto.
Qed.

Lemma save_card_completes db u user create_res card_res accepted :
  customers db !! u = Some user ->
  truthy (Customer.square_customer_id user) = true \/
    (exists created, py_get create_res "success" = Ok created /\ truthy created = true) ->
  py_get card_res "success" = Ok accepted -> truthy accepted = true ->
  exists r db', run (PaymentRouter.save_card u create_res card_res) db = (Ok r, db').
Proof.
  intros Hu Hsq Hs Hst.
  destruct card_res as [| | | | | |card]; try discriminate.
  unfold run, PaymentRouter.save_card, PaymentRouter.get_db_user,
    PaymentRouter.clear_defaults, PaymentRouter.new_payment_method, hbind, lift, query, raise,
    ret, update_customer, modify, add_payment_method, db_add, db_commit, bind.
  cbv zeta. cbn [working]. rewrite Hu.
  cbn [py_get py_get_default] in Hs. injection Hs as <-.
  destruct (truthy (Customer.square_customer_id user)) eqn:Hc; cbn [negb].
  - cbn [py_get py_get_default]. rewrite Hst. cbn. eauto.
  - destruct Hsq as [|(created & Hcr & Hct)]; [discriminate|].
    destruct create_res as [| | | | | |create]; try discriminate.
    cbn [py_get py_get_default] in Hcr. injection Hcr as <-.
    cbn [py_get py_get_default]. rewrite Hct. cbn [negb].
    cbn [committed working pending]. rewrite Hst. cbn. eauto.
Qed.

(** C7.  In every table reached from one with at most one default payment
    method per customer by any sequence of validate-card, save-card and
    remove-card requests, every customer has at most one default.  There,
    a validate-card or save-card request for a customer whose platform
    calls succeed completes, and it has set [is_default] to false on all of
    that customer's earlier methods and appended the new method as the
    default, so that the customer then has exactly one default. *)
Theorem at_most_one_default_card
    (db0 db : database) (k : Z) (i : nat) (c : Customer.t)
    (create_res card_res accepted : value) :
  one_default_per_customer db0 ->
  card_operations db0 db ->
  k <> 0 ->
  get_by_id Customer.id k (customers db) = Some (i, c) ->
  truthy (Customer.square_customer_id c) = true \/
    (exists created, py_get create_res "success" = Ok created /\ truthy created = true) ->
  py_get card_res "success" = Ok accepted ->
  truthy accepted = true ->
  let saved (out : result value * database) :=
    (exists r, fst out = Ok r) /\
    saved_as_default (Customer.id c) (payment_methods db) (payment_methods (snd out)) /\
    default_count (Customer.id c) (payment_methods (snd out)) = 1%nat /\
    one_default_per_customer (snd out) in
  one_default_per_customer db /\
  saved (run (PaymentRouter.validate_card (Some k) create_res card_res) db) /\
  saved (run (PaymentRouter.save_card i create_res card_res) db).
Proof.
  intros Hinv0 Hops Hk Hget Hsq Hs Hst. cbv zeta.
  assert (Hinv : one_default_per_customer db).
  { clear Hget. induction Hops as [|db0 db1 db2 _ IH Hop]; [done|].
    eapply card_operation_keeps_one_default; [exact Hop|by apply IH]. }
  assert (Hi : customers db !! i = Some c) by (by apply list_find_Some in Hget as [? _]).
  split; [done|]. split.
  - destruct (validate_card_completes db k i c create_res card_res accepted)
      as (r & db' & Hrun); try done.
    assert (Hsaved : saved_as_default (Customer.id c) (payment_methods db)
                       (payment_methods db'))
      by (eapply validate_card_saves; eauto).
    rewrite Hrun. cbn [fst snd]. split_and!; [eauto|done| |].
    + by apply saved_as_default_count in Hsaved as [? _].
    + eapply card_operation_keeps_one_default; [|exact Hinv].
      replace db' with (snd (run (PaymentRouter.validate_card (Some k) create_res card_res) db))
        by (by rewrite Hrun).
      constructor.
  - destruct (save_card_completes db i c create_res card_res accepted)
      as (r & db' & Hrun); try done.
    assert (Hsaved : saved_as_default (Customer.id c) (payment_methods db)
                       (payment_methods db'))
      by (eapply save_card_saves; eauto).
    rewrite Hrun. cbn [fst snd]. split_and!; [eauto|done| |].
    + by apply saved_as_default_count in Hsaved as [? _].
    + eapply card_operation_keeps_one_default; [|exact Hinv].
      replace db' with (snd (run (PaymentRouter.save_card i create_res card_res) db))
        by (by rewrite Hrun).
      constructor.
Qed.

Lemma one_default_card_witness :
  let card id := VDict [("success", VBool true); ("card_id", VStr id);
                        ("last_4", VStr "1111"); ("brand", VStr "VISA");
                        ("exp_month", VInt 1); ("exp_year", VInt 2030)] in
  let db := snd (run (PaymentRouter.save_card 0 VNone (card "card_a")) sample_db) in
  let saved (out : result value * database) :=
    (exists r, fst out = Ok r) /\
    saved_as_default (Customer.id sample_customer) (payment_methods db)
      (payment_methods (snd out)) /\
    default_count (Customer.id sample_customer) (payment_methods (snd out)) = 1%nat /\
    one_default_per_customer (snd out) in
  one_default_per_customer db /\
  saved (run (PaymentRouter.validate_card (Some 1) VNone (card "card_b")) db) /\
  saved (run (PaymentRouter.save_card 0 VNone (card "card_b")) db).
Proof.
  apply (at_most_one_default_card sample_db _ 1 0 sample_customer VNone _ (VBool true)).
  - intros cid. unfold default_count. simpl. lia.
  - eapply ops_then; [apply ops_none|]. apply op_save_card.
  - discriminate.
  - reflexivity.
  - left. reflexivity.
  - reflexivity.
  - reflexivity.
Defined.

(** ** Growth history *)

Lemma fold_right_add_init (a : Z) (l : list Z) :
  fold_right Z.add a l = fold_right Z.add 0 l + a.
Proof. induction l as [|x l IH]; simpl; lia. Qed.

Section Growth.
Variable py : pylib.
Variable start : date.
Variable gm : gmap string Z.
Variable rm : gmap string float.

Lemma growth_loop_spec n : forall k tot acc,
  AdminRouter.growth_loop py start gm rm (seq k n) tot acc =
  (acc ++ map (item_at py start gm rm tot k) (seq k n))%list.
Proof.
  induction n as [|n IH]; intros k tot acc; simpl.
  - by rewrite app_nil_r.
  - rewrite IH, <- app_assoc. simpl. f_equal. f_equal.
    + unfold item_at. f_equal. replace (S k - k)%nat with 1%nat by lia. simpl.
      unfold daily_new. lia.
    + apply map_ext_in. intros j Hj%in_seq. unfold item_at. f_equal.
      replace (S j - k)%nat with (S (S j - S k))%nat by lia. simpl.
      unfold daily_new. lia.
Qed.

Lemma cumulative_sum N i :
  N + fold_right Z.add 0 (map (daily_new py start gm) (seq 0 (S i))) =
  cumulative (daily_new py start gm) N i.
Proof.
  induction i as [|i IH]; [simpl; lia|].
  rewrite seq_S, map_app, fold_right_app, fold_right_add_init.
  change (cumulative (daily_new py start gm) N (S i))
    with (cumulative (daily_new py start gm) N i + daily_new py start gm (S i)).
  rewrite <- IH. simpl. lia.
Qed.
End Growth.

Lemma cumulative_mono (c : nat -> Z) N (n : nat) :
  (forall k, (k < n)%nat -> 0 <= c k) ->
  forall i j, (i <= j)%nat -> (j < n)%nat -> cumulative c N i <= cumulative c N j.
Proof.
  intros Hc i j Hij Hj. induction Hij as [|j Hij IH]; [lia|].
  simpl. specialize (Hc (S j) Hj). specialize (IH ltac:(lia)). lia.
Qed.

(** C8.  For a count [N] of customers created before the window and the
    daily counts [c 0 .. c 30] the loop reads, the growth history has
    exactly 31 entries; their [customers] values are [N + c 0],
    [N + c 0 + c 1], ... in this order, the first being [N + c 0]; and when
    no daily count is negative the series never decreases. *)
Theorem growth_history_is_cumulative
    (py : pylib) (thirty_days_ago : date) (N : Z)
    (growth_map : gmap string Z) (revenue_map : gmap string float) :
  let c := daily_new py thirty_days_ago growth_map in
  let history := AdminRouter.growth_history py thirty_days_ago N growth_map revenue_map in
  length history = 31%nat /\
  map growth_customers history = map (cumulative c N) (seq 0 31) /\
  growth_customers <$> head history = Some (N + c 0%nat) /\
  ((forall k, (k < 31)%nat -> 0 <= c k) ->
   forall i j x y, (i <= j)%nat ->
     growth_customers <$> history !! i = Some x ->
     growth_customers <$> history !! j = Some y -> x <= y).
Proof.
  intros c history.
  assert (Hmap : map growth_customers history = map (cumulative c N) (seq 0 31)).
  { unfold history, AdminRouter.growth_history. rewrite growth_loop_spec, app_nil_l, map_map.
    apply map_ext_in. intros j Hj%in_seq. unfold item_at. cbn [growth_customers].
    replace (S j - 0)%nat with (S j) by lia. apply cumulative_sum. }
  split; [|split; [exact Hmap|split]].
  - rewrite <- (length_map growth_customers), Hmap, length_map, length_seq. reflexivity.
  - unfold history, AdminRouter.growth_history. rewrite growth_loop_spec, app_nil_l.
    change (seq 0 31) with (0%nat :: seq 1 30). cbn [map head fmap option_fmap option_map].
    unfold item_at. cbn [growth_customers]. f_equal.
    replace (1 - 0)%nat with 1%nat by lia. cbn [seq map fold_right]. fold c. lia.
  - intros Hc i j x y Hij Hi Hj.
    rewrite <- list_lookup_fmap in Hi, Hj.
    change (growth_customers <$> history) with (map growth_customers history) in Hi, Hj.
    rewrite Hmap in Hi, Hj. clear Hmap.
    change (map (cumulative c N) (seq 0 31)) with (cumulative c N <$> seq 0 31) in Hi, Hj.
    rewrite list_lookup_fmap in Hi, Hj.
    destruct (seq 0 31 !! i) as [i'|] eqn:Ei; [|discriminate Hi].
    destruct (seq 0 31 !! j) as [j'|] eqn:Ej; [|discriminate Hj].
    apply lookup_seq in Ei as [-> Hi31], Ej as [-> Hj31].
    cbn [fmap option_fmap option_map] in Hi, Hj.
    injection Hi as <-. injection Hj as <-.
    apply (cumulative_mono c N 31 Hc); lia.
Qed.

(** ** Invoice synchronisation *)

Lemma column_matches_eq v col :
  text_or_null v -> (Is_true (column_matches v col) <-> col = v).
Proof.
  destruct v; try done; intros _; destruct col; simpl; split; try done.
  - intros H%Is_true_true%String.eqb_eq. by subst.
  - intros [= ->]. apply Is_true_true, String.eqb_refl.
Qed.

Lemma first_by_text {A} (col : A -> value) v rows o :
  first_by col v rows = Ok o ->
  text_or_null v /\ o = list_find (fun r => Is_true (column_matches v (col r))) rows.
Proof. destruct v; try discriminate; simpl; intros [= <-]; done. Qed.

Lemma first_by_ok {A} (col : A -> value) v rows :
  text_or_null v ->
  first_by col v rows = Ok (list_find (fun r => Is_true (column_matches v (col r))) rows).
Proof. by destruct v. Qed.

Lemma list_alter_fix {A} (f : A -> A) (l : list A) i x :
  l !! i = Some x -> f x = x -> alter f i l = l.
Proof.
  intros Hi Hf. rewrite (list_alter_insert _ _ _ _ Hi), Hf. by apply list_insert_id.
Qed.

Lemma find_id_None v (rows : list Invoice.t) :
  text_or_null v ->
  list_find (has_invoice_id v) rows = None <-> v ∉ invoice_ids rows.
Proof.
  intros Hv. rewrite list_find_None, Forall_forall, list_elem_of_fmap. split.
  - intros H (r & -> & Hr). apply (H r Hr). unfold has_invoice_id.
    by apply column_matches_eq.
  - intros H r Hr Hm. apply H. exists r. split; [|done].
    symmetry. by apply (column_matches_eq v).
Qed.

Lemma find_id_Some v (rows : list Invoice.t) i r :
  text_or_null v ->
  list_find (has_invoice_id v) rows = Some (i, r) ->
  rows !! i = Some r /\ Invoice.square_invoice_id r = v.
Proof.
  intros Hv (Hi & Hm & _)%list_find_Some. split; [done|].
  by apply (column_matches_eq v).
Qed.

Lemma find_id_same_ids v (rows rows' : list Invoice.t) i r r' :
  invoice_ids rows' = invoice_ids rows ->
  list_find (has_invoice_id v) rows = Some (i, r) ->
  rows' !! i = Some r' ->
  list_find (has_invoice_id v) rows' = Some (i, r').
Proof.
  intros Hids (Hi & Hm & Hlt)%list_find_Some Hi'.
  assert (Hsame : forall j x y, rows !! j = Some x -> rows' !! j = Some y ->
                    Invoice.square_invoice_id y = Invoice.square_invoice_id x).
  { intros j x y Hx Hy.
    assert (invoice_ids rows' !! j = invoice_ids rows !! j) as E by by rewrite Hids.
    rewrite !list_lookup_fmap, Hx, Hy in E. by injection E. }
  apply list_find_Some. split_and!; [done| |].
  - unfold has_invoice_id in *. by rewrite (Hsame _ _ _ Hi Hi').
  - intros j y Hy Hj.
    assert (is_Some (rows !! j)) as [x Hx].
    { apply lookup_lt_is_Some. apply lookup_lt_Some in Hi. lia. }
    unfold has_invoice_id in *. rewrite (Hsame _ _ _ Hx Hy). by apply (Hlt j x).
Qed.

Lemma invoice_ids_insert (rows : list Invoice.t) (i : nat) r r' :
  rows !! i = Some r ->
  Invoice.square_invoice_id r' = Invoice.square_invoice_id r ->
  invoice_ids (<[i := r']> rows) = invoice_ids rows.
Proof.
  intros Hi Hid. rewrite list_fmap_insert, Hid. apply list_insert_id.
  by rewrite list_lookup_fmap, Hi.
Qed.

Lemma with_invoices_twice a b db : with_invoices a (with_invoices b db) = with_invoices a db.
Proof. reflexivity. Qed.

Lemma session_eta s :
  s = mksession (committed s) (with_invoices (invoices (working s)) (working s))
        (with_invoices (invoices (pending s) ++ []) (pending s)).
Proof. destruct s as [c [] []]; simpl. unfold with_invoices; simpl. by rewrite app_nil_r. Qed.

Section Sync.
Variable py : pylib.
Variable unique : bool.
Variable customer : Customer.t.

Lemma invoice_due_date_dict clk fields :
  exists d, AdminRouter.invoice_due_date py clk (VDict fields) = Ok d.
Proof. unfold AdminRouter.invoice_due_date. simpl. eauto. Qed.

(** What one iteration does to the session. *)
Lemma sync_invoice_effect clk sq_inv n s n' s' :
  AdminRouter.sync_invoice py customer clk sq_inv n s = (Ok n', s') ->
  exists a status public_url,
    text_or_null (remote_id sq_inv) /\
    AdminRouter.invoice_amount py sq_inv = Ok a /\
    py_get sq_inv "status" = Ok status /\
    py_get sq_inv "public_url" = Ok public_url /\
    ((list_find (has_invoice_id (remote_id sq_inv)) (invoices (working s)) = None /\
      n' = n + 1 /\
      exists r,
        Invoice.square_invoice_id r = remote_id sq_inv /\
        Invoice.amount r = a /\ Invoice.status r = status /\
        Invoice.public_url r = public_url /\
        s' = mksession (committed s) (working s)
               (with_invoices (invoices (pending s) ++ [r]) (pending s)))
     \/
     (exists i r,
        list_find (has_invoice_id (remote_id sq_inv)) (invoices (working s)) = Some (i, r) /\
        n' = n /\
        s' = mksession (committed s)
               (with_invoices
                  (<[i := Invoice.mk (Invoice.square_invoice_id r) (Invoice.customer_id r)
                            (Invoice.subscription_id r) a status (Invoice.due_date r)
                            public_url]> (invoices (working s)))
                  (working s))
               (pending s))).
Proof.
  destruct sq_inv as [| | | | | |fields]; try discriminate.
  unfold AdminRouter.sync_invoice, hbind, lift, query.
  cbn [py_get py_get_default remote_id].
  destruct (AdminRouter.invoice_amount py (VDict fields)) as [a|] eqn:Ha; [|discriminate].
  destruct (first_by _ _ _) as [existing|] eqn:Hf; [|discriminate].
  apply first_by_text in Hf as [Htext ->].
  destruct (invoice_due_date_dict clk fields) as [d ->].
  change (fun r => Is_true (column_matches (default VNone (assoc "id" fields))
                              (Invoice.square_invoice_id r)))
    with (has_invoice_id (default VNone (assoc "id" fields))).
  destruct (list_find _ _) as [[i r]|] eqn:Hfind.
  - unfold AdminRouter.update_invoice, modify, ret. simpl.
    intros [= <- <-]. eexists _, _, _. split_and!; try done. right.
    exists i, r. split_and!; try done. f_equal.
    assert (Hi : invoices (working s) !! i = Some r)
      by (by apply list_find_Some in Hfind as [? _]).
    unfold with_invoices. simpl. f_equal.
    rewrite !list_alter_alter_eq. by rewrite (list_alter_insert _ _ _ _ Hi).
  - unfold add_invoice, db_add, ret. simpl.
    intros [= <- <-]. eexists _, _, _. split_and!; try done. left.
    split_and!; try done. eexists. split_and!. 5: reflexivity. all: reflexivity.
Qed.

(** The iteration for an invoice the table already reflects changes
    nothing. *)
Lemma sync_invoice_reflected clk sq_inv n s :
  reflects py (invoices (working s)) sq_inv ->
  AdminRouter.sync_invoice py customer clk sq_inv n s = (Ok n, s).
Proof.
  intros (i & r & Hf & Ha & Hs & Hu).
  destruct sq_inv as [| | | | | |fields]; try discriminate.
  unfold AdminRouter.sync_invoice, hbind, lift, query.
  cbn [py_get py_get_default]. rewrite Ha.
  cbn [remote_id] in Hf. rewrite Hf.
  destruct (invoice_due_date_dict clk fields) as [d ->].
  unfold AdminRouter.update_invoice, modify, ret. simpl.
  apply first_by_text in Hf as [_ Hf]. symmetry in Hf.
  assert (Hi : invoices (working s) !! i = Some r)
    by (by apply list_find_Some in Hf as [? _]).
  cbn [py_get py_get_default] in Hs, Hu. injection Hs as Hs. injection Hu as Hu.
  rewrite !list_alter_alter_eq, (list_alter_fix _ _ _ _ Hi).
  - destruct s as [c w p]; destruct w; reflexivity.
  - destruct r; simpl in *. by rewrite Hs, Hu.
Qed.

Lemma sync_loop_reflected clk items : forall k n s,
  Forall (reflects py (invoices (working s))) items ->
  AdminRouter.sync_loop py customer clk k items n s = (Ok n, s).
Proof.
  induction items as [|sq_inv items IH]; intros k n s Hall; [reflexivity|].
  apply Forall_cons in Hall as [H1 Hall].
  cbn [AdminRouter.sync_loop]. unfold hbind.
  rewrite (sync_invoice_reflected _ _ _ _ H1). by apply IH.
Qed.


(** What a completed loop over remote invoices with distinct ids does. *)
Lemma sync_loop_effect clk items : forall k n s n' s',
  AdminRouter.sync_loop py customer clk k items n s = (Ok n', s') ->
  NoDup (remote_id <$> items) ->
  exists rows' new,
    s' = mksession (committed s) (with_invoices rows' (working s))
           (with_invoices (invoices (pending s) ++ new) (pending s)) /\
    invoice_ids rows' = invoice_ids (invoices (working s)) /\
    (forall j r, invoices (working s) !! j = Some r ->
                 Invoice.square_invoice_id r ∉ remote_id <$> items ->
                 rows' !! j = Some r) /\
    n' = n + Z.of_nat (length new) /\
    Forall (fun r => Invoice.square_invoice_id r ∈ remote_id <$> items /\
                     Invoice.square_invoice_id r ∉ invoice_ids (invoices (working s)))
           new /\
    NoDup (invoice_ids new) /\
    (forall sq_inv, sq_inv ∈ items ->
       remote_id sq_inv ∉ invoice_ids (invoices (pending s)) ->
       reflects py (rows' ++ invoices (pending s) ++ new) sq_inv).
Proof.
  induction items as [|x rest IH]; intros k n s n' s' Hrun Hnd.
  { injection Hrun as <- <-. exists (invoices (working s)), [].
    split_and!; [apply session_eta|done|done|simpl; lia|constructor|apply NoDup_nil_2|].
    intros ? H. by apply elem_of_nil in H. }
  cbn [AdminRouter.sync_loop] in Hrun. unfold hbind in Hrun.
  destruct (AdminRouter.sync_invoice py customer (clk k) x n s) as [[n1|e] s1] eqn:Hstep;
    [|discriminate].
  rewrite fmap_cons in Hnd. apply NoDup_cons in Hnd as [Hx Hnd].
  apply sync_invoice_effect in Hstep
    as (a & status & url & Htext & Ha & Hs & Hu & Hcase).
  destruct Hcase as [(Hnone & -> & r & Hrid & Hra & Hrs & Hru & ->)
                    |(i & r0 & Hsome & -> & ->)].
  - (* a new row *)
    destruct (IH _ _ _ _ _ Hrun Hnd)
      as (rows' & new & -> & Hids & Hframe & -> & Hnew & Hndn & Hrefl).
    cbn [committed working pending invoices with_invoices] in *.
    exists rows', (r :: new).
    assert (Hfresh : remote_id x ∉ invoice_ids (invoices (working s)))
      by (by apply find_id_None).
    split_and!.
    + unfold with_invoices. simpl. by rewrite <- app_assoc.
    + done.
    + intros j r' Hj Hr'. apply (Hframe j r' Hj).
      rewrite fmap_cons in Hr'. set_solver.
    + simpl length. lia.
    + constructor.
      * rewrite Hrid, fmap_cons. split; [set_solver|done].
      * eapply Forall_impl; [exact Hnew|]. intros r' [H1 H2]. rewrite fmap_cons.
        split; [set_solver|done].
    + rewrite fmap_cons. apply NoDup_cons. split; [|done].
      rewrite Hrid. intros (r' & Hr' & Hin)%list_elem_of_fmap.
      rewrite Forall_forall in Hnew. destruct (Hnew r' Hin) as [H1 _].
      rewrite <- Hr' in H1. done.
    + intros sq_inv Hin Hpend. apply elem_of_cons in Hin as [->|Hin].
      * exists (0 + length (invoices (pending s)) + length rows')%nat, r.
        split_and!; try (by rewrite ?Hra, ?Hrs, ?Hru).
        rewrite (first_by_ok _ _ _ Htext).
        change (fun r1 => Is_true (column_matches (remote_id x)
                                      (Invoice.square_invoice_id r1)))
          with (has_invoice_id (remote_id x)).
        rewrite list_find_app_r by (apply find_id_None; [done|by rewrite Hids]).
        rewrite list_find_app_r by (by apply find_id_None).
        cbn [list_find]. rewrite decide_True; [reflexivity|].
        unfold has_invoice_id. by apply column_matches_eq.
      * assert (remote_id sq_inv <> remote_id x).
        { intros E. apply Hx. rewrite <- E. by apply list_elem_of_fmap_2. }
        replace (invoices (pending s) ++ r :: new)%list
          with ((invoices (pending s) ++ [r]) ++ new)%list
          by (by rewrite <- app_assoc).
        apply Hrefl; [done|]. rewrite fmap_app. simpl.
        rewrite Hrid. set_solver.
  - (* an existing row, updated in place *)
    destruct (find_id_Some _ _ _ _ Htext Hsome) as [Hi Hr0].
    set (r1 := Invoice.mk (Invoice.square_invoice_id r0) (Invoice.customer_id r0)
                 (Invoice.subscription_id r0) a status (Invoice.due_date r0) url) in *.
    destruct (IH _ _ _ _ _ Hrun Hnd)
      as (rows' & new & -> & Hids & Hframe & -> & Hnew & Hndn & Hrefl).
    cbn [committed working pending invoices with_invoices] in *.
    rewrite (invoice_ids_insert _ _ r0 r1 Hi eq_refl) in Hids, Hnew.
    exists rows', new.
    assert (Hi1 : rows' !! i = Some r1).
    { apply Hframe.
      - apply list_lookup_insert_eq. by apply lookup_lt_Some in Hi.
      - subst r1. simpl. by rewrite Hr0. }
    split_and!; try done.
    + intros j r' Hj Hr'. rewrite fmap_cons in Hr'.
      assert (j <> i).
      { intros ->. rewrite Hi in Hj. injection Hj as <-. rewrite Hr0 in Hr'. set_solver. }
      apply Hframe; [by rewrite list_lookup_insert_ne|set_solver].
    + eapply Forall_impl; [exact Hnew|]. intros r' [H1 H2]. rewrite fmap_cons.
      split; [set_solver|done].
    + intros sq_inv Hin Hpend. apply elem_of_cons in Hin as [->|Hin]; [|by apply Hrefl].
      exists i, r1. split_and!; try done.
      rewrite (first_by_ok _ _ _ Htext).
      change (fun r2 => Is_true (column_matches (remote_id x)
                                    (Invoice.square_invoice_id r2)))
        with (has_invoice_id (remote_id x)).
      apply f_equal, list_find_app_l.
      by apply (find_id_same_ids _ (invoices (working s)) rows' i r0 r1).
Qed.
(** The row an iteration queues, if it queues one. *)
Lemma sync_invoice_added clk sq_inv n s n' s' :
  AdminRouter.sync_invoice py customer clk sq_inv n s = (Ok n', s') ->
  invoices (pending s') = invoices (pending s) \/
  exists r, invoices (pending s') = (invoices (pending s) ++ [r])%list /\
            new_row_of py (Customer.id customer) sq_inv r.
Proof.
  destruct sq_inv as [| | | | | |fields]; try discriminate.
  unfold AdminRouter.sync_invoice, hbind, lift, query.
  cbn [py_get py_get_default].
  destruct (AdminRouter.invoice_amount py (VDict fields)) as [a|] eqn:Ha; [|discriminate].
  destruct (first_by _ _ _) as [existing|] eqn:Hf; [|discriminate].
  destruct (AdminRouter.invoice_due_date py clk (VDict fields)) as [d|] eqn:Hd;
    [|discriminate].
  destruct existing as [[i r]|].
  - unfold AdminRouter.update_invoice, modify, ret. simpl. intros [= <- <-]. by left.
  - unfold add_invoice, db_add, ret. simpl. intros [= <- <-]. right.
    eexists. split; [reflexivity|].
    unfold new_row_of. cbn [py_get py_get_default remote_id].
    rewrite Ha. split_and!; try reflexivity. by exists clk.
Qed.

Lemma sync_loop_added clk items : forall k n s n' s',
  AdminRouter.sync_loop py customer clk k items n s = (Ok n', s') ->
  exists added,
    invoices (pending s') = (invoices (pending s) ++ added)%list /\
    Forall (fun r => exists sq_inv,
              sq_inv ∈ items /\ new_row_of py (Customer.id customer) sq_inv r) added.
Proof.
  induction items as [|x rest IH]; intros k n s n' s' Hrun.
  { injection Hrun as <- <-. exists []. by rewrite app_nil_r. }
  cbn [AdminRouter.sync_loop] in Hrun. unfold hbind in Hrun.
  destruct (AdminRouter.sync_invoice py customer (clk k) x n s) as [[n1|e] s1] eqn:Hstep;
    [|discriminate].
  destruct (IH _ _ _ _ _ Hrun) as (added & Hp & Hall).
  assert (Hrest : Forall (fun r => exists sq_inv,
                    sq_inv ∈ x :: rest /\ new_row_of py (Customer.id customer) sq_inv r)
                    added).
  { eapply Forall_impl; [exact Hall|]. intros r (sq_inv & Hin & Hr).
    exists sq_inv. split; [by right|done]. }
  apply sync_invoice_added in Hstep as [Hsame|(r & Hr & Hnew)].
  - exists added. by rewrite Hp, Hsame.
  - exists (r :: added). split.
    + by rewrite Hp, Hr, <- app_assoc.
    + constructor; [|done]. exists x. split; [by left|done].
Qed.

(** In a table that holds no id twice, the row found for a remote invoice
    is the only row with its id. *)
Lemma reflects_stored (rows : list Invoice.t) sq_inv :
  NoDup (invoice_ids rows) -> reflects py rows sq_inv -> stored py rows sq_inv.
Proof.
  intros Hnd (i & r & Hf & Ha & Hs & Hu).
  apply first_by_text in Hf as [Htext Hf]. symmetry in Hf.
  destruct (find_id_Some _ _ _ _ Htext Hf) as [Hi Hid].
  split.
  - exists r. split; [by eapply list_elem_of_lookup_2|done].
  - intros row (j & Hj)%list_elem_of_lookup_1 Hrow.
    assert (j = i) as ->.
    { eapply NoDup_lookup; [exact Hnd| |].
      - by rewrite list_lookup_fmap, Hj; simpl; rewrite Hrow.
      - by rewrite list_lookup_fmap, Hi; simpl; rewrite Hid. }
    rewrite Hi in Hj. by injection Hj as <-.
Qed.
End Sync.

Lemma append_new_invoices rows' new db :
  append_rows (with_invoices rows' db) (with_invoices new no_rows) =
  with_invoices (rows' ++ new) db.
Proof. destruct db. unfold append_rows, with_invoices. simpl. by rewrite !app_nil_r. Qed.

Lemma sync_inputs_items customer_id current_user res db customer items :
  sync_inputs customer_id current_user res db = Ok (customer, items) ->
  items = remote_invoices res.
Proof.
  unfold sync_inputs, remote_invoices, bind. intros H.
  repeat (case_match; simplify_eq/=; try done).
Qed.

Lemma sync_inputs_customers customer_id current_user res db db' :
  customers db' = customers db ->
  sync_inputs customer_id current_user res db' = sync_inputs customer_id current_user res db.
Proof. intros H. unfold sync_inputs. by rewrite H. Qed.

Lemma sync_inputs_customer customer_id current_user res db customer items :
  sync_inputs customer_id current_user res db = Ok (customer, items) ->
  Customer.id customer = customer_id.
Proof.
  unfold sync_inputs, bind. intros H.
  repeat (case_match; simplify_eq/=; try done).
  match goal with H : get_by_id _ _ _ = Some _ |- _ =>
    by apply list_find_Some in H as (_ & ? & _) end.
Qed.

Section SyncRun.
Variable py : pylib.
Variable unique : bool.

(** The handler, as its checks followed by the loop and the commit. *)
Lemma sync_unfold customer_id current_user res clk db :
  run (AdminRouter.sync_customer_invoices py unique customer_id current_user res clk) db =
  match sync_inputs customer_id current_user res db with
  | Raise e => (Raise e, db)
  | Ok (customer, items) =>
      match AdminRouter.sync_loop py customer clk 0 items 0 (mksession db db no_rows) with
      | (Ok n, s1) =>
          match AdminRouter.insert_invoices unique (invoices (working s1))
                  (invoices (pending s1)) with
          | Ok _ => (Ok (synced n), append_rows (working s1) (pending s1))
          | Raise e => (Raise e, committed s1)
          end
      | (Raise e, s1) => (Raise e, committed s1)
      end
  end.
Proof.
  unfold run, AdminRouter.sync_customer_invoices, AdminRouter.require_admin, sync_inputs,
    AdminRouter.commit_invoices, hbind, lift, query, raise, ret, bind, db_commit, synced.
  cbn [working].
  repeat (case_match; simplify_eq/=; try done).
Qed.

(** A completed synchronisation over remote invoices with distinct ids. *)
Lemma sync_run_effect customer_id current_user res clk db r db' :
  run (AdminRouter.sync_customer_invoices py unique customer_id current_user res clk) db
    = (Ok r, db') ->
  NoDup (remote_id <$> remote_invoices res) ->
  exists rows' new,
    db' = with_invoices (rows' ++ new) db /\
    r = synced (Z.of_nat (length new)) /\
    invoice_ids rows' = invoice_ids (invoices db) /\
    (forall j row, invoices db !! j = Some row ->
                   Invoice.square_invoice_id row ∉ remote_id <$> remote_invoices res ->
                   rows' !! j = Some row) /\
    Forall (fun r => Invoice.square_invoice_id r ∈ remote_id <$> remote_invoices res /\
                     Invoice.square_invoice_id r ∉ invoice_ids (invoices db)) new /\
    NoDup (invoice_ids new) /\
    Forall (fun row => exists sq_inv,
              sq_inv ∈ remote_invoices res /\ new_row_of py customer_id sq_inv row) new /\
    (forall sq_inv, sq_inv ∈ remote_invoices res -> reflects py (rows' ++ new) sq_inv) /\
    forall clk',
      run (AdminRouter.sync_customer_invoices py unique customer_id current_user res clk')
        db' = (Ok (synced 0), db').
Proof.
  rewrite sync_unfold. intros Hrun Hnd.
  destruct (sync_inputs customer_id current_user res db) as [[customer items]|] eqn:Hin;
    [|discriminate].
  pose proof (sync_inputs_items _ _ _ _ _ _ Hin) as Hitems. rewrite <- Hitems in *.
  pose proof (sync_inputs_customer _ _ _ _ _ _ Hin) as Hcid.
  destruct (AdminRouter.sync_loop py customer clk 0 items 0 _) as [[n|e] s1] eqn:Hloop;
    [|discriminate].
  destruct (sync_loop_added py customer clk items _ _ _ _ _ Hloop) as (added & Hadd & Hrows).
  destruct (sync_loop_effect py customer clk items _ _ _ _ _ Hloop Hnd)
    as (rows' & new & -> & Hids & Hframe & -> & Hnew & Hndn & Hrefl).
  cbn [committed working pending invoices no_rows with_invoices] in *.
  change ([] ++ new)%list with new in *. change ([] ++ added)%list with added in Hadd.
  subst added. rewrite Hcid in Hrows.
  destruct (AdminRouter.insert_invoices unique rows' new) as [t|]; [|discriminate].
  injection Hrun as <- <-. rewrite append_new_invoices.
  assert (Hall : forall sq_inv, sq_inv ∈ items -> reflects py (rows' ++ new) sq_inv).
  { intros sq_inv Hi. apply (Hrefl sq_inv Hi). simpl. apply not_elem_of_nil. }
  exists rows', new. split_and!; try done.
  intros clk'. rewrite sync_unfold.
  rewrite (sync_inputs_customers _ _ _ db) by reflexivity. rewrite Hin.
  rewrite sync_loop_reflected.
  - cbn [working pending invoices no_rows AdminRouter.insert_invoices].
    by rewrite append_no_rows.
  - apply Forall_forall. intros sq_inv Hi. by apply Hall.
Qed.

(** The same, for a table that holds no invoice id twice: neither does
    the table afterwards, and what it holds for a remote invoice does not
    depend on which of several rows a lookup would return. *)
Lemma sync_run_stored customer_id current_user res clk db r db' :
  run (AdminRouter.sync_customer_invoices py unique customer_id current_user res clk) db
    = (Ok r, db') ->
  NoDup (remote_id <$> remote_invoices res) ->
  NoDup (invoice_ids (invoices db)) ->
  NoDup (invoice_ids (invoices db')) /\
  forall sq_inv, sq_inv ∈ remote_invoices res -> stored py (invoices db') sq_inv.
Proof.
  intros Hrun Hnd Hdb.
  destruct (sync_run_effect _ _ _ _ _ _ _ Hrun Hnd)
    as (rows' & new & -> & _ & Hids & _ & Hnew & Hndn & _ & Hrefl & _).
  cbn [invoices with_invoices].
  assert (Hnd' : NoDup (invoice_ids (rows' ++ new)%list)).
  { rewrite fmap_app. apply NoDup_app. split_and!; [by rewrite Hids| |done].
    intros v Hv (row & -> & Hrow)%list_elem_of_fmap.
    rewrite Forall_forall in Hnew. destruct (Hnew row Hrow) as [_ Hfresh].
    by rewrite Hids in Hv. }
  split; [done|]. intros sq_inv Hin. apply reflects_stored; [done|by apply Hrefl].
Qed.
End SyncRun.

(** C5, amended.  For a remote invoice list with pairwise distinct ids and
    a table that holds no invoice id twice: after a synchronisation that
    completes, a second one, with any clock, answers [synced = 0] and
    leaves every table as it is, and the table still holds no id twice.
    The first run keeps every row at its place with its id, leaves the rows
    the remote list does not name as they are, adds exactly one row for
    each remote id the table did not hold, built from that remote invoice
    for the customer, counts the added rows, and afterwards the row of
    every remote invoice holds its amount, status and public URL. *)
Theorem sync_invoices_idempotent_on_distinct_ids
    (py : pylib) (unique : bool) (customer_id : Z) (current_user res : value)
    (clk clk' : nat -> clock) (db : database) (r : value) (db' : database) :
  run (AdminRouter.sync_customer_invoices py unique customer_id current_user res clk) db
    = (Ok r, db') ->
  NoDup (remote_id <$> remote_invoices res) ->
  NoDup (invoice_ids (invoices db)) ->
  run (AdminRouter.sync_customer_invoices py unique customer_id current_user res clk') db'
    = (Ok (synced 0), db') /\
  NoDup (invoice_ids (invoices db')) /\
  exists rows' new,
    db' = with_invoices (rows' ++ new) db /\
    r = synced (Z.of_nat (length new)) /\
    invoice_ids rows' = invoice_ids (invoices db) /\
    (forall j row, invoices db !! j = Some row ->
                   Invoice.square_invoice_id row ∉ remote_id <$> remote_invoices res ->
                   rows' !! j = Some row) /\
    (forall v, v ∈ invoice_ids new <->
               v ∈ remote_id <$> remote_invoices res /\ v ∉ invoice_ids (invoices db)) /\
    Forall (fun row => exists sq_inv,
              sq_inv ∈ remote_invoices res /\ new_row_of py customer_id sq_inv row) new /\
    (forall sq_inv, sq_inv ∈ remote_invoices res -> stored py (rows' ++ new) sq_inv).
Proof.
  intros Hrun Hnd Hdb.
  destruct (sync_run_stored py unique _ _ _ _ _ _ _ Hrun Hnd Hdb) as [Hnd' Hstored].
  destruct (sync_run_effect py unique _ _ _ _ _ _ _ Hrun Hnd)
    as (rows' & new & -> & -> & Hids & Hframe & Hnew & Hndn & Hrows & Hrefl & Hagain).
  cbn [invoices with_invoices] in *.
  split_and!; [apply Hagain|done|].
  exists rows', new. split_and!; try done.
  intros v. split.
  - intros (row & -> & Hrow)%list_elem_of_fmap.
    rewrite Forall_forall in Hnew. by apply Hnew.
  - intros [(sq_inv & -> & Hin)%list_elem_of_fmap Hfresh].
    destruct (Hstored sq_inv Hin) as [(row & Hrow & Hid) _].
    apply elem_of_app in Hrow as [Hrow|Hrow].
    + exfalso. apply Hfresh. rewrite <- Hids, <- Hid. by apply list_elem_of_fmap_2.
    + rewrite <- Hid. by apply list_elem_of_fmap_2.
Qed.

Lemma sync_idempotent_witness :
  let res := invoices_result [remote_invoice "inv_1" "PAID" (Some 2999) None;
                              remote_invoice "inv_2" "PAID" None (Some 14900)] in
  let db := with_invoices
              [Invoice.mk (VStr "inv_0") 1 VNone 10%float (VStr "PAID") 739600 VNone;
               Invoice.mk (VStr "inv_1") 1 VNone 0%float (VStr "UNPAID") 739610 VNone]
              sample_db in
  let db' := with_invoices
               [Invoice.mk (VStr "inv_0") 1 VNone 10%float (VStr "PAID") 739600 VNone;
                Invoice.mk (VStr "inv_1") 1 VNone 29.99%float (VStr "PAID") 739610
                  (VStr "https://squareup.com/pay-invoice/inv_1");
                Invoice.mk (VStr "inv_2") 1 VNone 149%float (VStr "PAID") 739617
                  (VStr "https://squareup.com/pay-invoice/inv_2")]
               sample_db in
  run (AdminRouter.sync_customer_invoices no_pylib true 1 admin_user res fixed_clock) db'
    = (Ok (synced 0), db') /\
  NoDup (invoice_ids (invoices db')) /\
  exists rows' new,
    db' = with_invoices (rows' ++ new) db /\
    synced 1 = synced (Z.of_nat (length new)) /\
    invoice_ids rows' = invoice_ids (invoices db) /\
    (forall j row, invoices db !! j = Some row ->
                   Invoice.square_invoice_id row ∉ remote_id <$> remote_invoices res ->
                   rows' !! j = Some row) /\
    (forall v, v ∈ invoice_ids new <->
               v ∈ remote_id <$> remote_invoices res /\ v ∉ invoice_ids (invoices db)) /\
    Forall (fun row => exists sq_inv,
              sq_inv ∈ remote_invoices res /\ new_row_of no_pylib 1 sq_inv row) new /\
    (forall sq_inv, sq_inv ∈ remote_invoices res -> stored no_pylib (rows' ++ new) sq_inv).
Proof.
  apply (sync_invoices_idempotent_on_distinct_ids no_pylib true 1 admin_user _ fixed_clock
           fixed_clock).
  - vm_compute. reflexivity.
  - vm_compute. repeat constructor; set_solver.
  - vm_compute. repeat constructor; set_solver.
Defined.

(** C5 as stated fails for a remote list that names one invoice id twice.
    The lookup of the second entry does not see the row queued for the
    first, so without a unique index the run inserts two rows for the one
    id and answers [synced = 2], and a second run leaves both; with a
    unique index the commit of the first run is refused and nothing is
    synchronised. *)
Lemma sync_repeated_id_not_idempotent :
  let res := invoices_result [remote_invoice "inv_1" "UNPAID" (Some 2999) None;
                              remote_invoice "inv_1" "PAID" (Some 2999) None] in
  let sync unique := run (AdminRouter.sync_customer_invoices no_pylib unique 1 admin_user res
                            fixed_clock) in
  (exists db1 r2 db2,
     sync false sample_db = (Ok (synced 2), db1) /\
     invoice_ids (invoices db1) = [VStr "inv_1"; VStr "inv_1"] /\
     sync false db1 = (Ok r2, db2) /\
     invoice_ids (invoices db2) = [VStr "inv_1"; VStr "inv_1"]) /\
  sync true sample_db = (Raise IntegrityError, sample_db).
Proof.
  split; [|vm_compute; reflexivity].
  eexists _, _, _. split_and!; vm_compute; reflexivity.
Qed.

(** ** Amounts *)

Section Amount.
Variable py : pylib.




End Amount.






(** * Further properties of the routes *)

Ltac unfold_handler :=
  unfold run, hbind, lift, query, raise, ret, modify, update_customer, add_log, add_payment,
    add_payment_method, add_invoice, db_add, db_commit, db_rollback, try_except, bind;
  cbv zeta.

Ltac tidy_tables Hi :=
  unfold append_rows, with_customers, with_subscription_logs, with_payments; simpl;
  rewrite ?app_nil_r, ?list_alter_alter_eq, ?(list_alter_insert _ _ _ _ Hi).

Ltac run_effect Hu Hrun :=
  revert Hrun; unfold_handler; cbn [working]; rewrite ?Hu; intros Hrun;
  repeat (case_match; simplify_eq/=).

Lemma get_by_id_lookup {A} (pk : A -> Z) k rows i r :
  get_by_id pk k rows = Some (i, r) -> rows !! i = Some r /\ pk r = k.
Proof. by intros (? & ? & _)%list_find_Some. Qed.

Lemma py_str_eqb_eq v s : py_str_eqb v s = true -> v = VStr s.
Proof. destruct v; try discriminate. simpl. by intros ->%String.eqb_eq. Qed.

(** ** Subscription lifecycle *)

(** X1.  A lifecycle request that is refused leaves the tables as they
    were: each of [activate_sub], [pause_sub], [resume_sub], [cancel_sub],
    [change_plan], [cancel_customer_subscription] and
    [admin_change_subscription] either answers with a response or commits
    nothing. *)
Theorem refused_lifecycle_request_changes_nothing
    (db : database) (u : nat) (customer_id : option Z) (k : Z) (variation h1 h2 : string)
    (current_user res : value) (today : date) (py : pylib) :
  let unchanged_or_answered (out : result value * database) :=
    answered out \/ snd out = db in
  unchanged_or_answered (run (PaymentRouter.activate_sub customer_id variation h1 h2 today) db) /\
  unchanged_or_answered (run (PaymentRouter.pause_sub u res today) db) /\
  unchanged_or_answered (run (PaymentRouter.resume_sub u res today) db) /\
  unchanged_or_answered (run (PaymentRouter.cancel_sub u res today) db) /\
  unchanged_or_answered (run (PaymentRouter.change_plan u variation res) db) /\
  unchanged_or_answered
    (run (AdminRouter.cancel_customer_subscription k current_user res today) db) /\
  unchanged_or_answered
    (run (AdminRouter.admin_change_subscription k variation current_user res today) db).
Proof.
  cbv zeta. unfold answered.
  split_and!.
  - unfold PaymentRouter.activate_sub, PaymentRouter.requested_customer,
      PaymentRouter.dummy_create_subscription. unfold_handler.
    repeat (case_match; simplify_eq/=; eauto).
  - unfold PaymentRouter.pause_sub, PaymentRouter.get_db_user. unfold_handler.
    repeat (case_match; simplify_eq/=; eauto).
  - unfold PaymentRouter.resume_sub, PaymentRouter.get_db_user. unfold_handler.
    repeat (case_match; simplify_eq/=; eauto).
  - unfold PaymentRouter.cancel_sub, PaymentRouter.get_db_user. unfold_handler.
    repeat (case_match; simplify_eq/=; eauto).
  - unfold PaymentRouter.change_plan, PaymentRouter.get_db_user. unfold_handler.
    repeat (case_match; simplify_eq/=; eauto).
  - unfold AdminRouter.cancel_customer_subscription, AdminRouter.require_admin. unfold_handler.
    repeat (case_match; simplify_eq/=; eauto).
  - unfold AdminRouter.admin_change_subscription, AdminRouter.require_admin. unfold_handler.
    repeat (case_match; simplify_eq/=; eauto).
Qed.

(** X2.  When [cancel_sub] answers, the answer is the platform's result,
    the customer's status is "CANCELED" with [subscription_active] false,
    one "CANCEL" row dated today is appended to the log, and nothing else
    changes. *)
Theorem cancel_sub_effect
    (db : database) (u : nat) (user : Customer.t) (res r : value) (today : date)
    (db' : database) :
  customers db !! u = Some user ->
  run (PaymentRouter.cancel_sub u res today) db = (Ok r, db') ->
  r = res /\
  db' = mkdb (<[u := set_subscription_status "CANCELED"
                       (set_subscription_active false user)]> (customers db))
             (subscription_logs db ++
                [SubscriptionLog.mk (Customer.id user) (Customer.square_subscription_id user)
                   "CANCEL" today])
             (subscription_plans db) (payments db) (payment_methods db) (invoices db).
Proof.
  intros Hu Hrun. revert Hrun.
  unfold PaymentRouter.cancel_sub, PaymentRouter.get_db_user. unfold_handler.
  cbn [working]. rewrite Hu. intros Hrun.
  repeat (case_match; simplify_eq/=).
  split; [done|]. tidy_tables Hu. reflexivity.
Qed.

Lemma cancel_sub_effect_witness :
  VDict [("success", VBool true)] = VDict [("success", VBool true)] /\
  mkdb [Customer.mk 1 (VStr "sq_test_123") (VStr "sub_test_456") VNone VNone
          false "CANCELED" (Some 0)]
       [SubscriptionLog.mk 1 (VStr "sub_test_456") "CANCEL" 7] [] [] [] [] =
  mkdb (<[0%nat := set_subscription_status "CANCELED"
                     (set_subscription_active false sample_customer)]> (customers sample_db))
       (subscription_logs sample_db ++
          [SubscriptionLog.mk (Customer.id sample_customer)
             (Customer.square_subscription_id sample_customer) "CANCEL" 7])
       (subscription_plans sample_db) (payments sample_db) (payment_methods sample_db)
       (invoices sample_db).
Proof.
  apply (cancel_sub_effect sample_db 0 sample_customer (VDict [("success", VBool true)]));
    reflexivity.
Defined.

(** X3.  When [cancel_customer_subscription] answers, the caller's role
    is "admin", the customer found by primary key is "CANCELED" with
    [subscription_active] false, one "CANCEL" row is appended to the log,
    and nothing else changes. *)
Theorem admin_cancel_effect
    (db : database) (k : Z) (i : nat) (c : Customer.t) (current_user res r : value)
    (today : date) (db' : database) :
  get_by_id Customer.id k (customers db) = Some (i, c) ->
  run (AdminRouter.cancel_customer_subscription k current_user res today) db = (Ok r, db') ->
  py_get current_user "role" = Ok (VStr "admin") /\
  db' = mkdb (<[i := set_subscription_status "CANCELED"
                       (set_subscription_active false c)]> (customers db))
             (subscription_logs db ++
                [SubscriptionLog.mk (Customer.id c) (Customer.square_subscription_id c)
                   "CANCEL" today])
             (subscription_plans db) (payments db) (payment_methods db) (invoices db).
Proof.
  intros Hget Hrun. destruct (get_by_id_lookup _ _ _ _ _ Hget) as [Hi _].
  unfold AdminRouter.cancel_customer_subscription, AdminRouter.require_admin in Hrun.
  run_effect Hget Hrun.
  split.
  - match goal with H : negb (py_str_eqb _ _) = false |- _ =>
      apply negb_false_iff, py_str_eqb_eq in H; by subst end.
  - tidy_tables Hi. reflexivity.
Qed.

Lemma admin_cancel_effect_witness :
  py_get admin_user "role" = Ok (VStr "admin") /\
  mkdb [Customer.mk 1 (VStr "sq_test_123") (VStr "sub_test_456") VNone VNone
          false "CANCELED" (Some 0)]
       [SubscriptionLog.mk 1 (VStr "sub_test_456") "CANCEL" 7] [] [] [] [] =
  mkdb (<[0%nat := set_subscription_status "CANCELED"
                     (set_subscription_active false sample_customer)]> (customers sample_db))
       (subscription_logs sample_db ++
          [SubscriptionLog.mk (Customer.id sample_customer)
             (Customer.square_subscription_id sample_customer) "CANCEL" 7])
       (subscription_plans sample_db) (payments sample_db) (payment_methods sample_db)
       (invoices sample_db).
Proof.
  apply (admin_cancel_effect sample_db 1 0 sample_customer admin_user
           (VDict [("subscription", VDict [("status", VStr "CANCELED")])])
           (VDict [("success", VBool true); ("message", VStr "Subscription canceled")]) 7);
    reflexivity.
Defined.

(** X4.  When [pause_sub] ([resume_sub]) answers, the platform's result
    has no "errors" key and is returned as it is, the customer has a
    subscription id, the status is "PAUSED" ("ACTIVE"), one "PAUSE"
    ("RESUME") row is appended to the log, and nothing else changes. *)
Theorem pause_and_resume_effect
    (resume : bool) (db : database) (u : nat) (user : Customer.t) (res r : value)
    (today : date) (db' : database) :
  customers db !! u = Some user ->
  run ((if resume then PaymentRouter.resume_sub else PaymentRouter.pause_sub) u res today) db
    = (Ok r, db') ->
  r = res /\ py_in "errors" res = Ok false /\
  truthy (Customer.square_subscription_id user) = true /\
  db' = mkdb (<[u := set_subscription_status (if resume then "ACTIVE" else "PAUSED") user]>
                (customers db))
             (subscription_logs db ++
                [SubscriptionLog.mk (Customer.id user) (Customer.square_subscription_id user)
                   (if resume then "RESUME" else "PAUSE") today])
             (subscription_plans db) (payments db) (payment_methods db) (invoices db).
Proof.
  intros Hu Hrun. destruct resume.
  - unfold PaymentRouter.resume_sub, PaymentRouter.get_db_user in Hrun. run_effect Hu Hrun.
    split_and!; try done; [by apply negb_false_iff|]. tidy_tables Hu. reflexivity.
  - unfold PaymentRouter.pause_sub, PaymentRouter.get_db_user in Hrun. run_effect Hu Hrun.
    split_and!; try done; [by apply negb_false_iff|]. tidy_tables Hu. reflexivity.
Qed.

Lemma pause_and_resume_effect_witness :
  let res := VDict [("subscription", VDict [("id", VStr "sub_test_456")])] in
  (res = res /\ py_in "errors" res = Ok false /\
   truthy (Customer.square_subscription_id sample_customer) = true /\
   mkdb [Customer.mk 1 (VStr "sq_test_123") (VStr "sub_test_456") VNone VNone true "PAUSED"
           (Some 0)]
        [SubscriptionLog.mk 1 (VStr "sub_test_456") "PAUSE" 7] [] [] [] [] =
   mkdb (<[0%nat := set_subscription_status "PAUSED" sample_customer]> (customers sample_db))
        (subscription_logs sample_db ++
           [SubscriptionLog.mk (Customer.id sample_customer)
              (Customer.square_subscription_id sample_customer) "PAUSE" 7])
        (subscription_plans sample_db) (payments sample_db) (payment_methods sample_db)
        (invoices sample_db)) /\
  (res = res /\ py_in "errors" res = Ok false /\
   truthy (Customer.square_subscription_id sample_customer) = true /\
   mkdb [Customer.mk 1 (VStr "sq_test_123") (VStr "sub_test_456") VNone VNone true "ACTIVE"
           (Some 0)]
        [SubscriptionLog.mk 1 (VStr "sub_test_456") "RESUME" 7] [] [] [] [] =
   mkdb (<[0%nat := set_subscription_status "ACTIVE" sample_customer]> (customers sample_db))
        (subscription_logs sample_db ++
           [SubscriptionLog.mk (Customer.id sample_customer)
              (Customer.square_subscription_id sample_customer) "RESUME" 7])
        (subscription_plans sample_db) (payments sample_db) (payment_methods sample_db)
        (invoices sample_db)).
Proof.
  split.
  - apply (pause_and_resume_effect false sample_db 0 sample_customer
             (VDict [("subscription", VDict [("id", VStr "sub_test_456")])])); reflexivity.
  - apply (pause_and_resume_effect true sample_db 0 sample_customer
             (VDict [("subscription", VDict [("id", VStr "sub_test_456")])])); reflexivity.
Defined.

(** X5.  When [activate_sub] answers, a customer with a platform id was
    requested; that customer gets the dummy subscription id, status
    "ACTIVE" and [subscription_active] true; an "ACTIVATE" row is logged;
    and a "PAID" payment of the plan's cost is recorded exactly when the
    plan variation is known. *)
Theorem activate_sub_effect
    (db : database) (customer_id : option Z) (variation h1 h2 : string) (today : date)
    (r : value) (db' : database) :
  run (PaymentRouter.activate_sub customer_id variation h1 h2 today) db = (Ok r, db') ->
  exists k i c,
    customer_id = Some k /\ get_by_id Customer.id k (customers db) = Some (i, c) /\
    truthy (Customer.square_customer_id c) = true /\
    r = PaymentRouter.dummy_create_subscription h1 h2 /\
    db' = mkdb (<[i := set_subscription_status "ACTIVE"
                         (set_subscription_active true
                            (set_square_subscription_id (VStr ("dummy_sub_" +:+ h1)) c))]>
                  (customers db))
               (subscription_logs db ++
                  [SubscriptionLog.mk (Customer.id c) (VStr ("dummy_sub_" +:+ h1))
                     "ACTIVATE" today])
               (subscription_plans db)
               (payments db ++
                  match PaymentRouter.first_plan variation (subscription_plans db) with
                  | Some (_, plan) =>
                      [Payment.mk (Customer.id c) (SubscriptionPlan.plan_cost plan) "PAID"
                         (VStr ("dummy_sub_" +:+ h1))]
                  | None => []
                  end)
               (payment_methods db) (invoices db).
Proof.
  intros Hrun.
  unfold PaymentRouter.activate_sub, PaymentRouter.requested_customer,
    PaymentRouter.dummy_create_subscription in Hrun.
  revert Hrun. unfold_handler. cbn [working]. intros Hrun.
  repeat (case_match; simplify_eq/=).
  all: rewrite ?app_nil_r in *; simplify_eq/=.
  all: match goal with H : get_by_id _ _ _ = Some (?i, ?c) |- _ =>
         destruct (get_by_id_lookup _ _ _ _ _ H) as [Hi _];
         eexists _, i, c; split_and!; try done;
         [by apply negb_false_iff|tidy_tables Hi; reflexivity] end.
Qed.

Lemma activate_sub_effect_witness :
  exists k i c,
    Some 1 = Some k /\ get_by_id Customer.id k (customers sample_db) = Some (i, c) /\
    truthy (Customer.square_customer_id c) = true /\
    PaymentRouter.dummy_create_subscription "0123456789ab" "ba9876543210" =
      PaymentRouter.dummy_create_subscription "0123456789ab" "ba9876543210" /\
    snd (run (PaymentRouter.activate_sub (Some 1) "basic_plan_id" "0123456789ab"
                "ba9876543210" 7) sample_db) =
      mkdb (<[i := set_subscription_status "ACTIVE"
                     (set_subscription_active true
                        (set_square_subscription_id (VStr ("dummy_sub_" +:+ "0123456789ab"))
                           c))]> (customers sample_db))
           (subscription_logs sample_db ++
              [SubscriptionLog.mk (Customer.id c) (VStr ("dummy_sub_" +:+ "0123456789ab"))
                 "ACTIVATE" 7])
           (subscription_plans sample_db)
           (payments sample_db ++
              match PaymentRouter.first_plan "basic_plan_id" (subscription_plans sample_db) with
              | Some (_, plan) =>
                  [Payment.mk (Customer.id c) (SubscriptionPlan.plan_cost plan) "PAID"
                     (VStr ("dummy_sub_" +:+ "0123456789ab"))]
              | None => []
              end)
           (payment_methods sample_db) (invoices sample_db).
Proof.
  apply (activate_sub_effect sample_db (Some 1) "basic_plan_id" "0123456789ab"
           "ba9876543210" 7). reflexivity.
Defined.

(** X6.  When [admin_change_subscription] answers, the customer's plan
    and plan variation are replaced and an "ACTIVATE" row is logged if the
    plan variation is in the plan table; with an unknown variation the
    request still succeeds and the tables are unchanged. *)
Theorem admin_change_subscription_effect
    (db : database) (k : Z) (i : nat) (c : Customer.t) (variation : string)
    (current_user res r : value) (today : date) (db' : database) :
  get_by_id Customer.id k (customers db) = Some (i, c) ->
  run (AdminRouter.admin_change_subscription k variation current_user res today) db
    = (Ok r, db') ->
  r = VDict [("success", VBool true); ("message", VStr "Subscription updated successfully")] /\
  db' = match PaymentRouter.first_plan variation (subscription_plans db) with
        | Some (_, plan) =>
            mkdb (<[i := set_plan (VStr (pretty (SubscriptionPlan.id plan))) (VStr variation) c]>
                    (customers db))
                 (subscription_logs db ++
                    [SubscriptionLog.mk (Customer.id c) (Customer.square_subscription_id c)
                       "ACTIVATE" today])
                 (subscription_plans db) (payments db) (payment_methods db) (invoices db)
        | None => db
        end.
Proof.
  intros Hget Hrun. destruct (get_by_id_lookup _ _ _ _ _ Hget) as [Hi _].
  unfold AdminRouter.admin_change_subscription, AdminRouter.require_admin in Hrun.
  run_effect Hget Hrun; (split; [done|]); try done.
  tidy_tables Hi. reflexivity.
Qed.

Lemma admin_change_subscription_witness :
  let plan := SubscriptionPlan.mk 3 "premium_plan_id" 499 in
  let db := mkdb [sample_customer] [] [plan] [] [] [] in
  VDict [("success", VBool true); ("message", VStr "Subscription updated successfully")] =
  VDict [("success", VBool true); ("message", VStr "Subscription updated successfully")] /\
  mkdb [Customer.mk 1 (VStr "sq_test_123") (VStr "sub_test_456") (VStr "3")
          (VStr "premium_plan_id") true "ACTIVE" (Some 0)]
       [SubscriptionLog.mk 1 (VStr "sub_test_456") "ACTIVATE" 7] [plan] [] [] [] =
  match PaymentRouter.first_plan "premium_plan_id" (subscription_plans db) with
  | Some (_, plan) =>
      mkdb (<[0%nat := set_plan (VStr (pretty (SubscriptionPlan.id plan)))
                         (VStr "premium_plan_id") sample_customer]> (customers db))
           (subscription_logs db ++
              [SubscriptionLog.mk (Customer.id sample_customer)
                 (Customer.square_subscription_id sample_customer) "ACTIVATE" 7])
           (subscription_plans db) (payments db) (payment_methods db) (invoices db)
  | None => db
  end.
Proof.
  apply (admin_change_subscription_effect _ 1 0 sample_customer "premium_plan_id" admin_user
           (VDict [("success", VBool true)])); reflexivity.
Defined.

(** ** Webhook sequences *)

Lemma deliver_failed data sq db i c today :
  sq <> "" -> notifies "invoice.payment_failed" sq data -> resolves sq db i c ->
  deliver data today db = snd (run (Webhooks.handle_payment_failed data today) db).
Proof.
  intros Hne [Ht Hr] Hfind. unfold deliver. by rewrite (square_webhook_failed _ _ _ Ht).
Qed.

(** X7.  A sequence of failed-payment notifications, no longer than the
    counter's column can count (2147483647), for a customer who starts
    with no failure and is not suspended: the counter is their number, the
    customer is suspended from the third on, and the log gets exactly one
    "SUSPEND" row, dated by the third notification. *)
Theorem repeated_failures_suspend_once
    (db : database) (sq : string) (i : nat) (c : Customer.t) (events : list (value * date)) :
  sq <> "" ->
  resolves sq db i c ->
  Customer.failed_payment_attempts c = Some 0 ->
  Customer.subscription_status c <> "SUSPENDED" ->
  Z.of_nat (length events) <= int4_max ->
  Forall (fun e => notifies "invoice.payment_failed" sq (fst e)) events ->
  deliver_all events db =
    mkdb (<[i := after_failures (length events) c]> (customers db))
         (subscription_logs db ++ suspension_log c events)
         (subscription_plans db) (payments db) (payment_methods db) (invoices db).
Proof.
  intros Hne Hfind Hn Hst.
  assert (Hi : customers db !! i = Some c) by (by apply list_find_Some in Hfind as [? _]).
  induction events as [|[data today] events IH] using rev_ind; intros Hmax Hall.
  { assert (Hc : after_failures 0 c = c)
      by (unfold after_failures; destruct c; simpl in *; by subst).
    change (length (@nil (value * date))) with 0%nat. rewrite Hc.
    unfold deliver_all, suspension_log. cbn [foldl lookup list_lookup].
    rewrite app_nil_r, (list_insert_id _ _ _ Hi). by destruct db. }
  apply Forall_app in Hall as [Hall Hlast]. rewrite Forall_singleton in Hlast. simpl in Hlast.
  rewrite length_app in Hmax. simpl length in Hmax.
  unfold deliver_all in *. rewrite foldl_app. simpl. rewrite (IH ltac:(lia) Hall). clear IH.
  set (k := length events) in *.
  assert (Hres : resolves sq
            (mkdb (<[i := after_failures k c]> (customers db))
               (subscription_logs db ++ suspension_log c events)
               (subscription_plans db) (payments db) (payment_methods db) (invoices db))
            i (after_failures k c)).
  { apply (resolves_insert sq db i c _ Hfind). unfold after_failures.
    by destruct (k <? 3)%nat. }
  rewrite (deliver_failed _ _ _ _ _ _ Hne Hlast Hres).
  destruct Hlast as [_ Hr].
  rewrite (payment_failed_resolved _ _ _ _ _ _ Hne Hr Hres)
    by (unfold after_failures, int4_min; destruct (k <? 3)%nat; simpl; lia).
  cbn [snd customers subscription_logs subscription_plans payments payment_methods invoices].
  rewrite list_insert_insert_eq, length_app. simpl length. fold k.
  assert (Hsus : String.eqb (Customer.subscription_status c) "SUSPENDED" = false)
    by (by apply String.eqb_neq).
  unfold suspension_log.
  destruct (decide (k < 2)%nat) as [Hlt|Hge].
  - (* still below the threshold *)
    rewrite (lookup_ge_None_2 (events ++ [(data, today)]) 2)
      by (rewrite length_app; simpl; lia).
    rewrite (lookup_ge_None_2 events 2) by lia.
    unfold after_failures.
    replace (k <? 3)%nat with true by (symmetry; apply Nat.ltb_lt; lia).
    replace (k + 1 <? 3)%nat with true by (symmetry; apply Nat.ltb_lt; lia).
    cbn [Customer.failed_payment_attempts set_failed_payment_attempts default from_option].
    unfold id.
    replace (3 <=? Z.of_nat k + 1) with false by (symmetry; apply Z.leb_gt; lia).
    cbn [andb]. rewrite app_nil_r.
    replace (Z.of_nat (k + 1)) with (Z.of_nat k + 1) by lia. by destruct c.
  - destruct (decide (k = 2)%nat) as [Hk|Hk].
    + (* the third failure *)
      rewrite lookup_app_r by lia. replace (2 - length events)%nat with 0%nat by lia.
      rewrite (lookup_ge_None_2 events 2) by lia. cbn [lookup list_lookup].
      unfold after_failures. rewrite Hk. cbn [Nat.ltb Nat.leb Nat.add].
      cbn [Customer.failed_payment_attempts Customer.subscription_status
           set_failed_payment_attempts default from_option].
      unfold id. rewrite Hsus. cbn. rewrite app_nil_r. destruct c; reflexivity.
    + (* already suspended *)
      assert (is_Some (events !! 2%nat)) as [[d3 t3] H3] by (apply lookup_lt_is_Some; lia).
      rewrite (lookup_app_l_Some _ _ _ _ H3), H3.
      unfold after_failures.
      replace (k <? 3)%nat with false by (symmetry; apply Nat.ltb_ge; lia).
      replace (k + 1 <? 3)%nat with false by (symmetry; apply Nat.ltb_ge; lia).
      cbn [Customer.failed_payment_attempts Customer.subscription_status
           set_failed_payment_attempts set_subscription_status set_subscription_active
           default from_option].
      unfold id.
      replace (String.eqb "SUSPENDED" "SUSPENDED") with true by reflexivity.
      rewrite andb_false_r, app_nil_r.
      replace (Z.of_nat (k + 1)) with (Z.of_nat k + 1) by lia. by destruct c.
Qed.

Lemma repeated_failures_witness :
  let failed := test_notification "invoice.payment_failed" "sq_test_123" in
  deliver_all [(failed, 1); (failed, 2); (failed, 3); (failed, 4); (failed, 5)] sample_db =
    mkdb [Customer.mk 1 (VStr "sq_test_123") (VStr "sub_test_456") VNone VNone
            false "SUSPENDED" (Some 5)]
         [SubscriptionLog.mk 1 (VStr "sub_test_456") "SUSPEND" 3] [] [] [] [].
Proof.
  apply (repeated_failures_suspend_once sample_db "sq_test_123" 0 sample_customer
           [(test_notification "invoice.payment_failed" "sq_test_123", 1);
            (test_notification "invoice.payment_failed" "sq_test_123", 2);
            (test_notification "invoice.payment_failed" "sq_test_123", 3);
            (test_notification "invoice.payment_failed" "sq_test_123", 4);
            (test_notification "invoice.payment_failed" "sq_test_123", 5)]);
    try reflexivity; try discriminate.
  repeat constructor.
Defined.

(** X8.  A notification whose recipient id is missing, empty or carried
    by no customer is acknowledged with "success" and changes nothing,
    whatever its event type. *)
Theorem notification_without_known_customer_is_ignored
    (db : database) (data v : value) (today : date) :
  (exists event_type, py_get data "type" = Ok event_type) ->
  Webhooks.recipient_customer_id data = Ok v ->
  truthy v = false \/
  (exists sq, v = VStr sq /\
     list_find (fun r => Is_true (column_matches (VStr sq) (Customer.square_customer_id r)))
       (customers db) = None) ->
  run (Webhooks.square_webhook (Some data) today) db =
    (Ok (Webhooks.mkresp 200 Webhooks.StatusSuccess), db).
Proof.
  intros [event_type Ht] Hr Hv.
  assert (Hf : run (Webhooks.handle_payment_failed data today) db = (Ok tt, db)).
  { unfold run, Webhooks.handle_payment_failed, try_except, hbind, lift, query, ret.
    rewrite Hr. destruct Hv as [->|(sq & -> & Hnone)]; [done|].
    destruct (negb (truthy (VStr sq))); [done|]. cbn [working first_by]. by rewrite Hnone. }
  assert (Hs : run (Webhooks.handle_payment_success data today) db = (Ok tt, db)).
  { unfold run, Webhooks.handle_payment_success, try_except, hbind, lift, query, ret.
    rewrite Hr. destruct Hv as [->|(sq & -> & Hnone)]; [done|].
    destruct (negb (truthy (VStr sq))); [done|]. cbn [working first_by]. by rewrite Hnone. }
  destruct (py_str_eqb event_type "invoice.payment_failed") eqn:Ef.
  { assert (event_type = VStr "invoice.payment_failed") as ->.
    { destruct event_type; try done. simpl in Ef. by apply String.eqb_eq in Ef as ->. }
    by rewrite (square_webhook_failed _ _ _ Ht), Hf. }
  destruct (py_str_eqb event_type "invoice.payment_made") eqn:Em.
  { assert (event_type = VStr "invoice.payment_made") as ->.
    { destruct event_type; try done. simpl in Em. by apply String.eqb_eq in Em as ->. }
    by rewrite (square_webhook_made _ _ _ Ht), Hs. }
  destruct data; try discriminate.
  unfold run, Webhooks.square_webhook, try_except, hbind, lift. rewrite Ht.
  cbn [py_get py_get_default]. by rewrite Ef, Em.
Qed.

Lemma unknown_customer_witness :
  run (Webhooks.square_webhook
         (Some (test_notification "invoice.payment_failed" "sq_other")) 4) sample_db =
    (Ok (Webhooks.mkresp 200 Webhooks.StatusSuccess), sample_db).
Proof.
  apply (notification_without_known_customer_is_ignored sample_db _ (VStr "sq_other")).
  - eexists. reflexivity.
  - reflexivity.
  - right. exists "sq_other". split; reflexivity.
Defined.

(** X9.  For a customer whose failure counter is null, a payment-made
    notification is acknowledged but changes nothing (the comparison of the
    counter with 0 fails and the handler rolls back), so a suspended
    customer stays suspended; a failed-payment notification counts the
    null counter as 0 and sets it to 1. *)
Theorem null_counter_blocks_reactivation
    (db : database) (sq : string) (i : nat) (c : Customer.t) (failed made : value)
    (today : date) :
  sq <> "" ->
  notifies "invoice.payment_failed" sq failed ->
  notifies "invoice.payment_made" sq made ->
  resolves sq db i c ->
  Customer.failed_payment_attempts c = None ->
  run (Webhooks.square_webhook (Some made) today) db =
    (Ok (Webhooks.mkresp 200 Webhooks.StatusSuccess), db) /\
  deliver failed today db =
    mkdb (<[i := set_failed_payment_attempts (Some 1) c]> (customers db))
         (subscription_logs db) (subscription_plans db) (payments db)
         (payment_methods db) (invoices db).
Proof.
  intros Hne [Htf Hrf] [Htm Hrm] Hfind Hn. split.
  - rewrite (square_webhook_made _ _ _ Htm). f_equal.
    unfold run, Webhooks.handle_payment_success, try_except, hbind, lift, query.
    rewrite Hrm, (truthy_str _ Hne). cbn [negb working]. rewrite first_by_str.
    unfold resolves in Hfind. rewrite Hfind. cbv beta iota.
    unfold Webhooks.attempts_positive. rewrite Hn. reflexivity.
  - unfold deliver.
    rewrite (square_webhook_failed _ _ _ Htf),
      (payment_failed_resolved _ _ _ _ _ _ Hne Hrf Hfind)
      by (rewrite Hn; unfold int4_min, int4_max; simpl; lia).
    rewrite Hn. simpl. by rewrite app_nil_r.
Qed.

Lemma null_counter_witness :
  let c := Customer.mk 1 (VStr "sq_test_123") (VStr "sub_test_456") VNone VNone
             false "SUSPENDED" None in
  let db := mkdb [c] [] [] [] [] [] in
  run (Webhooks.square_webhook
         (Some (test_notification "invoice.payment_made" "sq_test_123")) 4) db =
    (Ok (Webhooks.mkresp 200 Webhooks.StatusSuccess), db) /\
  deliver (test_notification "invoice.payment_failed" "sq_test_123") 4 db =
    mkdb (<[0%nat := set_failed_payment_attempts (Some 1) c]> (customers db))
         (subscription_logs db) (subscription_plans db) (payments db)
         (payment_methods db) (invoices db).
Proof.
  apply (null_counter_blocks_reactivation _ "sq_test_123" 0);
    try (split; reflexivity); try reflexivity.
  discriminate.
Defined.

(** X21.  For a customer whose failure counter is at the largest value its
    column holds, 2147483647, a failed-payment notification is
    acknowledged and changes nothing: the commit of the incremented
    counter is refused and the handler rolls back. *)
Theorem failure_at_counter_limit_changes_nothing
    (db : database) (sq : string) (i : nat) (c : Customer.t) (failed : value) (today : date) :
  sq <> "" ->
  notifies "invoice.payment_failed" sq failed ->
  resolves sq db i c ->
  Customer.failed_payment_attempts c = Some int4_max ->
  run (Webhooks.square_webhook (Some failed) today) db =
    (Ok (Webhooks.mkresp 200 Webhooks.StatusSuccess), db).
Proof.
  intros Hne [Ht Hr] Hfind Hn.
  rewrite (square_webhook_failed _ _ _ Ht). f_equal.
  unfold run, Webhooks.handle_payment_failed, try_except, hbind, lift, query.
  rewrite Hr, (truthy_str _ Hne). cbn [negb working]. rewrite first_by_str.
  unfold resolves in Hfind. rewrite Hfind. cbv beta iota zeta.
  rewrite Hn. unfold commit_attempts. cbn [default from_option]. unfold id.
  replace ((int4_max + 1 <? int4_min) || (int4_max <? int4_max + 1)) with true
    by reflexivity.
  unfold update_customer, modify, add_log, db_add, raise, ret, db_rollback.
  by destruct (_ && _).
Qed.

Lemma counter_limit_witness :
  let c := Customer.mk 1 (VStr "sq_test_123") (VStr "sub_test_456") VNone VNone
             false "SUSPENDED" (Some 2147483647) in
  let db := mkdb [c] [] [] [] [] [] in
  run (Webhooks.square_webhook
         (Some (test_notification "invoice.payment_failed" "sq_test_123")) 4) db =
    (Ok (Webhooks.mkresp 200 Webhooks.StatusSuccess), db).
Proof.
  apply (failure_at_counter_limit_changes_nothing _ "sq_test_123" 0
           (Customer.mk 1 (VStr "sq_test_123") (VStr "sub_test_456") VNone VNone
              false "SUSPENDED" (Some 2147483647))).
  - discriminate.
  - split; reflexivity.
  - reflexivity.
  - reflexivity.
Defined.

(** ** Invoice synchronisation *)

Lemma same_invoice_refl rows : Forall2 same_invoice rows rows.
Proof. induction rows; constructor; try done. Qed.

Lemma same_invoice_before (rows rows' : list Invoice.t) (i : nat) r r' :
  Forall2 same_invoice (<[i := r']> rows) rows' -> rows !! i = Some r -> same_invoice r r' ->
  Forall2 same_invoice rows rows'.
Proof.
  revert i rows'. induction rows as [|x rows IH]; intros [|i] rows' Hall Hi Hs;
    simplify_eq/=; inversion Hall as [|? y ? l' Hxy Htl]; subst; constructor; try done.
  - destruct Hxy as (?&?&?&?), Hs as (?&?&?&?). split_and!; congruence.
  - by eapply IH.
Qed.

Section SyncFrame.
Variable py : pylib.
Variable unique : bool.
Variable customer : Customer.t.

Lemma sync_invoice_committed clk sq_inv n s :
  committed (snd (AdminRouter.sync_invoice py customer clk sq_inv n s)) = committed s.
Proof.
  unfold AdminRouter.sync_invoice, AdminRouter.update_invoice, hbind, lift, query, ret,
    modify, add_invoice, db_add.
  repeat (case_match; simplify_eq/=; try done).
Qed.

Lemma sync_loop_committed clk items : forall k n s,
  committed (snd (AdminRouter.sync_loop py customer clk k items n s)) = committed s.
Proof.
  induction items as [|x rest IH]; intros k n s; [done|].
  cbn [AdminRouter.sync_loop]. unfold hbind.
  pose proof (sync_invoice_committed (clk k) x n s) as Hc.
  destruct (AdminRouter.sync_invoice py customer (clk k) x n s) as [[n1|e] s1]; simpl in *.
  - by rewrite IH.
  - done.
Qed.

(** A completed loop keeps the rows it found, changing only their amount,
    status and public URL, and queues one new row per counted invoice. *)
Lemma sync_loop_frame clk items : forall k n s n' s',
  AdminRouter.sync_loop py customer clk k items n s = (Ok n', s') ->
  exists rows' new,
    s' = mksession (committed s) (with_invoices rows' (working s))
           (with_invoices (invoices (pending s) ++ new) (pending s)) /\
    Forall2 same_invoice (invoices (working s)) rows' /\
    n' = n + Z.of_nat (length new).
Proof.
  induction items as [|x rest IH]; intros k n s n' s' Hrun.
  { injection Hrun as <- <-. exists (invoices (working s)), [].
    split_and!; [apply session_eta|apply same_invoice_refl|simpl; lia]. }
  cbn [AdminRouter.sync_loop] in Hrun. unfold hbind in Hrun.
  destruct (AdminRouter.sync_invoice py customer (clk k) x n s) as [[n1|e] s1] eqn:Hstep;
    [|discriminate].
  apply sync_invoice_effect in Hstep
    as (a & status & url & Htext & Ha & Hs & Hu & Hcase).
  destruct Hcase as [(Hnone & -> & r & Hrid & Hra & Hrs & Hru & ->)
                    |(i & r0 & Hsome & -> & ->)].
  - destruct (IH _ _ _ _ _ Hrun) as (rows' & new & -> & Hsame & ->).
    cbn [committed working pending invoices with_invoices] in *.
    exists rows', (r :: new). split_and!; [|done|simpl length; lia].
    unfold with_invoices. simpl. by rewrite <- app_assoc.
  - destruct (find_id_Some _ _ _ _ Htext Hsome) as [Hi Hr0].
    destruct (IH _ _ _ _ _ Hrun) as (rows' & new & -> & Hsame & ->).
    cbn [committed working pending invoices with_invoices] in *.
    exists rows', new. split_and!; try done.
    by eapply same_invoice_before.
Qed.
End SyncFrame.

(** X10.  A synchronisation either fails and leaves the tables as they
    were, or answers with the number of new rows; then the invoice table
    is the old rows, unchanged in id, customer, subscription and due date,
    followed by that many new rows, and no other table changes. *)
Theorem sync_is_all_or_nothing
    (py : pylib) (unique : bool) (customer_id : Z) (current_user res : value)
    (clk : nat -> clock) (db : database) :
  let out := run (AdminRouter.sync_customer_invoices py unique customer_id current_user res
                    clk) db in
  (exists e, fst out = Raise e /\ snd out = db) \/
  (exists rows' new,
     fst out = Ok (synced (Z.of_nat (length new))) /\
     snd out = with_invoices (rows' ++ new) db /\
     Forall2 same_invoice (invoices db) rows').
Proof.
  cbv zeta. rewrite sync_unfold.
  destruct (sync_inputs customer_id current_user res db) as [[customer items]|e];
    [|left; eauto].
  pose proof (sync_loop_committed py customer clk items 0 0 (mksession db db no_rows)) as Hc.
  destruct (AdminRouter.sync_loop py customer clk 0 items 0 _) as [[n|e] s1] eqn:Hloop;
    simpl in Hc; [|left; eauto].
  destruct (AdminRouter.insert_invoices unique _ _) as [t|e]; [|left; eauto].
  right. destruct (sync_loop_frame py customer clk items _ _ _ _ _ Hloop)
    as (rows' & new & -> & Hsame & ->).
  exists rows', new. cbn [fst snd working pending invoices no_rows with_invoices].
  change ([] ++ new)%list with new. rewrite append_new_invoices. by split_and!.
Qed.

(** ** Cards *)

(** X11.  [remove_card] always answers with success; it deletes the
    first payment method that belongs to the user and has the card id,
    and nothing at all when there is none: a card of another customer with
    the same id stays. *)
Theorem remove_card_deletes_one_own_card
    (db : database) (u : nat) (user : Customer.t) (card_id : string) :
  customers db !! u = Some user ->
  let out := run (PaymentRouter.remove_card u card_id) db in
  fst out = Ok (VDict [("success", VBool true);
                       ("message", VStr "Card removed successfully")]) /\
  ((Forall (fun m => ~ owns_card user card_id m) (payment_methods db) /\ snd out = db) \/
   (exists i m,
      payment_methods db !! i = Some m /\
      PaymentMethod.customer_id m = Customer.id user /\
      PaymentMethod.square_card_id m = VStr card_id /\
      (forall j m', payment_methods db !! j = Some m' -> (j < i)%nat ->
                    ~ owns_card user card_id m') /\
      snd out = with_payment_methods (delete i (payment_methods db)) db)).
Proof.
  intros Hu. cbv zeta.
  unfold PaymentRouter.remove_card, PaymentRouter.get_db_user. unfold_handler.
  cbn [working]. rewrite Hu.
  change (fun m => PaymentMethod.customer_id m = Customer.id user /\
                   Is_true (py_str_eqb (PaymentMethod.square_card_id m) card_id))
    with (owns_card user card_id).
  match goal with |- context [list_find ?P ?l] =>
    destruct (list_find P l) as [[i m]|] eqn:Hfind end.
  - simpl. split; [done|]. right.
    apply list_find_Some in Hfind as (Hi & [Hc Hm] & Hlt).
    exists i, m. split_and!; try done.
    + destruct (PaymentMethod.square_card_id m); try done. simpl in Hm.
      by apply Is_true_true, String.eqb_eq in Hm as ->.
    + unfold append_rows, with_payment_methods. simpl. by rewrite !app_nil_r.
  - simpl. split; [done|]. left. split; [|done]. simpl in Hfind.
    by apply list_find_None in Hfind.
Qed.

Lemma remove_card_witness :
  let m1 := PaymentMethod.mk 1 (VStr "card_a") (VStr "1111") (VStr "VISA") (VInt 1) (VInt 2030)
              false in
  let m2 := PaymentMethod.mk 2 (VStr "card_b") (VStr "2222") (VStr "VISA") (VInt 1) (VInt 2030)
              true in
  let m3 := PaymentMethod.mk 1 (VStr "card_b") (VStr "3333") (VStr "VISA") (VInt 1) (VInt 2030)
              true in
  let db := mkdb [sample_customer] [] [] [] [m1; m2; m3] [] in
  let out := run (PaymentRouter.remove_card 0 "card_b") db in
  fst out = Ok (VDict [("success", VBool true);
                       ("message", VStr "Card removed successfully")]) /\
  ((Forall (fun m => ~ owns_card sample_customer "card_b" m) (payment_methods db) /\
    snd out = db) \/
   (exists i m,
      payment_methods db !! i = Some m /\
      PaymentMethod.customer_id m = Customer.id sample_customer /\
      PaymentMethod.square_card_id m = VStr "card_b" /\
      (forall j m', payment_methods db !! j = Some m' -> (j < i)%nat ->
                    ~ owns_card sample_customer "card_b" m') /\
      snd out = with_payment_methods (delete i (payment_methods db)) db)).
Proof.
  apply (remove_card_deletes_one_own_card _ 0 sample_customer "card_b"). reflexivity.
Defined.

(** X12.  When the platform customer is created and the card is then
    refused, [validate_card] and [save_card] answer 400 but the new
    platform customer id stays committed on the customer. *)
Theorem customer_creation_survives_card_failure
    (db : database) (k : Z) (i : nat) (c : Customer.t)
    (create_res card_res created new_id refused : value) :
  k <> 0 ->
  get_by_id Customer.id k (customers db) = Some (i, c) ->
  truthy (Customer.square_customer_id c) = false ->
  py_get create_res "success" = Ok created -> truthy created = true ->
  py_get create_res "customer_id" = Ok new_id ->
  py_get card_res "success" = Ok refused -> truthy refused = false ->
  let kept := with_customers (<[i := set_square_customer_id new_id c]> (customers db)) db in
  run (PaymentRouter.validate_card (Some k) create_res card_res) db
    = (Raise (HTTPException 400), kept) /\
  run (PaymentRouter.save_card i create_res card_res) db
    = (Raise (HTTPException 400), kept).
Proof.
  intros Hk Hget Hsq Hs Hst Hid Hc Hct.
  assert (Hi : customers db !! i = Some c) by (by apply list_find_Some in Hget as [? _]).
  cbv zeta. split.
  - unfold PaymentRouter.validate_card, PaymentRouter.requested_customer. unfold_handler.
    rewrite (proj2 (Z.eqb_neq k 0) Hk). cbn [negb working]. rewrite Hget, Hsq. cbn [negb].
    rewrite Hs, Hst. cbn [negb]. rewrite Hid. simpl. rewrite Hc, Hct. simpl.
    unfold append_rows, with_customers. simpl.
    by rewrite !app_nil_r, (list_alter_insert _ _ _ _ Hi).
  - unfold PaymentRouter.save_card, PaymentRouter.get_db_user. unfold_handler.
    cbn [working]. rewrite Hi, Hsq. cbn [negb]. rewrite Hs, Hst. cbn [negb]. rewrite Hid.
    simpl. rewrite Hc, Hct. simpl. unfold append_rows, with_customers. simpl.
    by rewrite !app_nil_r, (list_alter_insert _ _ _ _ Hi).
Qed.

Lemma customer_creation_witness :
  let c := Customer.mk 1 VNone VNone VNone VNone false "PENDING" (Some 0) in
  let db := mkdb [c] [] [] [] [] [] in
  let create_res := VDict [("success", VBool true); ("customer_id", VStr "sq_new")] in
  let card_res := VDict [("success", VBool false); ("error", VStr "declined")] in
  let kept :=
    with_customers (<[0%nat := set_square_customer_id (VStr "sq_new") c]> (customers db)) db in
  run (PaymentRouter.validate_card (Some 1) create_res card_res) db
    = (Raise (HTTPException 400), kept) /\
  run (PaymentRouter.save_card 0 create_res card_res) db
    = (Raise (HTTPException 400), kept).
Proof.
  apply (customer_creation_survives_card_failure _ 1 0 _ _ _ (VBool true) (VStr "sq_new")
           (VBool false)); try reflexivity.
  discriminate.
Defined.

(** X13.  [validate_card] without a customer id, with the id 0 or with
    an id no customer has never writes to the tables, whatever the platform
    answers. *)
Theorem validate_card_without_customer_never_writes
    (db : database) (create_res card_res : value) :
  snd (run (PaymentRouter.validate_card None create_res card_res) db) = db /\
  snd (run (PaymentRouter.validate_card (Some 0) create_res card_res) db) = db /\
  (forall k, get_by_id Customer.id k (customers db) = None ->
     snd (run (PaymentRouter.validate_card (Some k) create_res card_res) db) = db).
Proof.
  split_and!.
  - unfold PaymentRouter.validate_card, PaymentRouter.requested_customer. unfold_handler.
    repeat (case_match; simplify_eq/=; try done).
  - unfold PaymentRouter.validate_card, PaymentRouter.requested_customer. unfold_handler.
    repeat (case_match; simplify_eq/=; try done).
  - intros k Hk.
    unfold PaymentRouter.validate_card, PaymentRouter.requested_customer. unfold_handler.
    destruct (negb (k =? 0)); cbn [working]; rewrite ?Hk;
      repeat (case_match; simplify_eq/=; try done).
Qed.

(** ** Invoice views *)

Lemma assoc_dict_set_eq k x fields : assoc k (dict_set k x fields) = Some x.
Proof.
  induction fields as [|[k' v] fields IH]; simpl.
  - by rewrite String.eqb_refl.
  - destruct (String.eqb k k') eqn:E; simpl; rewrite E; [done|apply IH].
Qed.

Lemma assoc_dict_set_ne k k' x fields :
  k <> k' -> assoc k (dict_set k' x fields) = assoc k fields.
Proof.
  intros Hne. induction fields as [|[k0 v] fields IH]; simpl.
  - by rewrite (proj2 (String.eqb_neq k k') Hne).
  - destruct (String.eqb k' k0) eqn:E; simpl.
    + apply String.eqb_eq in E as <-. by rewrite (proj2 (String.eqb_neq k k') Hne).
    + destruct (String.eqb k k0); [done|apply IH].
Qed.

Section ViewProps.
Variable int_of_str : string -> option Z.

Lemma sum_requests_spec reqs amounts : forall acc,
  Forall2 (fun req a => Views.request_amount int_of_str req = Ok a) reqs amounts ->
  Views.sum_requests int_of_str reqs acc = Ok (acc + sum_Z amounts).
Proof.
  intros acc H. revert acc. induction H as [|req a reqs amounts Hreq _ IH]; intros acc; simpl.
  - f_equal. unfold sum_Z. simpl. lia.
  - unfold bind. rewrite Hreq, IH. f_equal. unfold sum_Z. simpl. lia.
Qed.

Lemma first_truthy_spec fields a b c :
  exists d, Views.first_truthy (VDict fields) a b c = Ok d /\
            (truthy c = true -> truthy d = true).
Proof.
  unfold Views.first_truthy, bind, py_or. simpl.
  destruct (truthy (default VNone (assoc a fields))) eqn:Ea; [eauto|].
  destruct (truthy (default VNone (assoc b fields))) eqn:Eb; eauto.
Qed.

Lemma billing_amount_sum reqs amounts :
  Forall2 (fun req a => Views.request_amount int_of_str req = Ok a) reqs amounts ->
  (if truthy (VList reqs)
   then match py_iter (VList reqs) with
        | Ok items => Views.sum_requests int_of_str items 0
        | Raise e => Raise e
        end
   else Ok 0) = Ok (sum_Z amounts).
Proof.
  intros Hall. destruct Hall as [|req a reqs amounts Hreq Hall]; [reflexivity|].
  cbn [truthy py_iter].
  by rewrite (sum_requests_spec (req :: reqs) (a :: amounts)) by (by constructor).
Qed.

(** X14.  The amount [billing_history] shows for an invoice is the sum
    of the computed amounts of all its payment requests, divided by
    100. *)
Theorem billing_history_sums_all_payment_requests
    (fields : list (string * value)) (reqs : list value) (amounts : list Z) (f : float) :
  assoc "payment_requests" fields = Some (VList reqs) ->
  Forall2 (fun req a => Views.request_amount int_of_str req = Ok a) reqs amounts ->
  int_div_100 (sum_Z amounts) = Ok f ->
  exists i, Views.enrich_billing_invoice int_of_str (VDict fields) = Ok i /\
            py_get i "amount" = Ok (VFloat f).
Proof.
  intros Hp Hall Hf.
  unfold Views.enrich_billing_invoice, bind.
  cbn [py_copy py_in py_getitem]. rewrite Hp. rewrite bool_decide_eq_true_2 by eauto.
  rewrite (billing_amount_sum _ _ Hall), Hf. cbn [py_setitem].
  destruct (first_truthy_spec (dict_set "amount" (VFloat f) fields) "title" "description"
              (VStr "Subscription Payment")) as (d & -> & _).
  cbn [py_setitem py_get py_get_default].
  repeat (case_match; simplify_eq/=).
  all: eexists; split; [reflexivity|]; simpl;
    rewrite assoc_dict_set_ne by done; rewrite assoc_dict_set_ne by done;
    by rewrite assoc_dict_set_eq.
Qed.

Lemma first_remote_invoice_skips id before fields after :
  Forall (fun inv => exists f, inv = VDict f /\ assoc "id" f <> Some (VStr id)) before ->
  assoc "id" fields = Some (VStr id) ->
  Views.first_remote_invoice id (before ++ VDict fields :: after) = Ok (VDict fields).
Proof.
  intros Hb Hid. induction Hb as [|inv before (f & -> & Hf) _ IH]; simpl.
  - unfold bind. cbn [py_get py_get_default]. rewrite Hid. simpl.
    by rewrite String.eqb_refl.
  - unfold bind. cbn [py_get py_get_default].
    destruct (assoc "id" f) as [[]|] eqn:E; simpl; try apply IH.
    destruct (String.eqb s id) eqn:Es; [|apply IH].
    apply String.eqb_eq in Es as ->. done.
Qed.

(** The platform's invoice, handed to the generator when no row has the
    sid. *)
Lemma my_invoice_for_pdf_remote db u user sid res before fields after amount :
  customers db !! u = Some user ->
  Forall (fun row => Invoice.square_invoice_id row <> VStr sid) (invoices db) ->
  truthy (default VNone (assoc "success" res)) = true ->
  assoc "invoices" res = Some (VList (before ++ VDict fields :: after)) ->
  Forall (fun inv => exists f, inv = VDict f /\ assoc "id" f <> Some (VStr sid)) before ->
  assoc "id" fields = Some (VStr sid) ->
  Views.pdf_invoice_amount int_of_str (VDict fields) = Ok amount ->
  run (Views.my_invoice_for_pdf int_of_str u sid (VDict res)) db =
    (Ok (Views.MockInvoice (VStr sid) amount (default VNone (assoc "status" fields))), db).
Proof.
  intros Hu Hrows Hs Hinv Hb Hid Ha.
  unfold Views.my_invoice_for_pdf, PaymentRouter.get_db_user. unfold_handler.
  cbn [working first_by]. rewrite Hu.
  match goal with |- context [list_find ?P ?l] =>
    destruct (list_find P l) as [[k row]|] eqn:Hfind end.
  { exfalso. apply list_find_Some in Hfind as (Hk & Hm & _).
    rewrite Forall_forall in Hrows. apply (Hrows row).
    - by eapply list_elem_of_lookup_2.
    - destruct (Invoice.square_invoice_id row); try done. simpl in Hm.
      by apply Is_true_true, String.eqb_eq in Hm as ->. }
  cbn [py_get py_get_default]. rewrite Hs. cbn [negb]. rewrite Hinv.
  cbn [default from_option]. unfold id at 1. cbn [py_iter].
  rewrite (first_remote_invoice_skips _ _ _ _ Hb Hid).
  assert (truthy (VDict fields) = true) as -> by (destruct fields; [discriminate|done]).
  cbn [negb]. rewrite Ha. cbn [py_get py_get_default]. rewrite Hid. reflexivity.
Qed.

(** X15.  For an invoice whose first payment request has the computed
    amount [n]: [get_recent_invoices] computes [n / 100] for it, whatever
    its other requests and its next-payment amount are; and when no row of
    the invoice table has the requested id, [download_my_invoice_pdf]
    hands the generator the platform's invoice with that id, with the
    amount [n / 100], and writes nothing. *)
Theorem first_request_decides_recent_and_pdf_amount
    (db : database) (u : nat) (user : Customer.t) (sid : string)
    (res : list (string * value)) (before after : list value)
    (fields : list (string * value)) (n : Z) (f : float) :
  customers db !! u = Some user ->
  Forall (fun row => Invoice.square_invoice_id row <> VStr sid) (invoices db) ->
  truthy (default VNone (assoc "success" res)) = true ->
  assoc "invoices" res = Some (VList (before ++ VDict fields :: after)) ->
  Forall (fun inv => exists f, inv = VDict f /\ assoc "id" f <> Some (VStr sid)) before ->
  assoc "id" fields = Some (VStr sid) ->
  first_computed_amount fields (Some n) ->
  int_div_100 n = Ok f ->
  Views.recent_invoice_amount int_of_str (VDict fields) = Ok (VFloat f) /\
  run (Views.my_invoice_for_pdf int_of_str u sid (VDict res)) db =
    (Ok (Views.MockInvoice (VStr sid) (VFloat f) (default VNone (assoc "status" fields))), db).
Proof.
  intros Hu Hrows Hs Hinv Hb Hid Hc Hf.
  inversion Hc as [| |first others money a Hp Hm Ha]; subst a.
  assert (Hreq : Views.request_amount int_of_str (VDict first) = Ok n).
  { unfold Views.request_amount, bind. cbn [py_get_default]. rewrite Hm.
    cbn [default from_option]. unfold id. cbn [py_get_default]. by rewrite Ha. }
  split.
  - unfold Views.recent_invoice_amount, Views.first_request_amount, bind.
    cbn [py_get py_get_default py_getitem]. rewrite Hp.
    cbn [default from_option]. unfold id. cbn [truthy py_index0].
    by rewrite Hreq, Hf.
  - apply (my_invoice_for_pdf_remote db u user sid res before fields after); try done.
    unfold Views.pdf_invoice_amount, bind.
    cbn [py_get py_get_default]. rewrite Hp.
    cbn [default from_option]. unfold id. cbn [truthy py_index0].
    by rewrite Hreq, Hf.
Qed.

(** X16.  For an invoice without payment requests and with the
    next-payment amount [n]: [get_recent_invoices] computes [n / 100] for
    it; and when no row of the invoice table has the requested id,
    [download_my_invoice_pdf] hands the generator the platform's invoice
    with the integer amount 0, and writes nothing. *)
Theorem next_payment_shown_only_without_requests
    (db : database) (u : nat) (user : Customer.t) (sid : string)
    (res : list (string * value)) (before after : list value)
    (fields : list (string * value)) (n : Z) (f : float) :
  customers db !! u = Some user ->
  Forall (fun row => Invoice.square_invoice_id row <> VStr sid) (invoices db) ->
  truthy (default VNone (assoc "success" res)) = true ->
  assoc "invoices" res = Some (VList (before ++ VDict fields :: after)) ->
  Forall (fun inv => exists f, inv = VDict f /\ assoc "id" f <> Some (VStr sid)) before ->
  assoc "id" fields = Some (VStr sid) ->
  assoc "payment_requests" fields = None \/
    assoc "payment_requests" fields = Some (VList []) ->
  next_payment_amount fields (Some n) ->
  int_div_100 n = Ok f ->
  Views.recent_invoice_amount int_of_str (VDict fields) = Ok (VFloat f) /\
  run (Views.my_invoice_for_pdf int_of_str u sid (VDict res)) db =
    (Ok (Views.MockInvoice (VStr sid) (VInt 0) (default VNone (assoc "status" fields))), db).
Proof.
  intros Hu Hrows Hs Hinv Hb Hid Hp Hn Hf.
  assert (Hfalse : truthy (default VNone (assoc "payment_requests" fields)) = false)
    by (by destruct Hp as [-> | ->]).
  inversion Hn as [|next m Hnext Hm]; subst m.
  split.
  - unfold Views.recent_invoice_amount, bind.
    cbn [py_get py_get_default py_getitem]. rewrite Hfalse, Hnext.
    cbn [default from_option]. unfold id.
    assert (Ht : truthy (VDict next) = true) by (destruct next; [discriminate|done]).
    rewrite Ht. cbn [py_get_default]. rewrite Hm. cbn [default from_option]. unfold id.
    unfold Views.py_int. by rewrite Hf.
  - apply (my_invoice_for_pdf_remote db u user sid res before fields after); try done.
    unfold Views.pdf_invoice_amount, bind.
    cbn [py_get py_get_default]. by rewrite Hfalse.
Qed.

(** X17.  An invoice enriched by [billing_history] is a dictionary
    that keeps every field of the platform's invoice other than "amount",
    "description" and "created_at"; its amount is a float and its
    description is never empty. *)
Theorem billing_enrichment_keeps_other_fields (inv i : value) :
  Views.enrich_billing_invoice int_of_str inv = Ok i ->
  exists fields fields',
    inv = VDict fields /\ i = VDict fields' /\
    (forall k, k <> "amount" -> k <> "description" -> k <> "created_at" ->
               assoc k fields' = assoc k fields) /\
    (exists f, assoc "amount" fields' = Some (VFloat f)) /\
    (exists d, assoc "description" fields' = Some d /\ truthy d = true).
Proof.
  destruct inv as [| | | | |items|fields].
  1-5: discriminate.
  - unfold Views.enrich_billing_invoice, bind. cbn [py_copy py_in].
    destruct (existsb _ items); cbn [py_getitem]; [discriminate|].
    destruct (int_div_100 0); discriminate.
  - unfold Views.enrich_billing_invoice, bind. cbn [py_copy py_in].
    destruct (if bool_decide _ then _ else Ok 0) as [amount|]; [|discriminate].
    destruct (int_div_100 amount) as [f|]; [|discriminate]. cbn [py_setitem].
    destruct (first_truthy_spec (dict_set "amount" (VFloat f) fields) "title" "description"
                (VStr "Subscription Payment")) as (d & -> & Hd).
    specialize (Hd eq_refl).
    cbn [py_setitem py_get py_get_default].
    intros Hi.
    assert (exists c, i = VDict (dict_set "created_at" c
                (dict_set "description" d (dict_set "amount" (VFloat f) fields)))) as [c ->].
    { revert Hi. repeat case_match; intros; simplify_eq/=; eauto. }
    eexists _, _. split_and!; [reflexivity|reflexivity|..].
    + intros k Ha Hde Hc. by rewrite !assoc_dict_set_ne.
    + exists f. rewrite !assoc_dict_set_ne by done. apply assoc_dict_set_eq.
    + exists d. rewrite assoc_dict_set_ne by done. by rewrite assoc_dict_set_eq.
Qed.

Lemma enrich_all_spec (enrich : value -> result value) items enriched :
  Views.enrich_all enrich items = Ok enriched ->
  Forall2 (fun inv i => enrich inv = Ok i) items enriched.
Proof.
  revert enriched. induction items as [|inv items IH]; intros enriched; simpl.
  - intros [= <-]. constructor.
  - unfold bind. destruct (enrich inv) as [i|] eqn:Hi; [|discriminate].
    destruct (Views.enrich_all enrich items) as [others|]; [|discriminate].
    intros [= <-]. constructor; auto.
Qed.

Lemma first_remote_invoice_found id items sq_inv :
  Views.first_remote_invoice id items = Ok sq_inv ->
  truthy sq_inv = true ->
  In sq_inv items /\ py_get sq_inv "id" = Ok (VStr id).
Proof.
  induction items as [|inv items IH]; simpl.
  - intros [= <-]. discriminate.
  - unfold bind. destruct (py_get inv "id") as [inv_id|] eqn:Hid; [|discriminate].
    destruct (py_str_eqb inv_id id) eqn:Heq.
    + intros [= <-] _. split; [by left|].
      destruct inv_id; try discriminate. simpl in Heq.
      by apply String.eqb_eq in Heq as ->.
    + intros H Ht. destruct (IH H Ht). split; [by right|done].
Qed.

(** X18.  [billing_history] never writes.  A user without platform id
    gets an empty list whatever the platform holds; a failed platform
    result is returned as it is; otherwise every invoice of the result is
    enriched, in order, and one invoice that cannot be enriched fails the
    whole request. *)
Theorem billing_history_lists_every_invoice
    (db db' : database) (u : nat) (res out : value) :
  run (Views.billing_history int_of_str u res) db = (Ok out, db') ->
  db' = db /\
  exists user, customers db !! u = Some user /\
    if truthy (Customer.square_customer_id user) then
      exists success, py_get res "success" = Ok success /\
        if truthy success then
          exists invoices items enriched,
            py_get_default res "invoices" (VList []) = Ok invoices /\
            py_iter invoices = Ok items /\
            Forall2 (fun inv i => Views.enrich_billing_invoice int_of_str inv = Ok i)
              items enriched /\
            out = VDict [("success", VBool true); ("invoices", VList enriched)]
        else out = res
    else out = VDict [("success", VBool true); ("invoices", VList [])].
Proof.
  unfold Views.billing_history, PaymentRouter.get_db_user. unfold_handler. cbn [working].
  destruct (customers db !! u) as [user|] eqn:Hu; [|intros; simplify_eq/=].
  destruct (truthy (Customer.square_customer_id user)) eqn:Hsq; cbn [negb].
  - destruct (py_get res "success") as [success|] eqn:Hs; [|intros; simplify_eq/=].
    destruct (truthy success) eqn:Hts; cbn [negb].
    + destruct (py_get_default res "invoices" (VList [])) as [invoices|] eqn:Hi;
        [|intros; simplify_eq/=].
      destruct (py_iter invoices) as [items|] eqn:Hit; [|intros; simplify_eq/=].
      destruct (Views.enrich_all _ items) as [enriched|] eqn:He; [|intros; simplify_eq/=].
      intros [= <- <-]. split; [done|]. exists user. rewrite Hsq. split; [done|].
      exists success. rewrite Hts. split; [done|].
      exists invoices, items, enriched. split_and!; try done.
      by apply enrich_all_spec.
    + intros [= <- <-]. split; [done|]. exists user. rewrite Hsq. split; [done|].
      exists success. by rewrite Hts.
  - intros [= <- <-]. split; [done|]. exists user. by rewrite Hsq.
Qed.

(** X19.  [download_my_invoice_pdf] never writes.  The invoice it
    hands to the generator is the first row with the requested id, and
    then that row belongs to the user; or, when no row has the id, an
    object built from the platform's invoice with that id. *)
Theorem pdf_invoice_is_requested_and_owned
    (db db' : database) (u : nat) (id : string) (res : value) (inv : Views.pdf_invoice) :
  run (Views.my_invoice_for_pdf int_of_str u id res) db = (Ok inv, db') ->
  db' = db /\
  match inv with
  | Views.LocalInvoice row =>
      exists user k, customers db !! u = Some user /\
        invoices db !! k = Some row /\
        Invoice.square_invoice_id row = VStr id /\
        (forall j row', invoices db !! j = Some row' -> (j < k)%nat ->
                        Invoice.square_invoice_id row' <> VStr id) /\
        Invoice.customer_id row = Customer.id user
  | Views.MockInvoice inv_id _ _ =>
      inv_id = VStr id /\
      Forall (fun row => Invoice.square_invoice_id row <> VStr id) (invoices db)
  end.
Proof.
  unfold Views.my_invoice_for_pdf, PaymentRouter.get_db_user. unfold_handler. cbn [working].
  destruct (customers db !! u) as [user|] eqn:Hu; [|intros; simplify_eq/=].
  cbn [first_by].
  match goal with |- context [list_find ?P ?l] =>
    destruct (list_find P l) as [[k row]|] eqn:Hfind end.
  - destruct (Invoice.customer_id row =? Customer.id user) eqn:Hown; cbn [negb];
      [|intros; simplify_eq/=].
    intros [= <- <-]. split; [done|]. exists user, k.
    apply list_find_Some in Hfind as (Hk & Hm & Hlt).
    split_and!; [done|done| | |lia].
    + destruct (Invoice.square_invoice_id row); try done. simpl in Hm.
      by apply Is_true_true, String.eqb_eq in Hm as ->.
    + intros j row' Hj Hjk Heq. apply (Hlt j row' Hj Hjk).
      rewrite Heq. simpl. by rewrite String.eqb_refl.
  - apply list_find_None in Hfind.
    destruct (py_get res "success") as [success|]; [|intros; simplify_eq/=].
    destruct (truthy success); cbn [negb]; [|intros; simplify_eq/=].
    destruct (py_get_default res "invoices" (VList [])) as [invoices|]; [|intros; simplify_eq/=].
    destruct (py_iter invoices) as [items|]; [|intros; simplify_eq/=].
    destruct (Views.first_remote_invoice id items) as [sq_inv|] eqn:Hsq;
      [|intros; simplify_eq/=].
    destruct (truthy sq_inv) eqn:Ht; cbn [negb]; [|intros; simplify_eq/=].
    destruct (first_remote_invoice_found _ _ _ Hsq Ht) as [_ Hid].
    destruct (Views.pdf_invoice_amount _ sq_inv) as [amount|]; [|intros; simplify_eq/=].
    rewrite Hid.
    destruct (py_get sq_inv "status") as [status|]; [|intros; simplify_eq/=].
    intros [= <- <-]. split; [done|]. split; [done|].
    eapply Forall_impl; [exact Hfind|]. intros row Hrow Heq. apply Hrow.
    rewrite Heq. simpl. by rewrite String.eqb_refl.
Qed.
End ViewProps.

Lemma billing_sum_witness :
  exists i,
    Views.enrich_billing_invoice no_int_of_str
      (VDict [("id", VStr "inv_1");
              ("payment_requests", VList [payment_request 1000; payment_request 2000])])
      = Ok i /\
    py_get i "amount" = Ok (VFloat 30%float).
Proof.
  apply (billing_history_sums_all_payment_requests no_int_of_str
           [("id", VStr "inv_1");
            ("payment_requests", VList [payment_request 1000; payment_request 2000])]
           [payment_request 1000; payment_request 2000] [1000; 2000] 30%float).
  - reflexivity.
  - repeat constructor.
  - reflexivity.
Defined.

Lemma first_request_witness :
  let fields := [("id", VStr "inv_9"); ("status", VStr "PAID");
                 ("payment_requests", VList [payment_request 1000; payment_request 2000]);
                 ("next_payment_amount_money", VDict [("amount", VInt 500)])] in
  let res := [("success", VBool true);
              ("invoices", VList [VDict [("id", VStr "inv_8")]; VDict fields])] in
  let db := with_invoices
              [Invoice.mk (VStr "inv_1") 1 VNone 5%float (VStr "PAID") 739617 VNone]
              sample_db in
  Views.recent_invoice_amount no_int_of_str (VDict fields) = Ok (VFloat 10%float) /\
  run (Views.my_invoice_for_pdf no_int_of_str 0 "inv_9" (VDict res)) db =
    (Ok (Views.MockInvoice (VStr "inv_9") (VFloat 10%float)
           (default VNone (assoc "status" fields))), db).
Proof.
  apply (first_request_decides_recent_and_pdf_amount no_int_of_str _ 0 sample_customer "inv_9"
           _ [VDict [("id", VStr "inv_8")]] [] _ 1000 10%float); try reflexivity.
  - repeat constructor. discriminate.
  - repeat constructor. eexists. split; [reflexivity|]. discriminate.
  - eapply first_request_computed; reflexivity.
Defined.

Lemma next_payment_witness :
  let fields := [("id", VStr "inv_9"); ("status", VStr "DRAFT");
                 ("payment_requests", VList []);
                 ("next_payment_amount_money", VDict [("amount", VInt 500)])] in
  let res := [("success", VBool true); ("invoices", VList [VDict fields])] in
  Views.recent_invoice_amount no_int_of_str (VDict fields) = Ok (VFloat 5%float) /\
  run (Views.my_invoice_for_pdf no_int_of_str 0 "inv_9" (VDict res)) sample_db =
    (Ok (Views.MockInvoice (VStr "inv_9") (VInt 0)
           (default VNone (assoc "status" fields))), sample_db).
Proof.
  apply (next_payment_shown_only_without_requests no_int_of_str _ 0 sample_customer "inv_9"
           _ [] [] _ 500 5%float); try reflexivity.
  - constructor.
  - constructor.
  - right. reflexivity.
  - eapply next_payment_of; reflexivity.
Defined.

Lemma billing_enrichment_witness :
  let inv := VDict [("id", VStr "inv_1"); ("title", VStr "");
                    ("created_at", VStr "2026-02-01");
                    ("payment_requests", VList [payment_request 1000])] in
  exists fields fields',
    inv = VDict fields /\
    VDict [("id", VStr "inv_1"); ("title", VStr "");
           ("created_at", VStr "2026-02-01");
           ("payment_requests", VList [payment_request 1000]);
           ("amount", VFloat 10%float);
           ("description", VStr "Subscription Payment")] = VDict fields' /\
    (forall k, k <> "amount" -> k <> "description" -> k <> "created_at" ->
               assoc k fields' = assoc k fields) /\
    (exists f, assoc "amount" fields' = Some (VFloat f)) /\
    (exists d, assoc "description" fields' = Some d /\ truthy d = true).
Proof.
  apply (billing_enrichment_keeps_other_fields no_int_of_str). reflexivity.
Defined.

Lemma billing_history_witness :
  let res := invoices_result [remote_invoice "inv_1" "PAID" (Some 1000) None] in
  let out :=
    VDict [("success", VBool true);
           ("invoices",
            VList [VDict [("id", VStr "inv_1"); ("status", VStr "PAID");
                          ("public_url", VStr "https://squareup.com/pay-invoice/inv_1");
                          ("payment_requests", VList [payment_request 1000]);
                          ("amount", VFloat 10%float);
                          ("description", VStr "Subscription Payment");
                          ("created_at", VNone)]])] in
  sample_db = sample_db /\
  exists user, customers sample_db !! 0%nat = Some user /\
    if truthy (Customer.square_customer_id user) then
      exists success, py_get res "success" = Ok success /\
        if truthy success then
          exists invoices items enriched,
            py_get_default res "invoices" (VList []) = Ok invoices /\
            py_iter invoices = Ok items /\
            Forall2 (fun inv i => Views.enrich_billing_invoice no_int_of_str inv = Ok i)
              items enriched /\
            out = VDict [("success", VBool true); ("invoices", VList enriched)]
        else out = res
    else out = VDict [("success", VBool true); ("invoices", VList [])].
Proof.
  apply (billing_history_lists_every_invoice no_int_of_str sample_db sample_db 0
           (invoices_result [remote_invoice "inv_1" "PAID" (Some 1000) None])).
  reflexivity.
Defined.

Lemma pdf_invoice_witness :
  let row := Invoice.mk (VStr "inv_1") 1 (VStr "sub_test_456") 10%float (VStr "PAID") 739617
               VNone in
  let other := Invoice.mk (VStr "inv_0") 2 VNone 10%float (VStr "PAID") 739617 VNone in
  let db := with_invoices [other; row] sample_db in
  db = db /\
  exists user k, customers db !! 0%nat = Some user /\
    invoices db !! k = Some row /\
    Invoice.square_invoice_id row = VStr "inv_1" /\
    (forall j row', invoices db !! j = Some row' -> (j < k)%nat ->
                    Invoice.square_invoice_id row' <> VStr "inv_1") /\
    Invoice.customer_id row = Customer.id user.
Proof.
  exact (pdf_invoice_is_requested_and_owned no_int_of_str
           (with_invoices [Invoice.mk (VStr "inv_0") 2 VNone 10%float (VStr "PAID") 739617 VNone;
                           Invoice.mk (VStr "inv_1") 1 (VStr "sub_test_456") 10%float
                             (VStr "PAID") 739617 VNone] sample_db) _ 0 "inv_1" VNone
           (Views.LocalInvoice _) eq_refl).
Defined.

(** ** Growth history *)

(** X20.  The entries of the growth history are dated by the 31
    consecutive days from the start of the window, and the revenue of an
    entry is that day's revenue alone (0.0 for a day without revenue),
    not a running total. *)
Theorem growth_history_dates_and_daily_revenue
    (py : pylib) (thirty_days_ago : date) (N : Z)
    (growth_map : gmap string Z) (revenue_map : gmap string float) :
  let day (i : nat) := strftime py (thirty_days_ago + Z.of_nat i) in
  let history := AdminRouter.growth_history py thirty_days_ago N growth_map revenue_map in
  map growth_date history = map day (seq 0 31) /\
  map growth_revenue history
    = map (fun i => default 0%float (revenue_map !! day i)) (seq 0 31).
Proof.
  intros day history. unfold history, AdminRouter.growth_history.
  rewrite growth_loop_spec, app_nil_l, !map_map. split; reflexivity.
Qed.
